(** * The Monaco editor coordinator of nteract, embedded in Rocq

    The development follows [MonacoEditor] (the React component that owns
    one native Monaco editor): its layout decision procedure, the viewport
    gate, the update pass (value push, language swap, focus), teardown,
    completion registration and the parameter-hint dismissal heuristic.

    Native objects are represented by the part of their state the component
    reads or writes.  Every call the component itself makes on a native API
    is recorded in a trace, so that "how many times" and "in which order"
    are statements about lists. *)

From Stdlib Require Import ZArith Ascii String List Bool Lia.
From stdpp Require Import base option strings list gmap.

(** ** JavaScript values *)

(** A monaco [Uri] is identified by its string form. *)
Abbreviation Uri := string (only parsing).

(** Truthiness of an optional boolean ([undefined] is falsy). *)
Definition truthy (b : option bool) : bool :=
  match b with Some true => true | _ => false end.

(** [b ?? d] on an optional boolean. *)
Definition nullish (b : option bool) (d : bool) : bool :=
  match b with Some x => x | None => d end.

(** [b === true]. *)
Definition is_true_strict (b : option bool) : bool :=
  match b with Some true => true | _ => false end.

(** Truthiness of a string: every string but the empty one. *)
Definition str_truthy (s : string) : bool :=
  match s with EmptyString => false | _ => true end.

(** Truthiness of a number (NaN is outside the model). *)
Definition num_truthy (z : Z) : bool := negb (z =? 0)%Z.

(** Truthiness of an optional number. *)
Definition optnum_truthy (z : option Z) : bool :=
  match z with Some n => num_truthy n | None => false end.

(** [a !== b] on strings. *)
Definition str_neq (a b : string) : bool := negb (String.eqb a b).

(** ** Native objects *)

(** [monaco.editor.IDimension] *)
Record Dimension := mkDimension { width : Z; height : Z }.

(** [monaco.IPosition] *)
Record Position := mkPosition { lineNumber : Z; column : Z }.

(** The container [div]: the measures the component reads from it.
    [offsetParent] tells whether the element has an offset parent. *)
Record Container := mkContainer {
  offsetParent : bool;
  offsetHeight : Z;
  clientWidth : Z;
  clientHeight : Z
}.

Inductive EndOfLineSequence := LF | CRLF.

(** [monaco.editor.ITextModel]: a text buffer, registered under its uri. *)
Record Model := mkModel {
  model_value : string;
  model_language : string;
  model_eol : EndOfLineSequence
}.

(** [monaco.editor.IStandaloneCodeEditor].  The editor refers to its model
    by uri: the registry holds the buffer, so a change made through the
    registry is seen through the editor and conversely. *)
Record Editor := mkEditor {
  ed_model : option Uri;
  ed_position : option Position;
  ed_hasWidgetFocus : bool;
  ed_contentHeight : Z;
  ed_containerDomNode : option Container;
  ed_focusable : bool;
  ed_disposed : bool
}.

(** A host callback that is handed the editor may change it. *)
Abbreviation Handler := (Editor -> Editor) (only parsing).

(** [IMonacoProps], the fields the modelled methods read.  A callback that
    only receives plain data is represented by its presence. *)
Record Props := mkProps {
  id : string;
  contentRef : string;
  theme : string;
  readOnly : option bool;
  value : string;
  editorFocused : option bool;
  modelUri : option Uri;
  enableCompletion : option bool;
  shouldRegisterDefaultCompletion : option bool;
  onCursorPositionChange : bool;
  onRegisterDocumentFormattingEditProvider : bool;
  enableFormatting : option bool;
  onRegisterCompletionProvider : bool;
  language : string;
  lineNumbers : option bool;
  batchLayoutChanges : option bool;
  shouldUpdateLayoutWhenNotFocused : option bool;
  skipLayoutWhenNotInViewport : option bool;
  skipLayoutWhenHidden : option bool;
  autoFitContentHeight : option bool;
  maxContentHeight : option Z;
  initialDimension : option Dimension;
  indentSize : option Z;
  tabSize : option Z;
  shortcutsOptions : bool;
  shortcutsHandler : option Handler;
  cursorPositionHandler : option Handler;
  commandHandler : option Handler;
  onDidCreateEditor : option Handler
}.

(** Work handed to [setTimeout]. *)
Inductive Task :=
| DisposeModelTask (u : Uri).

(** The operations of teardown that may throw. *)
Inductive TeardownOp :=
| OpGetModel
| OpResizeUnobserve
| OpIntersectUnobserve
| OpModelDispose
| OpEditorDispose
| OpMouseMoveDispose.

(** Calls made by the component on native APIs and on host callbacks. *)
Inductive Call :=
| GetValue (v : string)
| SetValue (v : string)
| HasWidgetFocus (b : bool)
| Focus
| GetModelByUri (u : Uri) (found : bool)
| CreateModel (v lang : string) (u : Uri)
| SetEOL (u : Uri) (eol : EndOfLineSequence)
| ModelUpdateOptions (u : Uri) (indent tab : option Z)
| CreateEditor (u : Uri)
| SetModel (u : Uri)
| GetPosition (p : option Position)
| SetPosition (p : Position)
| SetTimeout (t : Task)
| ModelDispose (u : Uri)
| EditorDispose
| Layout (d : Dimension)
| ScheduleEditorForLayout (d : option Dimension)
| EditorUpdateOptions
| GetSelection
| OnDidChangeCursorSelection
| AddEventListener (name : string)
| OnDidContentSizeChange
| OnDidChangeModelContent
| OnDidFocusEditorWidget
| OnDidBlurEditorWidget
| OnMouseMove
| MouseMoveDispose
| ResizeObserve
| ResizeUnobserve
| IntersectObserve
| IntersectUnobserve
| SetChannels
| OnLanguage (lang : string)
| HostRegisterCompletionProvider (lang : string)
| HostRegisterDocumentFormatter (lang : string)
| HostCursorPositionChange
| HostCursorPositionHandler
| HostCommandHandler
| HostShortcutsHandler
| HostDidCreateEditor
| CursorListenerDispose
| ConsoleError (op : TeardownOp).

(** ** The component instance and its surroundings *)

Record World := mkWorld {
  (* fields of the component *)
  editor : option Editor;
  editorContainerRef : option Container;
  cursorPositionListener : bool;
  mouseMoveListener : bool;
  intersectObservation : bool;
  isInViewport : bool;
  deferredLayoutRequest : bool;
  deferredLayoutDimension : option Dimension;
  (* monaco's model registry and the timer queue *)
  models : gmap string Model;
  timers : list Task
}.

Definition set_editor (e : option Editor) (w : World) : World :=
  mkWorld e (editorContainerRef w) (cursorPositionListener w)
    (mouseMoveListener w) (intersectObservation w) (isInViewport w)
    (deferredLayoutRequest w) (deferredLayoutDimension w) (models w) (timers w).

Definition set_editorContainerRef (c : option Container) (w : World) : World :=
  mkWorld (editor w) c (cursorPositionListener w)
    (mouseMoveListener w) (intersectObservation w) (isInViewport w)
    (deferredLayoutRequest w) (deferredLayoutDimension w) (models w) (timers w).

Definition set_cursorPositionListener (b : bool) (w : World) : World :=
  mkWorld (editor w) (editorContainerRef w) b
    (mouseMoveListener w) (intersectObservation w) (isInViewport w)
    (deferredLayoutRequest w) (deferredLayoutDimension w) (models w) (timers w).

Definition set_mouseMoveListener (b : bool) (w : World) : World :=
  mkWorld (editor w) (editorContainerRef w) (cursorPositionListener w)
    b (intersectObservation w) (isInViewport w)
    (deferredLayoutRequest w) (deferredLayoutDimension w) (models w) (timers w).

Definition set_intersectObservation (b : bool) (w : World) : World :=
  mkWorld (editor w) (editorContainerRef w) (cursorPositionListener w)
    (mouseMoveListener w) b (isInViewport w)
    (deferredLayoutRequest w) (deferredLayoutDimension w) (models w) (timers w).

Definition set_isInViewport (b : bool) (w : World) : World :=
  mkWorld (editor w) (editorContainerRef w) (cursorPositionListener w)
    (mouseMoveListener w) (intersectObservation w) b
    (deferredLayoutRequest w) (deferredLayoutDimension w) (models w) (timers w).

Definition set_deferredLayoutRequest (b : bool) (w : World) : World :=
  mkWorld (editor w) (editorContainerRef w) (cursorPositionListener w)
    (mouseMoveListener w) (intersectObservation w) (isInViewport w)
    b (deferredLayoutDimension w) (models w) (timers w).

Definition set_deferredLayoutDimension (d : option Dimension) (w : World) : World :=
  mkWorld (editor w) (editorContainerRef w) (cursorPositionListener w)
    (mouseMoveListener w) (intersectObservation w) (isInViewport w)
    (deferredLayoutRequest w) d (models w) (timers w).

Definition set_models (m : gmap string Model) (w : World) : World :=
  mkWorld (editor w) (editorContainerRef w) (cursorPositionListener w)
    (mouseMoveListener w) (intersectObservation w) (isInViewport w)
    (deferredLayoutRequest w) (deferredLayoutDimension w) m (timers w).

Definition set_timers (t : list Task) (w : World) : World :=
  mkWorld (editor w) (editorContainerRef w) (cursorPositionListener w)
    (mouseMoveListener w) (intersectObservation w) (isInViewport w)
    (deferredLayoutRequest w) (deferredLayoutDimension w) (models w) t.

(** ** A state monad with a trace *)

#[projections(primitive)]
Record Res (A : Type) := mkRes { val : A; st : World; tr : list Call }.
Arguments mkRes {A} _ _ _.
Arguments val {A} _.
Arguments st {A} _.
Arguments tr {A} _.

Definition M (A : Type) : Type := World -> Res A.

Definition ret {A} (a : A) : M A := fun w => mkRes a w [].

Definition bind {A B} (m : M A) (k : A -> M B) : M B :=
  fun w =>
    let r := m w in
    let r' := k (val r) (st r) in
    mkRes (val r') (st r') (tr r ++ tr r').

(** The calls [l] made before the run that gave [r]. *)
Definition prepend {A} (l : list Call) (r : Res A) : Res A :=
  mkRes (val r) (st r) (l ++ tr r).

Declare Scope comp_scope.
Delimit Scope comp_scope with comp.
Notation "'let*' x ':=' m 'in' k" := (bind m (fun x => k))
  (at level 10, x name, m at level 100, k at level 200) : comp_scope.
Notation "m1 '>>' m2" := (bind m1 (fun _ => m2))
  (at level 61, left associativity) : comp_scope.
Local Open Scope comp_scope.

(** Reading and writing the state, recording a call. *)
Definition gets {A} (f : World -> A) : M A := fun w => mkRes (f w) w [].
Definition modify (f : World -> World) : M unit := fun w => mkRes tt (f w) [].
Definition emit (c : Call) : M unit := fun w => mkRes tt w [c].
Definition when (b : bool) (m : M unit) : M unit := if b then m else ret tt.

(** A change of the editor behind the handle, when there is one. *)
Definition modifyEditor (f : Editor -> Editor) : M unit :=
  modify (fun w => set_editor (f <$> editor w) w).

(** ** Layout *)

Definition readEditorDomSize (w : World) : option Dimension :=
  match editor w with
  | Some ed =>
      match ed_containerDomNode ed with
      | Some container =>
          (* use clientHeight and clientWidth from the editor *)
          Some (mkDimension (clientWidth container) (clientHeight container))
      | None => None
      end
  | None => None
  end.

(** [this.editor?.getContentHeight()]: undefined without an editor. *)
Definition contentHeight (w : World) : option Z :=
  ed_contentHeight <$> editor w.

Definition getLayoutDimension (p : Props) (w : World) : option Dimension :=
  match readEditorDomSize w with
  | None => None
  | Some dim =>
      (* if the container is zero sized, return undefined *)
      if (width dim =? 0)%Z || (height dim =? 0)%Z then None
      else
        let dim1 :=
          if nullish (autoFitContentHeight p) true then
            (* auto fit the height to the content *)
            if optnum_truthy (contentHeight w)
            then mkDimension (width dim) (default 0%Z (contentHeight w))
            else dim
          else dim in
        let dim2 :=
          match maxContentHeight p with
          | Some m =>
              if num_truthy m
              then mkDimension (width dim1) (Z.min (height dim1) m)
              else dim1
          | None => dim1
          end in
        Some dim2
  end.

Definition isContainerHidden (w : World) : bool :=
  match editorContainerRef w with
  | Some container =>
      negb (offsetParent container) || negb (num_truthy (offsetHeight container))
  | None => true
  end.

(** write the layout to the DOM *)
Definition layout (d : Dimension) : M unit :=
  let* ed := gets editor in
  match ed with
  | None => ret tt
  | Some _ => emit (Layout d)
  end.

Definition shouldLayout (p : Props) (w : World) : bool :=
  if truthy (skipLayoutWhenHidden p) then negb (isContainerHidden w) else true.

(** [scheduleEditorForLayout] belongs to the layout scheduler; the
    component only hands the request over. *)
Definition scheduleEditorForLayout (d : option Dimension) : M unit :=
  emit (ScheduleEditorForLayout d).

Definition requestLayout (p : Props) (dimension : option Dimension) : M unit :=
  let* ed := gets editor in
  match ed with
  | None => ret tt
  | Some _ =>
      (* check if the editor is in the viewport first *)
      let* inViewport := gets isInViewport in
      if negb inViewport then
        modify (set_deferredLayoutDimension dimension) >>
        modify (set_deferredLayoutRequest true)
      else
        let* should := gets (shouldLayout p) in
        if negb should then ret tt
        else if is_true_strict (batchLayoutChanges p) then
          scheduleEditorForLayout dimension
        else
          let* dimension' :=
            match dimension with
            | Some d => ret (Some d)
            | None => gets (getLayoutDimension p)
            end in
          match dimension' with
          | Some d => layout d
          | None => ret tt
          end
  end.

Definition onIntersecting (p : Props) (isIntersecting : bool) : M unit :=
  let* cur := gets isInViewport in
  if negb (Bool.eqb cur isIntersecting) then
    modify (set_isInViewport isIntersecting) >>
    (let* inViewport := gets isInViewport in
     let* deferred := gets deferredLayoutRequest in
     if inViewport && deferred then
       modify (set_deferredLayoutRequest false) >>
       (let* d := gets deferredLayoutDimension in requestLayout p d)
     else ret tt)
  else ret tt.

Definition updateIntersectRegistration (p : Props) : M unit :=
  if truthy (skipLayoutWhenNotInViewport p) then
    let* ref := gets editorContainerRef in
    let* obs := gets intersectObservation in
    match ref with
    | Some _ =>
        if negb obs then
          modify (set_isInViewport false) >>
          emit IntersectObserve >>
          modify (set_intersectObservation true)
        else ret tt
    | None => ret tt
    end
  else
    (let* obs := gets intersectObservation in
     when obs (emit IntersectUnobserve >> modify (set_intersectObservation false))) >>
    (* assume all editors are in viewport if skipLayoutWhenNotInViewport is false *)
    modify (set_isInViewport true).

(** Tells editor to check the surrounding container size and resize itself *)
Definition onResize (p : Props) : M unit :=
  if truthy (shouldUpdateLayoutWhenNotFocused p) then requestLayout p None
  else
    let* ed := gets editor in
    match ed with
    | Some _ => if truthy (editorFocused p) then requestLayout p None else ret tt
    | None => ret tt
    end.

(** Calls that reach a layout, now or through the scheduler. *)
Definition is_layout_or_schedule (c : Call) : bool :=
  match c with Layout _ | ScheduleEditorForLayout _ => true | _ => false end.

(** ** Native operations the component calls *)

Definition ed_set_model (u : option Uri) (p : option Position) (e : Editor) : Editor :=
  mkEditor u p (ed_hasWidgetFocus e) (ed_contentHeight e)
    (ed_containerDomNode e) (ed_focusable e) (ed_disposed e).

Definition ed_set_position (p : option Position) (e : Editor) : Editor :=
  mkEditor (ed_model e) p (ed_hasWidgetFocus e) (ed_contentHeight e)
    (ed_containerDomNode e) (ed_focusable e) (ed_disposed e).

Definition ed_set_hasWidgetFocus (b : bool) (e : Editor) : Editor :=
  mkEditor (ed_model e) (ed_position e) b (ed_contentHeight e)
    (ed_containerDomNode e) (ed_focusable e) (ed_disposed e).

Definition ed_set_disposed (b : bool) (e : Editor) : Editor :=
  mkEditor (ed_model e) (ed_position e) (ed_hasWidgetFocus e) (ed_contentHeight e)
    (ed_containerDomNode e) (ed_focusable e) b.

Definition model_set_value (v : string) (m : Model) : Model :=
  mkModel v (model_language m) (model_eol m).

Definition charCR : ascii := "013"%char.
Definition charLF : ascii := "010"%char.

(** The characters of an end of line sequence. *)
Definition eolText (eol : EndOfLineSequence) : string :=
  match eol with
  | LF => String charLF EmptyString
  | CRLF => String charCR (String charLF EmptyString)
  end.

(** The text [s] with each of its line breaks (a carriage return and a
    line feed, a carriage return alone, a line feed alone) written as
    [eol].  [afterCR] says that the character before [s] was a carriage
    return: a line feed that follows it belongs to the same break. *)
Fixpoint normalizeFrom (eol : EndOfLineSequence) (afterCR : bool) (s : string)
  : string :=
  match s with
  | EmptyString => EmptyString
  | String c s' =>
      if Ascii.eqb c charCR then
        String.append (eolText eol) (normalizeFrom eol true s')
      else if Ascii.eqb c charLF then
        if afterCR then normalizeFrom eol false s'
        else String.append (eolText eol) (normalizeFrom eol false s')
      else String c (normalizeFrom eol false s')
  end.

Definition normalizeEOL (eol : EndOfLineSequence) (s : string) : string :=
  normalizeFrom eol false s.

(** What [model.setEOL(eol)] does to the buffer: it takes the sequence and
    the line endings of the current value are normalized to it. *)
Definition model_set_eol (eol : EndOfLineSequence) (m : Model) : Model :=
  mkModel (normalizeEOL eol (model_value m)) (model_language m) eol.

(** [editor.getModel()]: the uri of the attached model and the buffer the
    registry holds for it; a model that left the registry is detached. *)
Definition editorModel (w : World) : option (string * Model) :=
  match editor w with
  | Some ed =>
      match ed_model ed with
      | Some u =>
          match models w !! u with
          | Some m => Some (u, m)
          | None => None
          end
      | None => None
      end
  | None => None
  end.

(** The text [editor.getValue()] returns. *)
Definition editorValue (w : World) : string :=
  match editorModel w with
  | Some (_, m) => model_value m
  | None => ""
  end.

Definition getValue : M string :=
  let* v := gets editorValue in
  emit (GetValue v) >> ret v.

(** [editor.setValue(v)]: the text of the attached model is replaced.  The
    listeners the editor notifies of the change are not part of the call:
    the listener of the content size is [contentSizeChanged], which a
    mounted instance runs as the event [ContentSizeChanged]. *)
Definition setValue (v : string) : M unit :=
  emit (SetValue v) >>
  modify (fun w =>
    match editorModel w with
    | Some (u, _) => set_models (alter (model_set_value v) u (models w)) w
    | None => w
    end).

Definition hasWidgetFocus : M bool :=
  let* ed := gets editor in
  let b := match ed with Some e => ed_hasWidgetFocus e | None => false end in
  emit (HasWidgetFocus b) >> ret b.

(** [editor.focus()]: focus is taken when the browser grants it. *)
Definition focus : M unit :=
  emit Focus >>
  modifyEditor (fun e => ed_set_hasWidgetFocus (ed_hasWidgetFocus e || ed_focusable e) e).

(** [monaco.editor.getModel(uri)] *)
Definition monacoGetModel (u : Uri) : M bool :=
  let* ms := gets models in
  let found := match ms !! u with Some _ => true | None => false end in
  emit (GetModelByUri u found) >> ret found.

(** [model.setEOL(eol)] on the model registered at [u]. *)
Definition setEOL (u : Uri) (eol : EndOfLineSequence) : M unit :=
  emit (SetEOL u eol) >>
  modify (fun w => set_models (alter (model_set_eol eol) u (models w)) w).

(** [editor.setModel(model)]: the cursor starts at the top of the new model. *)
Definition setModel (u : Uri) : M unit :=
  emit (SetModel u) >>
  modifyEditor (ed_set_model (Some u) (Some (mkPosition 1 1))).

Definition getPosition : M (option Position) :=
  let* ed := gets editor in
  let p := match ed with Some e => ed_position e | None => None end in
  emit (GetPosition p) >> ret p.

Definition setPosition (pos : Position) : M unit :=
  emit (SetPosition pos) >> modifyEditor (ed_set_position (Some pos)).

Definition setTimeout (t : Task) : M unit :=
  emit (SetTimeout t) >> modify (fun w => set_timers (timers w ++ [t]) w).

(** [model.dispose()]: the model leaves the registry. *)
Definition modelDispose (u : Uri) : M unit :=
  emit (ModelDispose u) >> modify (fun w => set_models (delete u (models w)) w).

Definition runTask (t : Task) : M unit :=
  match t with
  | DisposeModelTask u => modelDispose u
  end.

Fixpoint runTasks (ts : list Task) : M unit :=
  match ts with
  | [] => ret tt
  | t :: ts' => runTask t >> runTasks ts'
  end.

(** The next turn of the event loop: the pending timers fire, in order. *)
Definition runTimers : M unit :=
  let* ts := gets timers in
  modify (set_timers []) >> runTasks ts.

(** A host callback that is handed the editor. *)
Definition callHandler (c : Call) (h : option Handler) : M unit :=
  match h with
  | Some f => emit c >> modifyEditor f
  | None => ret tt
  end.

(** ** Completion and formatting providers *)

(** Register default kernel-based completion provider. *)
Definition registerDefaultCompletionProvider (lang : string) : M unit :=
  emit (OnLanguage lang).

(** Register language features for target language. *)
Definition registerCompletionProvider (p : Props) : M unit :=
  if truthy (enableCompletion p) && str_truthy (language p) then
    if onRegisterCompletionProvider p then
      emit (HostRegisterCompletionProvider (language p))
    else if truthy (shouldRegisterDefaultCompletion p) then
      registerDefaultCompletionProvider (language p)
    else ret tt
  else ret tt.

Definition registerDocumentFormatter (p : Props) : M unit :=
  if truthy (enableFormatting p) && str_truthy (language p) then
    if onRegisterDocumentFormattingEditProvider p then
      emit (HostRegisterDocumentFormatter (language p))
    else ret tt
  else ret tt.

(** ** Focus helpers *)

Definition toggleEditorOptions (isActive : bool) : M unit :=
  let* ed := gets editor in
  match ed with
  | Some _ => emit EditorUpdateOptions
  | None => ret tt
  end.

Definition registerCursorListener (p : Props) : M unit :=
  let* ed := gets editor in
  match ed with
  | Some _ =>
      if onCursorPositionChange p then
        emit GetSelection >>
        emit HostCursorPositionChange >>
        (let* l := gets cursorPositionListener in
         if negb l then
           emit OnDidChangeCursorSelection >> modify (set_cursorPositionListener true)
         else ret tt)
      else ret tt
  | None => ret tt
  end.

Definition unregisterCursorListener : M unit :=
  let* l := gets cursorPositionListener in
  if l then
    emit CursorListenerDispose >> modify (set_cursorPositionListener false)
  else ret tt.

(** [if (editorFocused && !editor.hasWidgetFocus()) editor.focus()] *)
Definition focusIfRequested (p : Props) : M unit :=
  if truthy (editorFocused p) then
    let* f := hasWidgetFocus in
    if negb f then focus else ret tt
  else ret tt.

(** ** The component lifecycle *)

Section Lifecycle.

(** [DocumentUri.createCellUri(contentRef, id, language)] *)
Variable createCellUri : string -> string -> string -> Uri.
(** [monaco.Uri.file(id)] *)
Variable uriFile : string -> Uri.
(** The end of line convention monaco gives a new model on this platform. *)
Variable platformEOL : EndOfLineSequence.
(** [monaco.editor.create(container, options)]: the editor the library
    builds for a container and the model of the options. *)
Variable monacoCreate : Container -> Uri -> Editor.

(** [monaco.editor.createModel(value, language, uri)].  The component calls
    [setEOL] on every model it creates before anything reads it, which
    settles the line endings the new buffer has. *)
Definition createModel (v lang : string) (u : Uri) : M unit :=
  emit (CreateModel v lang u) >>
  modify (fun w => set_models (<[u := mkModel v lang platformEOL]> (models w)) w).

Definition componentDidMount (p : Props) : M unit :=
  let* ref := gets editorContainerRef in
  match ref with
  | None => ret tt
  | Some container =>
      (* Register intersection observer if needed *)
      updateIntersectRegistration p >>
      (* Register Jupyter completion provider if needed *)
      registerCompletionProvider p >>
      (* Register document formatter if needed *)
      registerDocumentFormatter p >>
      (* Use Monaco model uri if provided, otherwise one made of the editor id *)
      (let uri := match modelUri p with Some u => u | None => uriFile (id p) end in
       (* Only create a new model if it does not exist *)
       (let* found := monacoGetModel uri in
        if negb found then createModel (value p) (language p) uri else ret tt) >>
       setEOL uri LF >>
       emit (ModelUpdateOptions uri (indentSize p) (tabSize p)) >>
       (* Create Monaco editor backed by a Monaco model *)
       emit (CreateEditor uri) >>
       modify (set_editor (Some (monacoCreate container uri)))) >>
      callHandler HostDidCreateEditor (onDidCreateEditor p) >>
      (if shortcutsOptions p
       then callHandler HostShortcutsHandler (shortcutsHandler p)
       else ret tt) >>
      callHandler HostCommandHandler (commandHandler p) >>
      toggleEditorOptions (truthy (editorFocused p)) >>
      (if truthy (editorFocused p) then
         (let* f := hasWidgetFocus in
          (* Bring browser focus to the editor if text not already in focus *)
          if negb f then focus else ret tt) >>
         registerCursorListener p
       else ret tt) >>
      (* listeners for undo and redo actions emitted from the toolbar *)
      emit (AddEventListener "undo") >>
      emit (AddEventListener "redo") >>
      emit OnDidContentSizeChange >>
      emit OnDidChangeModelContent >>
      emit OnDidFocusEditorWidget >>
      emit OnDidBlurEditorWidget >>
      requestLayout p (initialDimension p) >>
      callHandler HostCursorPositionHandler (cursorPositionHandler p) >>
      emit OnMouseMove >>
      modify (set_mouseMoveListener true) >>
      emit ResizeObserve
  end.

(** Lines of [componentDidUpdate] that keep the editor text consistent
    with the [value] prop. *)
Definition syncValue (prevProps p : Props) : M unit :=
  if str_neq (value prevProps) (value p) then
    let* v := getValue in
    if str_neq v (value p) then setValue (value p) else ret tt
  else ret tt.

(** Lines of [componentDidUpdate] that apply a new model to the editor
    when the language is changed. *)
Definition applyLanguageChange (p : Props) : M unit :=
  let* model := gets editorModel in
  match model with
  | Some (oldUri, m) =>
      if str_truthy (language p) && str_neq (model_language m) (language p) then
        let newUri := createCellUri (contentRef p) (id p) (language p) in
        let* found := monacoGetModel newUri in
        if negb found then
          (* Save the cursor position before we set new model *)
          let* position := getPosition in
          (* Set new model targeting the changed language *)
          createModel (value p) (language p) newUri >>
          setEOL newUri LF >>
          setModel newUri >>
          (* dispose of the old model in a separate event *)
          setTimeout (DisposeModelTask oldUri) >>
          (* Restore cursor position to new model *)
          (match position with
           | Some pos => setPosition pos
           | None => ret tt
           end) >>
          (* Set focus *)
          focusIfRequested p
        else ret tt
      else ret tt
  | None => ret tt
  end.

(** The part of [componentDidUpdate] before the value check. *)
Definition updatePrologue (p : Props) : M unit :=
  updateIntersectRegistration p >>
  callHandler HostCursorPositionHandler (cursorPositionHandler p) >>
  (* Handle custom commands *)
  callHandler HostCommandHandler (commandHandler p).

(** The part of [componentDidUpdate] after the language block. *)
Definition updateEpilogue (p : Props) : M unit :=
  emit EditorUpdateOptions >>
  (let* ref := gets editorContainerRef in
   (* skip updating the UI when the offsetParent is null *)
   if match ref with Some c => offsetParent c | None => false end then
     (* Set focus *)
     focusIfRequested p >>
     (* Tells the editor pane to check if its container has changed size *)
     requestLayout p None
   else ret tt).

Definition componentDidUpdate (prevProps p : Props) : M unit :=
  let* ed := gets editor in
  match ed with
  | None => ret tt
  | Some _ =>
      updatePrologue p >>
      syncValue prevProps p >>
      emit SetChannels >>
      (* Register Jupyter completion provider if needed *)
      registerCompletionProvider p >>
      applyLanguageChange p >>
      updateEpilogue p
  end.

(** *** Teardown: native calls may throw *)

Section Teardown.

(** Which native operation throws during this teardown. *)
Variable throws : TeardownOp -> bool.

(** A computation that ends normally ([inr]) or by an exception ([inl]). *)
Definition E (A : Type) : Type := M (TeardownOp + A).

Definition ethen {A} (m : E unit) (k : E A) : E A :=
  let* r := m in
  match r with
  | inl op => ret (inl op)
  | inr _ => k
  end.

(** A native operation: it throws before it takes effect. *)
Definition native (op : TeardownOp) (act : M unit) : E unit :=
  if throws op then ret (inl op) else act >> ret (inr tt).

Definition pure (act : M unit) : E unit := act >> ret (inr tt).

Definition skip : E unit := ret (inr tt).

(** [try { body } catch (err) { console.error(...) }] *)
Definition tryCatch (body : E unit) : M unit :=
  let* r := body in
  match r with
  | inl op => emit (ConsoleError op)
  | inr _ => ret tt
  end.

Definition teardownBody : E unit :=
  ethen (native OpGetModel (ret tt))
  (let* model := gets (fun w => fst <$> editorModel w) in
   let* ref := gets editorContainerRef in
   (* Remove the resize listener *)
   ethen (match ref with
          | Some _ => native OpResizeUnobserve (emit ResizeUnobserve)
          | None => skip
          end)
  (let* obs := gets intersectObservation in
   ethen (if obs
          then ethen (native OpIntersectUnobserve (emit IntersectUnobserve))
                     (pure (modify (set_intersectObservation false)))
          else skip)
  (ethen (match model with
          | Some u => native OpModelDispose (modelDispose u)
          | None => skip
          end)
  (ethen (native OpEditorDispose
            (emit EditorDispose >> modifyEditor (ed_set_disposed true)))
         (pure (modify (set_editor None))))))).

Definition componentWillUnmount : E unit :=
  ethen
    (pure (let* ed := gets editor in
           match ed with
           | Some _ => tryCatch teardownBody
           | None => ret tt
           end))
    (let* l := gets mouseMoveListener in
     if l then native OpMouseMoveDispose (emit MouseMoveDispose) else skip).

End Teardown.

End Lifecycle.

(** ** Parameter-hint widgets in the document *)

Module Dom.

(** [DOMRect] *)
Record ClientRect := mkRect {
  rect_left : Z;
  rect_right : Z;
  rect_top : Z;
  rect_bottom : Z
}.

(** An element of the page.  The document lists its elements in document
    order; an element is known by its index, its parent by the parent's. *)
Record Element := mkElement {
  parentElement : option nat;
  tagName : string;
  className : string;
  style_visibility : string;
  boundingClientRect : ClientRect
}.

Abbreviation Document := (list Element) (only parsing).

Definition space : ascii := " "%char.

(** [s.split(" ")] *)
Fixpoint split (s : string) : list string :=
  match s with
  | EmptyString => [EmptyString]
  | String c s' =>
      if Ascii.eqb c space then EmptyString :: split s'
      else
        match split s' with
        | [] => [String c EmptyString]
        | t :: ts => String c t :: ts
        end
  end.

(** [l.join(" ")] *)
Fixpoint join (l : list string) : string :=
  match l with
  | [] => EmptyString
  | t :: ts =>
      match ts with
      | [] => t
      | _ => String.append t (String space (join ts))
      end
  end.

(** The element carries the class token [cls]. *)
Definition hasClass (cls : string) (e : Element) : bool :=
  existsb (String.eqb cls) (split (className e)).

(** The two forms of selector the component uses: [.cls] and [tag.cls]. *)
Inductive Selector :=
| ByClass (cls : string)
| ByTagClass (tag cls : string).

Definition matches (sel : Selector) (e : Element) : bool :=
  match sel with
  | ByClass cls => hasClass cls e
  | ByTagClass tag cls => String.eqb (tagName e) tag && hasClass cls e
  end.

(** [a] is a proper ancestor of [i], following parents at most [fuel] times. *)
Fixpoint hasAncestor (doc : Document) (fuel : nat) (a i : nat) : bool :=
  match fuel with
  | O => false
  | S fuel' =>
      match doc !! i with
      | Some e =>
          match parentElement e with
          | Some p => Nat.eqb p a || hasAncestor doc fuel' a p
          | None => false
          end
      | None => false
      end
  end.

Definition isDescendant (doc : Document) (a i : nat) : bool :=
  hasAncestor doc (length doc) a i.

Definition matchesAt (doc : Document) (sel : Selector) (i : nat) : bool :=
  match doc !! i with
  | Some e => matches sel e
  | None => false
  end.

(** [document.querySelectorAll(sel)] *)
Definition querySelectorAll (doc : Document) (sel : Selector) : list nat :=
  List.filter (matchesAt doc sel) (seq 0 (length doc)).

(** [document.querySelector(sel)]: the first match in document order. *)
Definition querySelector (doc : Document) (sel : Selector) : option nat :=
  head (querySelectorAll doc sel).

(** [parent.querySelectorAll(sel)]: the matching descendants of [parent]. *)
Definition querySelectorAllIn (doc : Document) (parent : nat) (sel : Selector)
  : list nat :=
  List.filter (fun i => matchesAt doc sel i && isDescendant doc parent i)
              (seq 0 (length doc)).

(** The body of the loop of [hideWidgets], on one widget. *)
Definition hideWidget (widget : Element) : Element :=
  let cls :=
    join (List.filter (fun c => negb (String.eqb c "visible"))
                      (split (className widget))) in
  let vis :=
    if negb (String.eqb (style_visibility widget) "hidden")
    then "hidden" else style_visibility widget in
  mkElement (parentElement widget) (tagName widget) cls vis
            (boundingClientRect widget).

(** Hides widgets such as parameters and hover, that belong to a given
    parent element. *)
Definition hideWidgets (doc : Document) (widgetParent : nat)
           (selectors : list Selector) : Document :=
  fold_left
    (fun d selector =>
       fold_left (fun d' widget => alter hideWidget widget d')
                 (querySelectorAllIn d widgetParent selector) d)
    selectors doc.

Definition parameterHints : Selector := ByClass "parameter-hints-widget".
Definition monacoContainer : Selector := ByTagClass "div" "monaco-container".

(** [this.editorContainerRef.current?.parentElement] *)
Definition refParent (doc : Document) (ref : option nat) : option nat :=
  match ref with
  | Some c =>
      match doc !! c with
      | Some e => parentElement e
      | None => None
      end
  | None => None
  end.

Definition isOther (own : option nat) (widgetParent : nat) : bool :=
  match own with
  | Some o => negb (Nat.eqb widgetParent o)
  | None => true
  end.

(** Hides the parameters widgets related to other monaco editors. *)
Definition hideAllOtherParameterWidgets (doc : Document) (ref : option nat)
  : Document :=
  match ref with
  | None => doc
  | Some _ =>
      let widgetParents := querySelectorAll doc monacoContainer in
      fold_left (fun d widgetParent => hideWidgets d widgetParent [parameterHints])
                (List.filter (isOther (refParent doc ref)) widgetParents)
                doc
  end.

Definition HOVER_BOUND_DEFAULT_PADDING : Z := 5.

(** [a >= b] and [a <= b] where [a] may be [undefined]. *)
Definition js_ge (a : option Z) (b : Z) : bool :=
  match a with Some n => (b <=? n)%Z | None => false end.
Definition js_le (a : option Z) (b : Z) : bool :=
  match a with Some n => (n <=? b)%Z | None => false end.

(** Return true if (x,y) coordinates overlap with an element's bounding rect. *)
Definition coordsInsideElement (element : option Element) (x y : option Z)
           (padding : Z) : bool :=
  match element with
  | None => false
  | Some e =>
      let clientRect := boundingClientRect e in
      js_ge x (rect_left clientRect - padding) &&
      js_le x (rect_right clientRect + padding) &&
      js_ge y (rect_top clientRect - padding) &&
      js_le y (rect_bottom clientRect + padding)
  end.

Definition handleCoordsOutsideWidgetActiveRegion
           (doc : Document) (ref : option nat) (x y : option Z) : Document :=
  match querySelector doc parameterHints with
  | Some widget =>
      if negb (coordsInsideElement (doc !! widget) x y HOVER_BOUND_DEFAULT_PADDING)
      then hideAllOtherParameterWidgets doc ref
      else doc
  | None => doc
  end.

(** A parameter-hint popup that is shown: it carries the [visible] class. *)
Definition isVisiblePopup (e : Element) : bool :=
  hasClass "parameter-hints-widget" e && hasClass "visible" e.

(** What hiding leaves behind. *)
Definition isHidden (e : Element) : bool :=
  negb (hasClass "visible" e) && String.eqb (style_visibility e) "hidden".

End Dom.

(** ** Sample configurations *)

Definition sampleProps : Props :=
  mkProps "cell1" "ref1" "vs" None "print(1)" (Some true) None
    (Some true) (Some true) false false None false "python" None
    None None None None None None None None None
    false None None None None.

Definition sampleContainer : Container := mkContainer true 400 300 400.

Definition hiddenContainer : Container := mkContainer false 0 300 400.

Definition sampleEditor : Editor :=
  mkEditor (Some "file:///cell1") (Some (mkPosition 3 7)) false 120
    (Some sampleContainer) true false.

Definition sampleModels : gmap string Model :=
  <["file:///cell1" := mkModel "print(1)" "python" LF]> ∅.

Definition sampleWorld : World :=
  mkWorld (Some sampleEditor) (Some sampleContainer) false true false true
    false None sampleModels [].

(** The same instance while its container is outside the viewport. *)
Definition offscreenWorld : World := set_isInViewport false sampleWorld.

(** The same instance, hidden by an ancestor with [display: none]. *)
Definition hiddenWorld : World :=
  mkWorld (Some sampleEditor) (Some hiddenContainer) false true false true
    false None sampleModels [].

Definition with_skipLayoutWhenHidden (b : option bool) (p : Props) : Props :=
  mkProps (id p) (contentRef p) (theme p) (readOnly p) (value p) (editorFocused p)
    (modelUri p) (enableCompletion p) (shouldRegisterDefaultCompletion p)
    (onCursorPositionChange p) (onRegisterDocumentFormattingEditProvider p)
    (enableFormatting p) (onRegisterCompletionProvider p) (language p)
    (lineNumbers p) (batchLayoutChanges p) (shouldUpdateLayoutWhenNotFocused p)
    (skipLayoutWhenNotInViewport p) b (autoFitContentHeight p)
    (maxContentHeight p) (initialDimension p) (indentSize p) (tabSize p)
    (shortcutsOptions p) (shortcutsHandler p) (cursorPositionHandler p)
    (commandHandler p) (onDidCreateEditor p).

Definition with_autoFit (b : option bool) (m : option Z) (p : Props) : Props :=
  mkProps (id p) (contentRef p) (theme p) (readOnly p) (value p) (editorFocused p)
    (modelUri p) (enableCompletion p) (shouldRegisterDefaultCompletion p)
    (onCursorPositionChange p) (onRegisterDocumentFormattingEditProvider p)
    (enableFormatting p) (onRegisterCompletionProvider p) (language p)
    (lineNumbers p) (batchLayoutChanges p) (shouldUpdateLayoutWhenNotFocused p)
    (skipLayoutWhenNotInViewport p) (skipLayoutWhenHidden p) b
    m (initialDimension p) (indentSize p) (tabSize p)
    (shortcutsOptions p) (shortcutsHandler p) (cursorPositionHandler p)
    (commandHandler p) (onDidCreateEditor p).

Definition with_value_language (v lang : string) (p : Props) : Props :=
  mkProps (id p) (contentRef p) (theme p) (readOnly p) v (editorFocused p)
    (modelUri p) (enableCompletion p) (shouldRegisterDefaultCompletion p)
    (onCursorPositionChange p) (onRegisterDocumentFormattingEditProvider p)
    (enableFormatting p) (onRegisterCompletionProvider p) lang
    (lineNumbers p) (batchLayoutChanges p) (shouldUpdateLayoutWhenNotFocused p)
    (skipLayoutWhenNotInViewport p) (skipLayoutWhenHidden p) (autoFitContentHeight p)
    (maxContentHeight p) (initialDimension p) (indentSize p) (tabSize p)
    (shortcutsOptions p) (shortcutsHandler p) (cursorPositionHandler p)
    (commandHandler p) (onDidCreateEditor p).

(** Hidden and outside the viewport at once. *)
Definition hiddenOffscreenWorld : World := set_isInViewport false hiddenWorld.

Definition skipHiddenProps : Props :=
  with_skipLayoutWhenHidden (Some true) sampleProps.

(** A text of two lines, broken by a carriage return and a line feed. *)
Definition crlfText : string :=
  String "p" (String charCR (String charLF (String "q" EmptyString))).

(** The same two lines, broken by a line feed. *)
Definition lfText : string :=
  String "p" (String charLF (String "q" EmptyString)).

(** Auto-fit switched off, with a maximum content height of 100 pixels. *)
Definition fixedHeightProps : Props :=
  with_autoFit (Some false) (Some 100%Z) sampleProps.

(** ** Sequences of layout events *)

(** What reaches the layout gate of a mounted instance: a request, or a
    report of the intersection observer. *)
Inductive LayoutEvent :=
| Request (d : option Dimension)
| Intersect (isIntersecting : bool).

Definition layoutEvent (p : Props) (e : LayoutEvent) : M unit :=
  match e with
  | Request d => requestLayout p d
  | Intersect b => onIntersecting p b
  end.

Fixpoint layoutEvents (p : Props) (es : list LayoutEvent) : M unit :=
  match es with
  | [] => ret tt
  | e :: es' => layoutEvent p e >> layoutEvents p es'
  end.

(** ** The layout dimension as the specification words it *)

(** Modelled on the wording of the specification, for comparison with
    [getLayoutDimension]: the client box; nothing when a side is zero; with
    auto-fit, the content height, clamped to the configured maximum; without
    auto-fit, the client box as it is. *)
Definition specLayoutDimension (p : Props) (w : World) : option Dimension :=
  match readEditorDomSize w with
  | None => None
  | Some dim =>
      if (width dim =? 0)%Z || (height dim =? 0)%Z then None
      else if nullish (autoFitContentHeight p) true then
        let h := default (height dim) (contentHeight w) in
        Some (mkDimension (width dim)
                (match maxContentHeight p with
                 | Some m => Z.min h m
                 | None => h
                 end))
      else Some dim
  end.

(** ** Reading traces *)

Definition is_setValue (c : Call) : bool :=
  match c with SetValue _ => true | _ => false end.

Definition is_createModel (c : Call) : bool :=
  match c with CreateModel _ _ _ => true | _ => false end.

Definition is_modelDispose (c : Call) : bool :=
  match c with ModelDispose _ => true | _ => false end.

Definition is_focus (c : Call) : bool :=
  match c with Focus => true | _ => false end.

(** The calls of a language swap: on the registry, on the model and the
    cursor of the editor, and the timer of the disposal. *)
Definition is_model_call (c : Call) : bool :=
  match c with
  | CreateModel _ _ _ | SetEOL _ _ | SetModel _ | ModelDispose _
  | SetTimeout _ | SetPosition _ => true
  | _ => false
  end.

Definition notSetValue (c : Call) : Prop := is_setValue c = false.

(** Every [Focus] of the trace comes right after a [HasWidgetFocus false];
    [prev] is the call before the trace. *)
Fixpoint focusGuardedFrom (prev : option Call) (l : list Call) : bool :=
  match l with
  | [] => true
  | c :: l' =>
      match c with
      | Focus =>
          match prev with
          | Some (HasWidgetFocus false) => focusGuardedFrom (Some c) l'
          | _ => false
          end
      | _ => focusGuardedFrom (Some c) l'
      end
  end.

Definition focusGuarded (l : list Call) : bool := focusGuardedFrom None l.

(** A property of traces that holds of the empty trace and of the
    concatenation of two traces that have it. *)
Class Monoidal (Q : list Call -> Prop) : Prop := {
  monoidal_nil : Q [];
  monoidal_app : forall l1 l2, Q l1 -> Q l2 -> Q (l1 ++ l2)
}.

(** Every run of [m] leaves a trace with the property [Q]. *)
Definition produces {A} (Q : list Call -> Prop) (m : M A) : Prop :=
  forall w, Q (tr (m w)).

Definition notModelCall (c : Call) : Prop := is_model_call c = false.

(** Every run of [m] relates the state before to the state after by [R]. *)
Definition preserves {A} (R : World -> World -> Prop) (m : M A) : Prop :=
  forall w, R w (st (m w)).

(** What the language block decides on and leaves behind: the registry,
    the timers, and the model and cursor of the editor. *)
Definition modelView (w : World)
  : gmap string Model * list Task * option (option string * option Position) :=
  (models w, timers w, (fun e => (ed_model e, ed_position e)) <$> editor w).

Definition sameModelView (w w' : World) : Prop := modelView w' = modelView w.

Definition sameTimers (w w' : World) : Prop := timers w' = timers w.

(** The state of an update pass when it reaches its language block. *)
Definition stateAtLanguageBlock (prevProps p : Props) (w : World) : World :=
  st (registerCompletionProvider p
        (st (syncValue prevProps p (st (updatePrologue p w))))).

(** A cell uri in the manner of [DocumentUri.createCellUri]. *)
Definition sampleCellUri (contentRef id language : string) : string :=
  String.append "cell:/"
    (String.append contentRef
       (String.append "/" (String.append id (String.append "." language)))).

Definition FocusGuarded (l : list Call) : Prop := focusGuarded l = true.

Definition notFocus (c : Call) : Prop := is_focus c = false.

(** A change of language, an empty language, and a registry that already
    holds a model at the uri of the markdown cell. *)
Definition markdownProps : Props :=
  with_value_language "print(1)" "markdown" sampleProps.

Definition noLanguageProps : Props :=
  with_value_language "print(1)" "" sampleProps.

Definition staleModels : gmap string Model :=
  <[sampleCellUri "ref1" "cell1" "markdown" := mkModel crlfText "markdown" CRLF]>
    sampleModels.

Definition staleWorld : World := set_models staleModels sampleWorld.

(** Props of a mount on the uri of the markdown model of the cell. *)
Definition markdownMountProps : Props :=
  mkProps "cell1" "ref1" "vs" None "print(1)" (Some true)
    (Some (sampleCellUri "ref1" "cell1" "markdown"))
    (Some true) (Some true) false false None false "markdown" None
    None None None None None None None None None
    false None None None None.

(** The operations the guarded block of teardown attempts, in order. *)
Definition guardedOps (w : World) : list TeardownOp :=
  [OpGetModel] ++
  (if editorContainerRef w is Some _ then [OpResizeUnobserve] else []) ++
  (if intersectObservation w then [OpIntersectUnobserve] else []) ++
  (if editorModel w is Some _ then [OpModelDispose] else []) ++
  [OpEditorDispose].

(** A model disposal that fails, and nothing else. *)
Definition modelDisposeThrows (op : TeardownOp) : bool :=
  match op with OpModelDispose => true | _ => false end.

Definition nothingThrows (op : TeardownOp) : bool := false.

(** A live instance whose cursor listener is registered. *)
Definition listeningWorld : World := set_cursorPositionListener true sampleWorld.

(** A class token holds no space. *)
Fixpoint nospace (t : string) : bool :=
  match t with
  | EmptyString => true
  | String c t' => negb (Ascii.eqb c Dom.space) && nospace t'
  end.

(** What hiding keeps of an element: its parent and its being a
    parameter-hint widget; once hidden it stays hidden. *)
Definition related (e e' : Dom.Element) : Prop :=
  Dom.parentElement e' = Dom.parentElement e /\
  Dom.hasClass "parameter-hints-widget" e' = Dom.hasClass "parameter-hints-widget" e /\
  (Dom.isHidden e = true -> Dom.isHidden e' = true).

Definition Evolves (d d' : list Dom.Element) : Prop := Forall2 related d d'.

Definition HiddenAt (d : list Dom.Element) (i : nat) : Prop :=
  exists e, d !! i = Some e /\ Dom.isHidden e = true.

(** A page with three editors.  The first holds a parameter-hint widget
    that is not shown, the second one that is shown; the third is the
    instance that receives the pointer events. *)
Definition hiddenHint : Dom.Element :=
  Dom.mkElement (Some 1) "div" "editor-widget parameter-hints-widget" ""
    (Dom.mkRect 0 50 0 20).

Definition visibleHint : Dom.Element :=
  Dom.mkElement (Some 4) "div" "editor-widget parameter-hints-widget visible" ""
    (Dom.mkRect 100 200 100 150).

Definition threeEditors : list Dom.Element :=
  [ Dom.mkElement None "div" "monaco-container" "" (Dom.mkRect 0 300 0 90);
    Dom.mkElement (Some 0) "div" "" "" (Dom.mkRect 0 300 0 90);
    hiddenHint;
    Dom.mkElement None "div" "monaco-container" "" (Dom.mkRect 0 300 100 190);
    Dom.mkElement (Some 3) "div" "" "" (Dom.mkRect 0 300 100 190);
    visibleHint;
    Dom.mkElement None "div" "monaco-container" "" (Dom.mkRect 0 300 200 290);
    Dom.mkElement (Some 6) "div" "" "" (Dom.mkRect 0 300 200 290) ].

(** The native constructors used in the examples. *)
Definition sampleUriFile (id : string) : string := String.append "file:///" id.

Definition sampleCreate (container : Container) (u : string) : Editor :=
  mkEditor (Some u) (Some (mkPosition 1 1)) false 120 (Some container) true false.

(** An editor that comes up with a widget holding the focus. *)
Definition focusedCreate (container : Container) (u : string) : Editor :=
  mkEditor (Some u) (Some (mkPosition 1 1)) true 120 (Some container) true false.

(** The instance before mount: a container, no editor, no model. *)
Definition unmountedWorld : World :=
  mkWorld None (Some sampleContainer) false false false true false None ∅ [].

Definition with_editorFocused (b : option bool) (p : Props) : Props :=
  mkProps (id p) (contentRef p) (theme p) (readOnly p) (value p) b
    (modelUri p) (enableCompletion p) (shouldRegisterDefaultCompletion p)
    (onCursorPositionChange p) (onRegisterDocumentFormattingEditProvider p)
    (enableFormatting p) (onRegisterCompletionProvider p) (language p)
    (lineNumbers p) (batchLayoutChanges p) (shouldUpdateLayoutWhenNotFocused p)
    (skipLayoutWhenNotInViewport p) (skipLayoutWhenHidden p) (autoFitContentHeight p)
    (maxContentHeight p) (initialDimension p) (indentSize p) (tabSize p)
    (shortcutsOptions p) (shortcutsHandler p) (cursorPositionHandler p)
    (commandHandler p) (onDidCreateEditor p).

Definition count (f : Call -> bool) (l : list Call) : nat :=
  length (List.filter f l).

(** A page with two editors: the first shows a parameter-hint widget, the
    second is the instance that receives the pointer events. *)
Definition shownHint : Dom.Element :=
  Dom.mkElement (Some 1) "div" "editor-widget parameter-hints-widget visible" ""
    (Dom.mkRect 100 200 10 60).

Definition twoEditors : list Dom.Element :=
  [ Dom.mkElement None "div" "monaco-container" "" (Dom.mkRect 0 300 0 90);
    Dom.mkElement (Some 0) "div" "" "" (Dom.mkRect 0 300 0 90);
    shownHint;
    Dom.mkElement None "div" "monaco-container" "" (Dom.mkRect 0 300 100 190);
    Dom.mkElement (Some 3) "div" "" "" (Dom.mkRect 0 300 100 190) ].

(** ** Listeners the component registers at mount *)

(** [monaco.editor.IContentSizeChangedEvent], the fields the listener
    reads; [newContentHeight] is its [contentHeight]. *)
Record ContentSizeChangedEvent := mkContentSizeChanged {
  contentHeightChanged : bool;
  newContentHeight : Z
}.

(** The listener given to [editor.onDidContentSizeChange] in
    [componentDidMount]: resize the container on a change of the content
    size.  [layoutWidth] is the width of [editor.getLayoutInfo()]. *)
Definition contentSizeChanged (p : Props) (layoutWidth : Z)
           (info : ContentSizeChangedEvent) : M unit :=
  if contentHeightChanged info && nullish (autoFitContentHeight p) true then
    let* ed := gets editor in
    match ed with
    | Some _ =>
        requestLayout p (Some (mkDimension layoutWidth (newContentHeight info)))
    | None => ret tt
    end
  else ret tt.

(** ** Focus and blur *)

(** [node.contains(other)]: [other] is [node] or one of its descendants. *)
Definition contains (doc : list Dom.Element) (node other : nat) : bool :=
  Nat.eqb other node || Dom.isDescendant doc node other.

(** These are the classes that will appear on a parameter widget when they
    are visible. *)
Definition parameterWidgetClasses : list string :=
  ["editor-widget"; "parameter-hints-widget"; "visible"].

(** The test of [hoverElements.find] in [hideParameterWidget]: the element
    is a parameter widget that is shown and belongs to this editor. *)
Definition isOwnParameterWidget (doc : list Dom.Element) (container item : nat)
  : bool :=
  match doc !! item with
  | Some e =>
      forallb (fun cls => Dom.hasClass cls e) parameterWidgetClasses &&
      contains doc container item
  | None => false
  end.

(** This will hide the parameter widget if the user is not hovering over
    the parameter widget for this monaco editor.  [ref] is the container of
    the instance in the document, [domNode] tells whether
    [editor.getDomNode()] gives a node, and [hoverElements] are the elements
    under the pointer ([document.querySelectorAll(":hover")]).  The result
    is the document the call leaves. *)
Definition hideParameterWidget (doc : list Dom.Element) (ref : option nat)
           (domNode : bool) (hoverElements : list nat) : M (list Dom.Element) :=
  let* ed := gets editor in
  match ed with
  | None => ret doc
  | Some _ =>
      if negb domNode then ret doc
      else
        match ref with
        | None => ret doc
        | Some container =>
            (* Find the parameter widget the user is currently hovering over *)
            match List.find (isOwnParameterWidget doc container) hoverElements with
            | Some _ => ret doc
            | None =>
                (* If the editor has focus, don't hide the parameter widget *)
                let* focused := hasWidgetFocus in
                if focused then ret doc
                else ret (Dom.hideWidgets doc container [Dom.parameterHints])
            end
        end
  end.

(** What the focus handlers call: the component's calls on native APIs, and
    the host's [onFocusChange]. *)
Inductive FocusCall :=
| ComponentCall (c : Call)
| HostFocusChange (focused : bool).

(** [if (this.props.onFocusChange) this.props.onFocusChange(b)] *)
Definition notifyFocusChange (onFocusChange : bool) (b : bool) : list FocusCall :=
  if onFocusChange then [HostFocusChange b] else [].

(** [onFocus], the listener of [onDidFocusEditorWidget].  [onFocusChange]
    tells whether the host gave the callback of that name. *)
Definition onFocus (onFocusChange : bool) (p : Props) (w : World)
  : World * list FocusCall :=
  let r := (toggleEditorOptions true >> registerCursorListener p) w in
  (st r, notifyFocusChange onFocusChange true ++ (ComponentCall <$> tr r)).

(** [onBlur], the listener of [onDidBlurEditorWidget]: the state of the
    instance, the document and the calls it leaves. *)
Definition onBlur (onFocusChange : bool) (ref : option nat) (domNode : bool)
           (hoverElements : list nat) (doc : list Dom.Element) (w : World)
  : World * list Dom.Element * list FocusCall :=
  let r := (toggleEditorOptions false >>
            unregisterCursorListener >>
            (* When editor loses focus, hide parameter widgets *)
            hideParameterWidget doc ref domNode hoverElements) w in
  (st r, val r, notifyFocusChange onFocusChange false ++ (ComponentCall <$> tr r)).

(** The editor widget gains and loses the focus. *)
Inductive FocusEvent :=
| GotFocus (p : Props)
| LostFocus (hoverElements : list nat).

Definition focusEvent (onFocusChange : bool) (ref : option nat) (domNode : bool)
           (e : FocusEvent) (s : World * list Dom.Element)
  : World * list Dom.Element * list FocusCall :=
  match e with
  | GotFocus p =>
      let r := onFocus onFocusChange p (fst s) in (fst r, snd s, snd r)
  | LostFocus hoverElements =>
      onBlur onFocusChange ref domNode hoverElements (snd s) (fst s)
  end.

Fixpoint focusEvents (onFocusChange : bool) (ref : option nat) (domNode : bool)
         (es : list FocusEvent) (s : World * list Dom.Element)
  : World * list Dom.Element * list FocusCall :=
  match es with
  | [] => (s, [])
  | e :: es' =>
      let r := focusEvent onFocusChange ref domNode e s in
      let r' := focusEvents onFocusChange ref domNode es' (fst r) in
      (fst r', snd r ++ snd r')
  end.

(** ** The options of the editor *)

(** The values of the options object handed to [monaco.editor.create]. *)
#[warnings="-register-all"]
Inductive OptionValue :=
| OString (s : string)
| OBool (b : bool)
| ONumber (n : Z)
| OUndefined
| OModel (u : Uri)
| ODimension (d : Dimension)
| OObject (fields : list (string * OptionValue)).

Definition optBool (b : option bool) : OptionValue :=
  match b with Some x => OBool x | None => OUndefined end.

Definition optDimension (d : option Dimension) : OptionValue :=
  match d with Some x => ODimension x | None => OUndefined end.

(** The settings [componentDidMount] writes before the spread of
    [this.props.options]. *)
Definition builtinOptions (p : Props) (model : Uri) : gmap string OptionValue :=
  list_to_map
    [ ("autoIndent", OString "advanced");
      ("fixedOverflowWidgets", OBool true);
      ("find", OObject [ ("addExtraSpaceOnTop", OBool false);
                         ("seedSearchStringFromSelection", OString "always");
                         ("autoFindInSelection", OString "never") ]);
      ("language", OString (language p));
      ("lineNumbers", OString (if truthy (lineNumbers p) then "on" else "off"));
      ("minimap", OObject [ ("enabled", OBool false) ]);
      ("model", OModel model);
      ("overviewRulerLanes", ONumber 0);
      ("padding", OObject [ ("top", ONumber 12); ("bottom", ONumber 5) ]);
      ("readOnly", optBool (readOnly p));
      ("renderLineHighlight", OString "none");
      ("wordBasedSuggestions", OBool false);
      ("scrollbar", OObject [ ("useShadows", OBool false);
                              ("verticalHasArrows", OBool false);
                              ("horizontalHasArrows", OBool false);
                              ("vertical", OString "hidden");
                              ("horizontal", OString "hidden");
                              ("verticalScrollbarSize", ONumber 0);
                              ("horizontalScrollbarSize", ONumber 0);
                              ("arrowSize", ONumber 30) ]);
      ("theme", OString (theme p));
      ("value", OString (value p));
      ("dimension", optDimension (initialDimension p)) ].

(** The object literal of [monaco.editor.create]: the built-in settings,
    then the own properties of [this.props.options] spread over them, then
    [scrollBeyondLastLine: false]. *)
Definition editorOptions (p : Props) (options : gmap string OptionValue)
           (model : Uri) : gmap string OptionValue :=
  <["scrollBeyondLastLine" := OBool false]> (options ∪ builtinOptions p model).

(** ** The ResizeObserver polyfill *)

Module ResizeObserver.

(** The observer: its [elements], a JS [Set] (no repeats, iterated in
    insertion order), and whether [onWindowResize] is attached to the
    [resize] event of the window. *)
Record t := mk {
  elements : list nat;
  attached : bool
}.

(** [ResizeObserverEntry]; the three box sizes are empty arrays. *)
Record Entry := mkEntry {
  target : nat;
  contentRect : Dom.ClientRect
}.

(** [Set.prototype.add] and [Set.prototype.delete] *)
Definition set_add (x : nat) (s : list nat) : list nat :=
  if existsb (Nat.eqb x) s then s else s ++ [x].

Definition set_delete (x : nat) (s : list nat) : list nat :=
  List.filter (fun y => negb (Nat.eqb x y)) s.

(** The constructor: an empty set, and the listener attached. *)
Definition create : t := mk [] true.

(** [getBoundingClientRect] is the layout of the page when the event fires;
    the result is the list of entries handed to the callback. *)
Definition onWindowResize (getBoundingClientRect : nat -> Dom.ClientRect) (o : t)
  : list Entry :=
  List.map (fun element => mkEntry element (getBoundingClientRect element))
           (elements o).

Definition observe (element : nat) (o : t) : t :=
  mk (set_add element (elements o)) (attached o).

Definition unobserve (element : nat) (o : t) : t :=
  mk (set_delete element (elements o)) (attached o).

Definition disconnect (o : t) : t := mk (elements o) false.

(** The window fires [resize]: the callback runs, with its entries, when
    the listener is attached. *)
Definition windowResize (getBoundingClientRect : nat -> Dom.ClientRect) (o : t)
  : option (list Entry) :=
  if attached o then Some (onWindowResize getBoundingClientRect o) else None.

(** Calls on the observer. *)
Inductive Op :=
| Observe (element : nat)
| Unobserve (element : nat)
| Disconnect.

Definition step (o : t) (op : Op) : t :=
  match op with
  | Observe element => observe element o
  | Unobserve element => unobserve element o
  | Disconnect => disconnect o
  end.

Definition run (ops : list Op) (o : t) : t := fold_left step ops o.

(** Whether the last call that names [element] observes it; [b] is the
    answer before the calls. *)
Fixpoint observedAfter (element : nat) (ops : list Op) (b : bool) : bool :=
  match ops with
  | [] => b
  | Observe x :: ops' =>
      observedAfter element ops' (if Nat.eqb x element then true else b)
  | Unobserve x :: ops' =>
      observedAfter element ops' (if Nat.eqb x element then false else b)
  | Disconnect :: ops' => observedAfter element ops' b
  end.

Definition is_disconnect (op : Op) : bool :=
  match op with Disconnect => true | _ => false end.

End ResizeObserver.

(** ** The blocks of [componentDidMount] *)

Section MountBlocks.

Variable uriFile : string -> Uri.
Variable platformEOL : EndOfLineSequence.
Variable monacoCreate : Container -> Uri -> Editor.

(** Use Monaco model uri if provided.  Otherwise, create a new model uri
    using editor id. *)
Definition mountUri (p : Props) : Uri :=
  match modelUri p with Some u => u | None => uriFile (id p) end.

(** Lines of [componentDidMount] from the lookup of the model to the
    creation of the editor. *)
Definition mountModel (p : Props) (container : Container) : M unit :=
  (let* found := monacoGetModel (mountUri p) in
   if negb found then createModel platformEOL (value p) (language p) (mountUri p)
   else ret tt) >>
  setEOL (mountUri p) LF >>
  emit (ModelUpdateOptions (mountUri p) (indentSize p) (tabSize p)) >>
  emit (CreateEditor (mountUri p)) >>
  modify (set_editor (Some (monacoCreate container (mountUri p)))).

(** The handlers of the host that are called once the editor is created. *)
Definition mountHandlers (p : Props) : M unit :=
  callHandler HostDidCreateEditor (onDidCreateEditor p) >>
  (if shortcutsOptions p
   then callHandler HostShortcutsHandler (shortcutsHandler p)
   else ret tt) >>
  callHandler HostCommandHandler (commandHandler p).

(** The options and the focus of the new editor. *)
Definition mountFocus (p : Props) : M unit :=
  toggleEditorOptions (truthy (editorFocused p)) >>
  (if truthy (editorFocused p) then
     (let* f := hasWidgetFocus in
      if negb f then focus else ret tt) >>
     registerCursorListener p
   else ret tt).

(** The listeners on the container and on the editor. *)
Definition mountListeners : M unit :=
  emit (AddEventListener "undo") >>
  emit (AddEventListener "redo") >>
  emit OnDidContentSizeChange >>
  emit OnDidChangeModelContent >>
  emit OnDidFocusEditorWidget >>
  emit OnDidBlurEditorWidget.

(** The end of [componentDidMount], after the first layout request. *)
Definition mountTail (p : Props) : M unit :=
  callHandler HostCursorPositionHandler (cursorPositionHandler p) >>
  emit OnMouseMove >>
  modify (set_mouseMoveListener true) >>
  emit ResizeObserve.

End MountBlocks.

(** ** The life of a mounted instance *)

(** The instance as the constructor leaves it: no editor, no listener,
    taken to be in the viewport, nothing deferred. *)
Definition constructed (ref : option Container) (ms : gmap string Model)
           (ts : list Task) : World :=
  mkWorld None ref false false false true false None ms ts.

(** What happens to a mounted instance.  The intersection observer reports
    to the instance while its observation is registered. *)
Inductive Event :=
| DidUpdate (prevProps p : Props)
| Resized (p : Props)
| Intersected (p : Props) (isIntersecting : bool)
| ContentSizeChanged (p : Props) (layoutWidth : Z) (info : ContentSizeChangedEvent)
| LayoutRequested (p : Props) (dimension : option Dimension)
| TimersFired.

Section Events.

Variable createCellUri : string -> string -> string -> Uri.
Variable platformEOL : EndOfLineSequence.

Definition handleEvent (e : Event) : M unit :=
  match e with
  | DidUpdate prevProps p => componentDidUpdate createCellUri platformEOL prevProps p
  | Resized p => onResize p
  | Intersected p isIntersecting =>
      let* observed := gets intersectObservation in
      if observed then onIntersecting p isIntersecting else ret tt
  | ContentSizeChanged p layoutWidth info => contentSizeChanged p layoutWidth info
  | LayoutRequested p dimension => requestLayout p dimension
  | TimersFired => runTimers
  end.

Fixpoint handleEvents (es : list Event) : M unit :=
  match es with
  | [] => ret tt
  | e :: es' => handleEvent e >> handleEvents es'
  end.

End Events.

(** A handler that leaves the model of the editor attached. *)
Definition keepsModel (h : option (Editor -> Editor)) : Prop :=
  forall f e, h = Some f -> ed_model (f e) = ed_model e.

(** An event none of whose handlers changes the model of the editor. *)
Definition quietEvent (e : Event) : Prop :=
  match e with
  | DidUpdate _ p => keepsModel (cursorPositionHandler p) /\ keepsModel (commandHandler p)
  | _ => True
  end.
(** ** What the statements of the further properties read *)

Definition is_createEditor (c : Call) : bool :=
  match c with CreateEditor _ => true | _ => false end.

(** Calls that register a language feature, and calls that create a model
    or an editor or install a model. *)
Definition is_registration (c : Call) : bool :=
  match c with
  | HostRegisterCompletionProvider _ | OnLanguage _
  | HostRegisterDocumentFormatter _ => true
  | _ => false
  end.

Definition is_creation (c : Call) : bool :=
  match c with
  | CreateModel _ _ _ | CreateEditor _ | SetModel _ => true
  | _ => false
  end.

(** [i] is one of [l]. *)
Definition memb (i : nat) (l : list nat) : bool := existsb (Nat.eqb i) l.

(** One pass over the document that hides the elements picked by [T] and
    leaves the others as they are. *)
Definition hideWhere (T : nat -> bool) (d : list Dom.Element) : list Dom.Element :=
  imap (fun i e => if T i then Dom.hideWidget e else e) d.

(** The parameter-hint widgets of the container [parent]. *)
Definition hintOf (doc : list Dom.Element) (parent i : nat) : bool :=
  memb i (Dom.querySelectorAllIn doc parent Dom.parameterHints).

(** The parameter-hint widgets that lie inside a monaco container other
    than [own]. *)
Definition hintOfOthers (doc : list Dom.Element) (own : option nat) (i : nat) : bool :=
  existsb (fun parent => hintOf doc parent i)
          (List.filter (Dom.isOther own) (Dom.querySelectorAll doc Dom.monacoContainer)).

(** The class tokens [hideWidget] keeps. *)
Definition keptTokens (e : Dom.Element) : list string :=
  List.filter (fun c => negb (String.eqb c "visible")) (Dom.split (Dom.className e)).

(** Reading the calls of the focus handlers. *)
Definition is_cursorSubscribe (c : FocusCall) : bool :=
  match c with ComponentCall OnDidChangeCursorSelection => true | _ => false end.

Definition is_cursorDispose (c : FocusCall) : bool :=
  match c with ComponentCall CursorListenerDispose => true | _ => false end.

Fixpoint hostNotifications (l : list FocusCall) : list bool :=
  match l with
  | [] => []
  | HostFocusChange b :: l' => b :: hostNotifications l'
  | ComponentCall _ :: l' => hostNotifications l'
  end.

(** What the host is told of a focus event. *)
Definition gainsFocus (e : FocusEvent) : bool :=
  match e with GotFocus _ => true | LostFocus _ => false end.

(** What a mounted instance keeps: a live editor, its container, its mouse
    listener, and to be taken as in the viewport while no intersection
    observation is registered. *)
Definition mountedInvariant (c : Container) (w : World) : Prop :=
  editor w <> None /\
  editorContainerRef w = Some c /\
  mouseMoveListener w = true /\
  (intersectObservation w = false -> isInViewport w = true).

Definition keepsMounted (c : Container) (w w' : World) : Prop :=
  mountedInvariant c w -> mountedInvariant c w'.

(** The part [f] of the state is left as it was. *)
Definition sameOn {A} (f : World -> A) (w w' : World) : Prop := f w' = f w.

Definition notLayoutCall (c : Call) : Prop := is_layout_or_schedule c = false.

(** The editor that was live stays live. *)
Definition staysLive (w w' : World) : Prop := editor w <> None -> editor w' <> None.

#[global] Instance Task_eq_dec : EqDecision Task.
Proof. solve_decision. Defined.

(** Every model whose disposal is pending is registered, and none of them
    is the model of the editor. *)
Definition pendingInvariant (w : World) : Prop :=
  forall u, DisposeModelTask u ∈ timers w ->
    is_Some (models w !! u) /\ (ed_model <$> editor w) <> Some (Some u).

(** [editor.layout(d)] called by the component itself. *)
Definition is_layout (c : Call) : bool :=
  match c with Layout _ => true | _ => false end.

Definition notLayout (c : Call) : Prop := is_layout c = false.

(** The props an event is handled with. *)
Definition eventProps (e : Event) : option Props :=
  match e with
  | DidUpdate _ p | Resized p | Intersected p _ | ContentSizeChanged p _ _
  | LayoutRequested p _ => Some p
  | TimersFired => None
  end.

(** An event handled with [batchLayoutChanges === true]. *)
Definition batchedEvent (e : Event) : Prop :=
  match eventProps e with
  | Some p => is_true_strict (batchLayoutChanges p) = true
  | None => True
  end.

(** The sample cell with its layout changes handed to the scheduler. *)
Definition batchedProps : Props :=
  mkProps "cell1" "ref1" "vs" None "print(1)" (Some true) None
    (Some true) (Some true) false false None false "python" None
    (Some true) None None None None None None None None
    false None None None None.

(** * Properties *)

(** ** JavaScript values *)

Lemma str_neq_true (a b : string) : str_neq a b = true <-> a <> b.
Proof.
  unfold str_neq. rewrite negb_true_iff. apply String.eqb_neq.
Qed.

Lemma str_neq_false (a b : string) : str_neq a b = false <-> a = b.
Proof.
  unfold str_neq. rewrite negb_false_iff. apply String.eqb_eq.
Qed.

Lemma str_truthy_true (s : string) : str_truthy s = true <-> s <> "".
Proof.
  destruct s; simpl; split; intros; congruence.
Qed.

Lemma str_truthy_false (s : string) : str_truthy s = false <-> s = "".
Proof.
  destruct s; simpl; split; intros; congruence.
Qed.

(** ** The monad *)

Lemma tr_bind {A B} (m : M A) (k : A -> M B) w :
  tr (bind m k w) = tr (m w) ++ tr (k (val (m w)) (st (m w))).
Proof. reflexivity. Qed.

Lemma st_bind {A B} (m : M A) (k : A -> M B) w :
  st (bind m k w) = st (k (val (m w)) (st (m w))).
Proof. reflexivity. Qed.

Lemma bind_gets {A B} (f : World -> A) (k : A -> M B) w :
  bind (gets f) k w = k (f w) w.
Proof. reflexivity. Qed.

Lemma bind_ret {A B} (a : A) (k : A -> M B) w :
  bind (ret a) k w = k a w.
Proof. reflexivity. Qed.

Lemma bind_modify {B} (f : World -> World) (k : unit -> M B) w :
  bind (modify f) k w = k tt (f w).
Proof. reflexivity. Qed.

Lemma bind_emit {B} (c : Call) (k : unit -> M B) w :
  bind (emit c) k w = prepend [c] (k tt w).
Proof. reflexivity. Qed.

Lemma prepend_prepend {A} (l1 l2 : list Call) (r : Res A) :
  prepend l1 (prepend l2 r) = prepend (l1 ++ l2) r.
Proof.
  unfold prepend. cbn. f_equal. apply app_assoc.
Qed.

Lemma tr_prepend {A} (l : list Call) (r : Res A) : tr (prepend l r) = l ++ tr r.
Proof. reflexivity. Qed.

Lemma st_prepend {A} (l : list Call) (r : Res A) : st (prepend l r) = st r.
Proof. reflexivity. Qed.

Lemma bind_assoc {A B C} (m : M A) (k : A -> M B) (h : B -> M C) w :
  bind (bind m k) h w = bind m (fun a => bind (k a) h) w.
Proof.
  unfold bind. cbn. f_equal. symmetry. apply app_assoc.
Qed.

(** ** Completion provider registration *)

(** C10: with completion enabled and a non-empty language, a callback
    supplied by the caller is invoked with the language and the default
    kernel-based provider is not registered, whatever
    [shouldRegisterDefaultCompletion] says; the default provider is
    registered only when there is no callback and
    [shouldRegisterDefaultCompletion] holds; with completion disabled or no
    language neither happens. *)
Theorem registerCompletionProvider_precedence (p : Props) (w : World) :
  st (registerCompletionProvider p w) = w /\
  (forall l, HostRegisterCompletionProvider l ∈ tr (registerCompletionProvider p w) <->
     l = language p /\ truthy (enableCompletion p) = true /\ language p <> "" /\
     onRegisterCompletionProvider p = true) /\
  (forall l, OnLanguage l ∈ tr (registerCompletionProvider p w) <->
     l = language p /\ truthy (enableCompletion p) = true /\ language p <> "" /\
     onRegisterCompletionProvider p = false /\
     truthy (shouldRegisterDefaultCompletion p) = true) /\
  (length (tr (registerCompletionProvider p w)) <= 1)%nat.
Proof.
  unfold registerCompletionProvider, registerDefaultCompletionProvider.
  destruct (truthy (enableCompletion p)) eqn:He;
    destruct (str_truthy (language p)) eqn:Hl;
    destruct (onRegisterCompletionProvider p) eqn:Hc;
    destruct (truthy (shouldRegisterDefaultCompletion p)) eqn:Hd;
    simpl;
    try (apply str_truthy_true in Hl);
    try (apply str_truthy_false in Hl);
    (split; [reflexivity|]);
    (split; [|split; [|lia]]);
    intros l; rewrite ?list_elem_of_singleton, ?elem_of_nil;
    (split; intros H;
     [ try contradiction; try (inversion H; subst; repeat split; auto; congruence)
     | decompose [and] H; subst; try congruence; auto ]).
Qed.

(** ** The layout gate *)

Arguments shouldLayout : simpl never.
Arguments getLayoutDimension : simpl never.
Arguments isContainerHidden : simpl never.
Arguments editorModel : simpl never.
Arguments requestLayout : simpl never.
Arguments onIntersecting : simpl never.

(** Reduction of the state and result records, leaving the registry alone. *)
Ltac world_cbn :=
  cbn [val st tr editor editorContainerRef cursorPositionListener
       mouseMoveListener intersectObservation isInViewport
       deferredLayoutRequest deferredLayoutDimension models timers
       set_editor set_editorContainerRef set_cursorPositionListener
       set_mouseMoveListener set_intersectObservation set_isInViewport
       set_deferredLayoutRequest set_deferredLayoutDimension set_models
       set_timers ed_model ed_position ed_hasWidgetFocus ed_contentHeight
       ed_containerDomNode ed_focusable ed_disposed ed_set_model
       ed_set_position ed_set_hasWidgetFocus ed_set_disposed
       fmap option_fmap option_map app negb andb orb default].

Ltac world_cbn_in H :=
  cbn [val st tr editor editorContainerRef cursorPositionListener
       mouseMoveListener intersectObservation isInViewport
       deferredLayoutRequest deferredLayoutDimension models timers
       set_editor set_editorContainerRef set_cursorPositionListener
       set_mouseMoveListener set_intersectObservation set_isInViewport
       set_deferredLayoutRequest set_deferredLayoutDimension set_models
       set_timers ed_model ed_position ed_hasWidgetFocus ed_contentHeight
       ed_containerDomNode ed_focusable ed_disposed ed_set_model
       ed_set_position ed_set_hasWidgetFocus ed_set_disposed
       fmap option_fmap option_map app negb andb orb default] in H.

(** Symbolic execution of a computation on an explicit state. *)
Ltac exec :=
  world_cbn;
  repeat (first [ rewrite bind_assoc | rewrite bind_gets | rewrite bind_modify
                | rewrite bind_ret | rewrite bind_emit
                | rewrite prepend_prepend ];
          world_cbn).

Ltac run_layout :=
  unfold requestLayout, layout, scheduleEditorForLayout,
    bind, gets, modify, emit, ret; simpl.

Lemma requestLayout_stash (p : Props) (w : World) (d : option Dimension) :
  editor w <> None ->
  isInViewport w = false ->
  tr (requestLayout p d w) = [] /\
  st (requestLayout p d w) =
    set_deferredLayoutRequest true (set_deferredLayoutDimension d w).
Proof.
  intros He Hv. run_layout.
  destruct (editor w); [|congruence]. rewrite Hv. simpl. auto.
Qed.

Lemma requestLayout_no_editor (p : Props) (w : World) (d : option Dimension) :
  editor w = None -> requestLayout p d w = mkRes tt w [].
Proof.
  intros He. run_layout. rewrite He. reflexivity.
Qed.

(** A request issues at most one call, a layout or a hand-over. *)
Lemma requestLayout_at_most_one (p : Props) (w : World) (d : option Dimension) :
  (length (tr (requestLayout p d w)) <= 1)%nat.
Proof.
  run_layout.
  destruct (editor w) eqn:He; simpl; [|lia].
  destruct (isInViewport w); simpl; [|lia].
  destruct (shouldLayout p w); simpl; [|lia].
  destruct (is_true_strict (batchLayoutChanges p)); simpl; [lia|].
  destruct d as [d|]; simpl.
  - rewrite He. simpl. lia.
  - destruct (getLayoutDimension p w); simpl; [rewrite He; simpl|]; lia.
Qed.

(** An explicit dimension, immediate and not batched, is laid out as given. *)
(** A request of an instance that is in the viewport: it leaves the state
    as it is, and what it calls is decided by the hidden container, the
    batching and the dimension, in this order. *)
Lemma requestLayout_in_view (p : Props) (w : World) (d : option Dimension) :
  editor w <> None ->
  isInViewport w = true ->
  requestLayout p d w =
    mkRes tt w
      (if negb (shouldLayout p w) then []
       else if is_true_strict (batchLayoutChanges p) then [ScheduleEditorForLayout d]
       else match d with
            | Some dim => [Layout dim]
            | None =>
                match getLayoutDimension p w with
                | Some dim => [Layout dim]
                | None => []
                end
            end).
Proof.
  intros He Hv. run_layout.
  destruct (editor w) eqn:E; [|congruence].
  rewrite Hv; simpl. destruct (shouldLayout p w); simpl; [|reflexivity].
  destruct (is_true_strict (batchLayoutChanges p)); simpl; [reflexivity|].
  destruct d as [dim|]; simpl.
  - rewrite E. reflexivity.
  - destruct (getLayoutDimension p w); simpl; [rewrite E|]; reflexivity.
Qed.

Lemma requestLayout_explicit (p : Props) (w : World) (d : Dimension) :
  editor w <> None ->
  isInViewport w = true ->
  shouldLayout p w = true ->
  is_true_strict (batchLayoutChanges p) = false ->
  requestLayout p (Some d) w = mkRes tt w [Layout d].
Proof.
  intros He Hv Hs Hb. run_layout.
  destruct (editor w) eqn:E; [|congruence].
  rewrite Hv; simpl. rewrite Hs; simpl. rewrite Hb; simpl. rewrite E. reflexivity.
Qed.

(** Without a dimension, immediate and not batched, the measured one is used. *)
Lemma requestLayout_measured (p : Props) (w : World) :
  editor w <> None ->
  isInViewport w = true ->
  shouldLayout p w = true ->
  is_true_strict (batchLayoutChanges p) = false ->
  tr (requestLayout p None w) =
    match getLayoutDimension p w with
    | Some d => [Layout d]
    | None => []
    end /\
  st (requestLayout p None w) = w.
Proof.
  intros He Hv Hs Hb. run_layout.
  destruct (editor w) eqn:E; [|congruence].
  rewrite Hv; simpl. rewrite Hs; simpl. rewrite Hb; simpl.
  destruct (getLayoutDimension p w); simpl; [rewrite E|]; auto.
Qed.

Lemma onIntersecting_same (p : Props) (w : World) :
  onIntersecting p (isInViewport w) w = mkRes tt w [].
Proof.
  unfold onIntersecting. rewrite bind_gets.
  destruct (isInViewport w); reflexivity.
Qed.

Lemma onIntersecting_leave (p : Props) (w : World) :
  isInViewport w = true ->
  onIntersecting p false w = mkRes tt (set_isInViewport false w) [].
Proof.
  intros Hv. unfold onIntersecting. rewrite bind_gets, Hv.
  cbn [eqb negb]. rewrite bind_modify, !bind_gets. reflexivity.
Qed.

Lemma onIntersecting_enter_idle (p : Props) (w : World) :
  isInViewport w = false ->
  deferredLayoutRequest w = false ->
  onIntersecting p true w = mkRes tt (set_isInViewport true w) [].
Proof.
  intros Hv Hd. unfold onIntersecting. rewrite bind_gets, Hv.
  cbn [eqb negb]. rewrite bind_modify, !bind_gets. world_cbn.
  rewrite Hd. reflexivity.
Qed.

(** Switching the viewport gate off marks the instance as intersecting
    without a report: nothing is flushed and a stashed request stays. *)
Lemma updateIntersectRegistration_reset (p : Props) (w : World) :
  truthy (skipLayoutWhenNotInViewport p) = false ->
  isInViewport (st (updateIntersectRegistration p w)) = true /\
  deferredLayoutRequest (st (updateIntersectRegistration p w)) =
    deferredLayoutRequest w /\
  List.filter is_layout_or_schedule (tr (updateIntersectRegistration p w)) = [].
Proof.
  intros H. unfold updateIntersectRegistration, when. rewrite H.
  rewrite bind_assoc, bind_gets.
  destruct (intersectObservation w);
    repeat (first [rewrite bind_assoc | rewrite bind_emit | rewrite bind_modify
                  | rewrite bind_ret]);
    repeat split.
Qed.

(** C4: while the instance is marked as not intersecting, a layout request
    of a live editor makes no native call: it is stashed with its dimension,
    over any earlier one.  When the intersection state goes from false to
    true the flag is cleared and the stashed request is issued, once, with
    the dimension stashed last; later reports issue nothing more.  A report
    equal to the current state changes nothing.  The calls of the flush are
    given in full: none when the hidden container gates the layout, one
    hand-over of the stashed dimension to the scheduler when layout changes
    are batched, otherwise one layout with the stashed dimension or, when
    none was stashed, with the measured one (no call when the measure has a
    zero side). *)
Theorem viewport_gate_defers_then_flushes
  (p : Props) (w : World) (d0 d : option Dimension) :
  editor w <> None ->
  isInViewport w = false ->
  let w0 := st (requestLayout p d0 w) in
  let w1 := st (requestLayout p d w0) in
  let flushed := onIntersecting p true w1 in
  let resumed := set_deferredLayoutRequest false (set_isInViewport true w1) in
  tr (requestLayout p d0 w) = [] /\
  tr (requestLayout p d w0) = [] /\
  w1 = set_deferredLayoutRequest true (set_deferredLayoutDimension d w) /\
  tr flushed = tr (requestLayout p d resumed) /\
  st flushed = st (requestLayout p d resumed) /\
  deferredLayoutRequest (st flushed) = false /\
  (length (List.filter is_layout_or_schedule (tr flushed)) <= 1)%nat /\
  (forall dim, d = Some dim -> shouldLayout p w = true ->
     is_true_strict (batchLayoutChanges p) = false ->
     tr flushed = [Layout dim]) /\
  tr (onIntersecting p true (st flushed)) = [] /\
  tr (onIntersecting p true (st (onIntersecting p false (st flushed)))) = [] /\
  (forall w', onIntersecting p (isInViewport w') w' = mkRes tt w' []) /\
  st flushed = resumed /\
  tr flushed =
    (if negb (shouldLayout p w) then []
     else if is_true_strict (batchLayoutChanges p) then [ScheduleEditorForLayout d]
     else match d with
          | Some dim => [Layout dim]
          | None =>
              match getLayoutDimension p w with
              | Some dim => [Layout dim]
              | None => []
              end
          end).
Proof.
  intros He Hv w0 w1 flushed resumed.
  destruct (requestLayout_stash p w d0 He Hv) as [Ht0 Hs0].
  assert (He0 : editor w0 <> None) by (unfold w0; rewrite Hs0; exact He).
  assert (Hv0 : isInViewport w0 = false) by (unfold w0; rewrite Hs0; exact Hv).
  destruct (requestLayout_stash p w0 d He0 Hv0) as [Ht1 Hs1].
  assert (Hw1 : w1 = set_deferredLayoutRequest true (set_deferredLayoutDimension d w)).
  { unfold w1. rewrite Hs1. unfold w0. rewrite Hs0. reflexivity. }
  assert (Hfl : tr flushed = tr (requestLayout p d resumed) /\
                st flushed = st (requestLayout p d resumed)).
  { unfold flushed, resumed. rewrite Hw1.
    unfold onIntersecting, bind, gets, modify; simpl. rewrite Hv. simpl. auto. }
  destruct Hfl as [Hft Hfs].
  assert (Her : editor resumed <> None) by (unfold resumed; rewrite Hw1; exact He).
  assert (Hvr : isInViewport resumed = true) by reflexivity.
  assert (Hdr : deferredLayoutRequest resumed = false) by reflexivity.
  assert (Hst : isInViewport (st flushed) = true /\
                deferredLayoutRequest (st flushed) = false).
  { rewrite Hfs. clear - Her Hvr Hdr. revert Her Hvr Hdr. generalize resumed.
    intros r Her Hvr Hdr. run_layout.
    destruct (editor r) eqn:E; [|congruence]. rewrite Hvr. simpl.
    destruct (shouldLayout p r); simpl; auto.
    destruct (is_true_strict (batchLayoutChanges p)); simpl; auto.
    destruct d as [dim|]; simpl.
    - rewrite E. simpl. auto.
    - destruct (getLayoutDimension p r); simpl; [rewrite E|]; auto. }
  destruct Hst as [Hsv Hsd].
  repeat split.
  - exact Ht0.
  - exact Ht1.
  - exact Hw1.
  - exact Hft.
  - exact Hfs.
  - exact Hsd.
  - rewrite Hft.
    pose proof (requestLayout_at_most_one p resumed d) as Hle.
    pose proof (filter_length is_layout_or_schedule (tr (requestLayout p d resumed))).
    lia.
  - intros dim -> Hs Hb. rewrite Hft.
    rewrite (requestLayout_explicit p resumed dim Her Hvr); [reflexivity| |exact Hb].
    unfold resumed. rewrite Hw1. exact Hs.
  - rewrite <- Hsv at 1. rewrite onIntersecting_same. reflexivity.
  - rewrite (onIntersecting_leave p _ Hsv).
    change (st (mkRes tt (set_isInViewport false (st flushed)) []))
      with (set_isInViewport false (st flushed)).
    rewrite onIntersecting_enter_idle; auto.
  - intros w'. apply onIntersecting_same.
  - rewrite Hfs. rewrite (requestLayout_in_view p resumed d Her Hvr). reflexivity.
  - rewrite Hft. rewrite (requestLayout_in_view p resumed d Her Hvr).
    unfold resumed. rewrite Hw1. reflexivity.
Qed.

Lemma viewport_gate_witness :
  editor offscreenWorld <> None /\
  isInViewport offscreenWorld = false /\
  tr (onIntersecting sampleProps true
        (st (requestLayout sampleProps (Some (mkDimension 300 200))
               (st (requestLayout sampleProps None offscreenWorld))))) =
    [Layout (mkDimension 300 200)].
Proof.
  assert (He : editor offscreenWorld <> None) by discriminate.
  assert (Hv : isInViewport offscreenWorld = false) by reflexivity.
  split; [exact He|]. split; [exact Hv|].
  destruct (viewport_gate_defers_then_flushes sampleProps offscreenWorld None
              (Some (mkDimension 300 200)) He Hv)
    as (_ & _ & _ & _ & _ & _ & _ & H & _).
  apply (H (mkDimension 300 200)); reflexivity.
Defined.

(** ** Hidden containers *)

Lemma requestLayout_hidden (p : Props) (w : World) (d : option Dimension) :
  truthy (skipLayoutWhenHidden p) = true ->
  isContainerHidden w = true ->
  tr (requestLayout p d w) = [] /\
  editorContainerRef (st (requestLayout p d w)) = editorContainerRef w /\
  (isInViewport w = true -> st (requestLayout p d w) = w).
Proof.
  intros Hs Hh. run_layout.
  destruct (editor w); simpl; [|auto].
  destruct (isInViewport w); simpl; [|repeat split; auto; discriminate].
  unfold shouldLayout. rewrite Hs, Hh. simpl. auto.
Qed.

Lemma onIntersecting_hidden (p : Props) (w : World) (b : bool) :
  truthy (skipLayoutWhenHidden p) = true ->
  isContainerHidden w = true ->
  tr (onIntersecting p b w) = [] /\
  editorContainerRef (st (onIntersecting p b w)) = editorContainerRef w.
Proof.
  intros Hs Hh.
  unfold onIntersecting, bind, gets, modify, ret. cbn.
  destruct (negb (eqb (isInViewport w) b)); cbn; [|auto].
  destruct (b && deferredLayoutRequest w); cbn; [|auto].
  match goal with
  | |- context [requestLayout p ?d ?w'] =>
      destruct (requestLayout_hidden p w' d Hs Hh) as (Ht & Hr & _)
  end.
  rewrite Ht, Hr. auto.
Qed.

Lemma layoutEvents_hidden (p : Props) (es : list LayoutEvent) (w : World) :
  truthy (skipLayoutWhenHidden p) = true ->
  isContainerHidden w = true ->
  tr (layoutEvents p es w) = [] /\
  isContainerHidden (st (layoutEvents p es w)) = true.
Proof.
  intros Hs. revert w.
  induction es as [|e es IH]; intros w Hh.
  - auto.
  - change (layoutEvents p (e :: es) w)
      with (bind (layoutEvent p e) (fun _ => layoutEvents p es) w).
    rewrite tr_bind, st_bind.
    assert (Hstep : tr (layoutEvent p e w) = [] /\
                    isContainerHidden (st (layoutEvent p e w)) = true).
    { destruct e as [d|b]; cbn [layoutEvent].
      - destruct (requestLayout_hidden p w d Hs Hh) as (Ht & Hr & _).
        split; [exact Ht|]. unfold isContainerHidden in *. rewrite Hr. exact Hh.
      - destruct (onIntersecting_hidden p w b Hs Hh) as (Ht & Hr).
        split; [exact Ht|]. unfold isContainerHidden in *. rewrite Hr. exact Hh. }
    destruct Hstep as [Ht Hh'].
    destruct (IH _ Hh') as [Ht' Hh''].
    rewrite Ht, Ht'. auto.
Qed.

(** C5: with [skipLayoutWhenHidden] on and the container hidden, no
    sequence of layout requests and intersection reports reaches the native
    layout (or the scheduler) while the container stays hidden.  A request
    made while the instance intersects is dropped; one made while it does
    not intersect is stashed like any other request of a live editor, and
    its flush is dropped if the container is still hidden. *)
Theorem hidden_container_is_never_laid_out
  (p : Props) (w : World) (es : list LayoutEvent) (d : option Dimension) :
  truthy (skipLayoutWhenHidden p) = true ->
  isContainerHidden w = true ->
  tr (layoutEvents p es w) = [] /\
  isContainerHidden (st (layoutEvents p es w)) = true /\
  tr (requestLayout p d w) = [] /\
  (isInViewport w = true -> st (requestLayout p d w) = w) /\
  (isInViewport w = false -> editor w <> None ->
   st (requestLayout p d w) =
     set_deferredLayoutRequest true (set_deferredLayoutDimension d w)) /\
  tr (onIntersecting p true (st (requestLayout p d w))) = [].
Proof.
  intros Hs Hh.
  destruct (layoutEvents_hidden p es w Hs Hh) as [H1 H2].
  destruct (requestLayout_hidden p w d Hs Hh) as (H3 & H4 & H5).
  repeat split; auto.
  - intros Hv He. apply requestLayout_stash; auto.
  - apply onIntersecting_hidden; auto.
    unfold isContainerHidden in *. rewrite H4. exact Hh.
Qed.

Lemma hidden_container_witness :
  truthy (skipLayoutWhenHidden skipHiddenProps) = true /\
  isContainerHidden hiddenWorld = true /\
  tr (layoutEvents skipHiddenProps
        [Request None; Intersect false; Request (Some (mkDimension 300 200));
         Intersect true; Request None] hiddenWorld) = [].
Proof.
  split; [reflexivity|]. split; [reflexivity|].
  apply (hidden_container_is_never_laid_out skipHiddenProps hiddenWorld
           [Request None; Intersect false; Request (Some (mkDimension 300 200));
            Intersect true; Request None] None);
    reflexivity.
Defined.

(** The statement of C5 does not hold as worded: a request made while the
    hidden container is also outside the viewport is not dropped.  It is
    stashed, and it is laid out when the container is shown and the
    intersection is reported. *)
Lemma hidden_request_is_deferred_when_offscreen :
  truthy (skipLayoutWhenHidden skipHiddenProps) = true /\
  isContainerHidden hiddenOffscreenWorld = true /\
  deferredLayoutRequest hiddenOffscreenWorld = false /\
  deferredLayoutRequest
    (st (requestLayout skipHiddenProps (Some (mkDimension 300 200))
           hiddenOffscreenWorld)) = true /\
  deferredLayoutDimension
    (st (requestLayout skipHiddenProps (Some (mkDimension 300 200))
           hiddenOffscreenWorld)) = Some (mkDimension 300 200) /\
  tr (onIntersecting skipHiddenProps true
        (set_editorContainerRef (Some sampleContainer)
           (st (requestLayout skipHiddenProps (Some (mkDimension 300 200))
                  hiddenOffscreenWorld)))) = [Layout (mkDimension 300 200)].
Proof.
  repeat split; reflexivity.
Qed.

(** ** The measured dimension *)

(** Where the code and the wording agree: auto-fit on with a content height
    that is not zero and a maximum that is absent or not zero, or auto-fit
    off with no effective maximum. *)
Lemma getLayoutDimension_agrees (p : Props) (w : World) :
  (nullish (autoFitContentHeight p) true = true ->
   optnum_truthy (contentHeight w) = true /\ maxContentHeight p <> Some 0%Z) ->
  (nullish (autoFitContentHeight p) true = false ->
   optnum_truthy (maxContentHeight p) = false) ->
  getLayoutDimension p w = specLayoutDimension p w.
Proof.
  intros Hon Hoff.
  unfold getLayoutDimension, specLayoutDimension.
  destruct (readEditorDomSize w) as [dim|]; [|reflexivity].
  destruct ((width dim =? 0)%Z || (height dim =? 0)%Z); [reflexivity|].
  destruct (nullish (autoFitContentHeight p) true).
  - destruct Hon as [Hc Hm]; [reflexivity|]. rewrite Hc.
    destruct (contentHeight w) as [h|]; [|discriminate]. simpl.
    destruct (maxContentHeight p) as [m|]; [|reflexivity].
    unfold num_truthy. destruct (Z.eqb_spec m 0); [congruence|reflexivity].
  - specialize (Hoff eq_refl).
    destruct (maxContentHeight p) as [m|]; simpl in *; [|destruct dim; reflexivity].
    rewrite Hoff. destruct dim; reflexivity.
Qed.

(** A container that measures zero on a side is not laid out. *)
Lemma requestLayout_zero_sized (p : Props) (w : World) (dim : Dimension) :
  editor w <> None ->
  isInViewport w = true ->
  shouldLayout p w = true ->
  is_true_strict (batchLayoutChanges p) = false ->
  readEditorDomSize w = Some dim ->
  width dim = 0%Z \/ height dim = 0%Z ->
  requestLayout p None w = mkRes tt w [].
Proof.
  intros He Hv Hs Hb Hd Hz.
  assert (Hn : getLayoutDimension p w = None).
  { unfold getLayoutDimension. rewrite Hd.
    destruct Hz as [Hz|Hz]; rewrite Hz; rewrite ?orb_true_r; reflexivity. }
  unfold requestLayout. rewrite bind_gets.
  destruct (editor w); [|congruence].
  rewrite bind_gets, Hv. cbn [negb]. rewrite bind_gets, Hs. cbn [negb].
  rewrite Hb, bind_gets, Hn. reflexivity.
Qed.

(** C9: an immediate pass without explicit dimension, auto-fit off and a
    maximum content height of 100: the code clamps the client height 400 to
    100, where the wording (and the documentation of [maxContentHeight])
    keeps the client box. *)
Theorem clamp_applies_without_auto_fit :
  nullish (autoFitContentHeight fixedHeightProps) true = false /\
  readEditorDomSize sampleWorld = Some (mkDimension 300 400) /\
  tr (requestLayout fixedHeightProps None sampleWorld) =
    [Layout (mkDimension 300 100)] /\
  specLayoutDimension fixedHeightProps sampleWorld = Some (mkDimension 300 400).
Proof.
  repeat split; reflexivity.
Qed.

(** ** Trace properties, block by block *)

Section Produces.

Context (Q : list Call -> Prop) `{!Monoidal Q}.

Lemma produces_ret {A} (a : A) : produces Q (ret a).
Proof. intros w. apply monoidal_nil. Qed.

Lemma produces_gets {A} (f : World -> A) : produces Q (gets f).
Proof. intros w. apply monoidal_nil. Qed.

Lemma produces_modify (f : World -> World) : produces Q (modify f).
Proof. intros w. apply monoidal_nil. Qed.

Lemma produces_modifyEditor (f : Editor -> Editor) : produces Q (modifyEditor f).
Proof. intros w. apply monoidal_nil. Qed.

Lemma produces_emit (c : Call) : Q [c] -> produces Q (emit c).
Proof. intros H w. exact H. Qed.

Lemma produces_bind {A B} (m : M A) (k : A -> M B) :
  produces Q m -> (forall a, produces Q (k a)) -> produces Q (bind m k).
Proof.
  intros Hm Hk w. rewrite tr_bind. apply monoidal_app; [apply Hm|apply Hk].
Qed.

End Produces.

#[global] Instance Forall_monoidal (P : Call -> Prop) : Monoidal (Forall P).
Proof.
  split; [constructor|]. intros l1 l2 H1 H2. apply Forall_app; auto.
Qed.

(** The side condition on a single call. *)
Ltac solve_call := first [reflexivity | repeat constructor].

(** One step of a syntax-directed proof of [produces]. *)
Ltac produces_step :=
  lazymatch goal with
  | |- produces _ (bind _ _) =>
      apply produces_bind; [typeclasses eauto| |intros ?]
  | |- produces _ (ret _) => apply produces_ret; typeclasses eauto
  | |- produces _ (gets _) => apply produces_gets; typeclasses eauto
  | |- produces _ (modify _) => apply produces_modify; typeclasses eauto
  | |- produces _ (modifyEditor _) =>
      apply produces_modifyEditor; typeclasses eauto
  | |- produces _ (emit _) => apply produces_emit; solve_call
  | |- produces _ (if ?b then _ else _) => destruct b
  | |- produces _ (match ?x with _ => _ end) => destruct x
  end.

Ltac produces_auto := repeat produces_step.

Ltac unfold_ops :=
  unfold updatePrologue, updateEpilogue, syncValue, applyLanguageChange,
    focusIfRequested, registerCompletionProvider, registerDocumentFormatter,
    registerDefaultCompletionProvider, registerCursorListener,
    unregisterCursorListener, toggleEditorOptions, updateIntersectRegistration,
    requestLayout, onIntersecting, layout, scheduleEditorForLayout,
    callHandler, getValue, setValue, hasWidgetFocus, focus, monacoGetModel,
    createModel, setEOL, setModel, getPosition, setPosition, setTimeout,
    modelDispose, when.

(** *** Calls that are not value pushes *)

Lemma updatePrologue_no_setValue (p : Props) :
  produces (Forall notSetValue) (updatePrologue p).
Proof. unfold_ops. produces_auto. Qed.

Lemma filter_none {A} (f : A -> bool) (l : list A) :
  Forall (fun x => f x = false) l -> List.filter f l = [].
Proof.
  induction 1 as [|x l Hx _ IH]; simpl; [reflexivity|]. rewrite Hx. exact IH.
Qed.

Lemma registerCompletionProvider_no_setValue (p : Props) :
  produces (Forall notSetValue) (registerCompletionProvider p).
Proof. unfold_ops. produces_auto. Qed.

Arguments updatePrologue : simpl never.
Arguments syncValue : simpl never.
Arguments registerCompletionProvider : simpl never.
Arguments applyLanguageChange : simpl never.
Arguments updateEpilogue : simpl never.
Arguments focusIfRequested : simpl never.

(** ** State properties, block by block *)

Section Preserves.

Context (R : World -> World -> Prop) `{!PreOrder R}.

Lemma preserves_ret {A} (a : A) : preserves R (ret a).
Proof. intros w. reflexivity. Qed.

Lemma preserves_gets {A} (f : World -> A) : preserves R (gets f).
Proof. intros w. reflexivity. Qed.

Lemma preserves_emit (c : Call) : preserves R (emit c).
Proof. intros w. reflexivity. Qed.

Lemma preserves_modify (f : World -> World) :
  (forall w, R w (f w)) -> preserves R (modify f).
Proof. intros H w. apply H. Qed.

Lemma preserves_bind {A B} (m : M A) (k : A -> M B) :
  preserves R m -> (forall a, preserves R (k a)) -> preserves R (bind m k).
Proof.
  intros Hm Hk w. rewrite st_bind. etransitivity; [apply Hm|apply Hk].
Qed.

End Preserves.

#[global] Instance sameModelView_preorder : PreOrder sameModelView.
Proof.
  split.
  - intros w. reflexivity.
  - intros a b c Hab Hbc. unfold sameModelView in *. congruence.
Qed.

#[global] Instance sameTimers_preorder : PreOrder sameTimers.
Proof.
  split.
  - intros w. reflexivity.
  - intros a b c Hab Hbc. unfold sameTimers in *. congruence.
Qed.

(** The side condition on a single state change. *)
Ltac solve_change :=
  let w := fresh "w" in
  intros w; unfold sameModelView, modelView, sameTimers;
  destruct w as [[?|] ? ? ? ? ? ? ? ? ?]; reflexivity.

(** One step of a syntax-directed proof of [preserves]. *)
Ltac preserves_step :=
  lazymatch goal with
  | |- preserves _ (bind _ _) =>
      apply preserves_bind; [typeclasses eauto| |intros ?]
  | |- preserves _ (ret _) => apply preserves_ret; typeclasses eauto
  | |- preserves _ (gets _) => apply preserves_gets; typeclasses eauto
  | |- preserves _ (emit _) => apply preserves_emit; typeclasses eauto
  | |- preserves _ (modify _) => apply preserves_modify; solve_change
  | |- preserves _ (if ?b then _ else _) => destruct b
  | |- preserves _ (match ?x with _ => _ end) => destruct x
  end.

Ltac preserves_auto := repeat preserves_step.

Lemma focusIfRequested_view (p : Props) :
  preserves sameModelView (focusIfRequested p).
Proof. unfold_ops. unfold modifyEditor. preserves_auto. Qed.

Lemma updateEpilogue_view (p : Props) :
  preserves sameModelView (updateEpilogue p).
Proof. unfold_ops. unfold modifyEditor. preserves_auto. Qed.

Lemma updatePrologue_timers (p : Props) :
  preserves sameTimers (updatePrologue p).
Proof. unfold_ops. unfold modifyEditor. preserves_auto. Qed.

Lemma syncValue_timers (prevProps p : Props) :
  preserves sameTimers (syncValue prevProps p).
Proof.
  unfold_ops. preserves_auto.
  apply preserves_modify. intros w. unfold sameTimers.
  destruct (editorModel w) as [[u m]|]; reflexivity.
Qed.

Lemma registerCompletionProvider_state (p : Props) (w : World) :
  st (registerCompletionProvider p w) = w.
Proof.
  unfold registerCompletionProvider, registerDefaultCompletionProvider.
  destruct (truthy (enableCompletion p) && str_truthy (language p));
    [|reflexivity].
  destruct (onRegisterCompletionProvider p); [reflexivity|].
  destruct (truthy (shouldRegisterDefaultCompletion p)); reflexivity.
Qed.

Lemma syncValue_editor (prevProps p : Props) (w : World) :
  editor (st (syncValue prevProps p w)) = editor w.
Proof.
  unfold syncValue, getValue, setValue.
  destruct (str_neq (value prevProps) (value p)); [|reflexivity].
  repeat (first [rewrite bind_assoc | rewrite bind_gets | rewrite bind_emit
                | rewrite bind_ret | rewrite st_prepend]).
  destruct (str_neq (editorValue w) (value p)); [|reflexivity].
  rewrite bind_emit, st_prepend. unfold modify. cbn [st].
  destruct (editorModel w) as [[u m]|]; reflexivity.
Qed.

Lemma sameModelView_editorModel (w w' : World) :
  sameModelView w w' -> editorModel w' = editorModel w.
Proof.
  unfold sameModelView, modelView, editorModel. intros H.
  inversion H as [[Hm Ht He]]. rewrite Hm.
  destruct (editor w) as [e|], (editor w') as [e'|]; try discriminate; auto.
  cbn in He. inversion He as [[H1 H2]]. rewrite H1. reflexivity.
Qed.

Lemma sameModelView_models (w w' : World) :
  sameModelView w w' -> models w' = models w.
Proof.
  unfold sameModelView, modelView. intros H. congruence.
Qed.

Lemma sameModelView_timers (w w' : World) :
  sameModelView w w' -> timers w' = timers w.
Proof.
  unfold sameModelView, modelView. intros H. congruence.
Qed.

Lemma sameModelView_ed_model (w w' : World) :
  sameModelView w w' -> (ed_model <$> editor w') = (ed_model <$> editor w).
Proof.
  unfold sameModelView, modelView. intros H.
  inversion H as [[Hm Ht He]].
  destruct (editor w) as [e|], (editor w') as [e'|]; try discriminate; auto.
  cbn in He. inversion He as [[H1 H2]]. cbn. rewrite H1. reflexivity.
Qed.

Lemma sameModelView_position (w w' : World) :
  sameModelView w w' -> (ed_position <$> editor w') = (ed_position <$> editor w).
Proof.
  unfold sameModelView, modelView. intros H.
  inversion H as [[Hm Ht He]].
  destruct (editor w) as [e|], (editor w') as [e'|]; try discriminate; auto.
  cbn in He. inversion He as [[H1 H2]]. cbn. rewrite H2. reflexivity.
Qed.

Section UpdatePass.

Variable createCellUri : string -> string -> string -> Uri.
Variable platformEOL : EndOfLineSequence.

Local Abbreviation didUpdate := (componentDidUpdate createCellUri platformEOL).
Local Abbreviation languageChange := (applyLanguageChange createCellUri platformEOL).

Lemma applyLanguageChange_no_setValue (p : Props) :
  produces (Forall notSetValue) (languageChange p).
Proof. unfold_ops. produces_auto. Qed.

Lemma updateEpilogue_no_setValue (p : Props) :
  produces (Forall notSetValue) (updateEpilogue p).
Proof. unfold_ops. produces_auto. Qed.

(** The update pass of a live editor, block by block. *)
Lemma componentDidUpdate_blocks (prevProps p : Props) (w : World) :
  editor w <> None ->
  let w1 := st (updatePrologue p w) in
  let w2 := st (syncValue prevProps p w1) in
  let w3 := st (registerCompletionProvider p w2) in
  let w4 := st (languageChange p w3) in
  tr (didUpdate prevProps p w) =
    tr (updatePrologue p w) ++ tr (syncValue prevProps p w1) ++ [SetChannels] ++
    tr (registerCompletionProvider p w2) ++ tr (languageChange p w3) ++
    tr (updateEpilogue p w4) /\
  st (didUpdate prevProps p w) = st (updateEpilogue p w4).
Proof.
  intros He. unfold componentDidUpdate.
  cbn [bind gets emit ret val st tr].
  destruct (editor w); [|congruence].
  cbn [bind gets emit ret val st tr].
  split; [|reflexivity].
  cbn [app]. repeat rewrite <- app_assoc. reflexivity.
Qed.

(** The value block reads the text once when the prop changed and pushes
    the new value when the text differs from it. *)
Lemma syncValue_trace (prevProps p : Props) (w : World) :
  tr (syncValue prevProps p w) =
    if str_neq (value prevProps) (value p) then
      GetValue (editorValue w) ::
      (if str_neq (editorValue w) (value p) then [SetValue (value p)] else [])
    else [].
Proof.
  unfold syncValue, getValue, setValue.
  destruct (str_neq (value prevProps) (value p)); [|reflexivity].
  cbn [bind gets emit ret val st tr app].
  destruct (str_neq (editorValue w) (value p)); reflexivity.
Qed.

Lemma updatePrologue_editor (p : Props) (w : World) :
  editor (st (updatePrologue p w)) =
    (default (fun e => e) (commandHandler p) <$>
       (default (fun e => e) (cursorPositionHandler p) <$> editor w)) /\
  models (st (updatePrologue p w)) = models w.
Proof.
  unfold updatePrologue, updateIntersectRegistration, callHandler, modifyEditor, when.
  destruct w as [ed ref cl ml io iv dr dd ms ts].
  destruct (truthy (skipLayoutWhenNotInViewport p));
    destruct ref; destruct io;
    destruct (cursorPositionHandler p);
    destruct (commandHandler p);
    destruct ed; split; reflexivity.
Qed.

(** Handlers that are absent leave the text of the editor as it was. *)
Lemma updatePrologue_value (p : Props) (w : World) :
  cursorPositionHandler p = None ->
  commandHandler p = None ->
  editorValue (st (updatePrologue p w)) = editorValue w.
Proof.
  intros H1 H2.
  destruct (updatePrologue_editor p w) as [He Hm].
  unfold editorValue, editorModel. rewrite He, Hm, H1, H2.
  destruct (editor w); reflexivity.
Qed.

(** The value pushes of an update pass. *)
Lemma componentDidUpdate_pushes (prevProps p : Props) (w : World) :
  List.filter is_setValue (tr (didUpdate prevProps p w)) =
    match editor w with
    | Some _ =>
        if str_neq (value prevProps) (value p) &&
           str_neq (editorValue (st (updatePrologue p w))) (value p)
        then [SetValue (value p)]
        else []
    | None => []
    end.
Proof.
  destruct (editor w) eqn:He.
  - assert (Hl : editor w <> None) by congruence.
    destruct (componentDidUpdate_blocks prevProps p w Hl) as [Ht _].
    rewrite Ht. rewrite !List.filter_app.
    rewrite (filter_none _ _ (updatePrologue_no_setValue p w)).
    rewrite (filter_none _ _ (registerCompletionProvider_no_setValue p _)).
    rewrite (filter_none _ _ (applyLanguageChange_no_setValue p _)).
    rewrite (filter_none _ _ (updateEpilogue_no_setValue p _)).
    rewrite syncValue_trace.
    destruct (str_neq (value prevProps) (value p)); [|reflexivity].
    destruct (str_neq _ (value p)); reflexivity.
  - unfold componentDidUpdate. cbn [bind gets emit ret val st tr].
    rewrite He. reflexivity.
Qed.

(** C1: in an update pass the new value is pushed to the editor
    ([setValue]) exactly once when the editor is live, the value prop
    differs from the previous one and the text the editor holds at that
    point differs from the new value; in every other case the pass pushes
    nothing.  The text is the one [getValue] returns once the handlers of the
    pass have run; without handlers it is the text at the start of the
    pass. *)
Theorem value_pushed_once_iff_changed (prevProps p : Props) (w : World) :
  let pushes := List.filter is_setValue (tr (didUpdate prevProps p w)) in
  let live := st (updatePrologue p w) in
  (pushes = [SetValue (value p)] <->
   editor w <> None /\ value prevProps <> value p /\ editorValue live <> value p) /\
  (pushes = [] <->
   ~ (editor w <> None /\ value prevProps <> value p /\ editorValue live <> value p)) /\
  (cursorPositionHandler p = None -> commandHandler p = None ->
   editorValue live = editorValue w).
Proof.
  intros pushes live.
  assert (Hp := componentDidUpdate_pushes prevProps p w).
  fold pushes in Hp. fold live in Hp.
  split; [|split; [|apply updatePrologue_value]]; rewrite Hp;
    (destruct (editor w) as [e|];
     [ destruct (str_neq (value prevProps) (value p)) eqn:E1;
       destruct (str_neq (editorValue live) (value p)) eqn:E2 | ]);
    cbn [andb];
    try rewrite ?str_neq_true, ?str_neq_false in E1;
    try rewrite ?str_neq_true, ?str_neq_false in E2;
    intuition (try discriminate; try congruence).
Qed.

(** *** Calls on models come from the language block only *)

Lemma updatePrologue_no_model_call (p : Props) :
  produces (Forall notModelCall) (updatePrologue p).
Proof. unfold_ops. produces_auto. Qed.

Lemma syncValue_no_model_call (prevProps p : Props) :
  produces (Forall notModelCall) (syncValue prevProps p).
Proof. unfold_ops. produces_auto. Qed.

Lemma registerCompletionProvider_no_model_call (p : Props) :
  produces (Forall notModelCall) (registerCompletionProvider p).
Proof. unfold_ops. produces_auto. Qed.

Lemma updateEpilogue_no_model_call (p : Props) :
  produces (Forall notModelCall) (updateEpilogue p).
Proof. unfold_ops. produces_auto. Qed.

Lemma componentDidUpdate_model_calls (prevProps p : Props) (w : World) :
  editor w <> None ->
  List.filter is_model_call (tr (didUpdate prevProps p w)) =
  List.filter is_model_call
    (tr (languageChange p (stateAtLanguageBlock prevProps p w))).
Proof.
  intros He.
  destruct (componentDidUpdate_blocks prevProps p w He) as [Ht _].
  rewrite Ht. rewrite !List.filter_app.
  rewrite (filter_none _ _ (updatePrologue_no_model_call p w)).
  rewrite (filter_none _ _ (syncValue_no_model_call prevProps p _)).
  rewrite (filter_none _ _ (registerCompletionProvider_no_model_call p _)).
  rewrite (filter_none _ _ (updateEpilogue_no_model_call p _)).
  cbn [List.filter is_model_call app]. rewrite app_nil_r. reflexivity.
Qed.

Lemma editorModel_inv (w : World) (u : string) (m : Model) :
  editorModel w = Some (u, m) ->
  exists e, editor w = Some e /\ ed_model e = Some u /\ models w !! u = Some m.
Proof.
  unfold editorModel. intros H.
  destruct (editor w) as [e|]; [|discriminate].
  destruct (ed_model e) as [u'|] eqn:Hu; [|discriminate].
  destruct (models w !! u') as [m'|] eqn:Hm; [|discriminate].
  inversion H; subst. exists e. repeat split; assumption.
Qed.

(** The language block does nothing without a model, without a language,
    or when the model already has the language. *)
Lemma applyLanguageChange_idle (p : Props) (w : World) :
  (editorModel w = None \/ language p = "" \/
   exists u m, editorModel w = Some (u, m) /\ model_language m = language p) ->
  languageChange p w = mkRes tt w [].
Proof.
  intros H. unfold applyLanguageChange. rewrite bind_gets.
  destruct H as [H|[H|(u & m & H & Hl)]].
  - rewrite H. reflexivity.
  - destruct (editorModel w) as [[u m]|]; [|reflexivity].
    rewrite H. reflexivity.
  - rewrite H. apply str_neq_false in Hl. rewrite Hl, andb_false_r. reflexivity.
Qed.

(** A model already registered at the new uri: the block only looks it up. *)
Lemma applyLanguageChange_reuse (p : Props) (w : World) (u : string) (m : Model) :
  editorModel w = Some (u, m) ->
  language p <> "" ->
  model_language m <> language p ->
  models w !! createCellUri (contentRef p) (id p) (language p) <> None ->
  languageChange p w =
    mkRes tt w [GetModelByUri (createCellUri (contentRef p) (id p) (language p)) true].
Proof.
  intros Hm Hl Hd Hx. unfold applyLanguageChange, monacoGetModel.
  rewrite bind_gets, Hm. apply str_truthy_true in Hl. apply str_neq_true in Hd.
  rewrite Hl, Hd. cbn [andb]. rewrite bind_assoc, bind_gets.
  destruct (models w !! createCellUri (contentRef p) (id p) (language p));
    [reflexivity|congruence].
Qed.

(** No model at the new uri: the block creates one, forces line feeds,
    installs it, hands the old model to a timer and puts the cursor back. *)
Lemma applyLanguageChange_create (p : Props) (w : World) (u : string) (m : Model) :
  editorModel w = Some (u, m) ->
  language p <> "" ->
  model_language m <> language p ->
  models w !! createCellUri (contentRef p) (id p) (language p) = None ->
  let newUri := createCellUri (contentRef p) (id p) (language p) in
  let pos := match editor w with Some e => ed_position e | None => None end in
  exists w',
    tr (languageChange p w) =
      [GetModelByUri newUri false; GetPosition pos;
       CreateModel (value p) (language p) newUri; SetEOL newUri LF;
       SetModel newUri; SetTimeout (DisposeModelTask u)] ++
      match pos with Some q => [SetPosition q] | None => [] end ++
      tr (focusIfRequested p w') /\
    st (languageChange p w) = st (focusIfRequested p w') /\
    models w' =
      <[newUri := mkModel (normalizeEOL LF (value p)) (language p) LF]> (models w) /\
    timers w' = timers w ++ [DisposeModelTask u] /\
    (ed_model <$> editor w') = Some (Some newUri) /\
    (ed_position <$> editor w') = Some (Some (default (mkPosition 1 1) pos)).
Proof.
  intros Hm Hl Hd Hx newUri pos. subst newUri pos.
  destruct (editorModel_inv w u m Hm) as (e & He & Hu & Hr).
  apply str_truthy_true in Hl. apply str_neq_true in Hd.
  destruct w as [ed ref cl ml io iv dr dd ms ts].
  world_cbn_in He; world_cbn_in Hr; world_cbn_in Hx. subst ed.
  destruct e as [em ep hf ch cn fo di]. world_cbn_in Hu. subst em.
  unfold applyLanguageChange, monacoGetModel, getPosition, createModel, setEOL,
    setModel, setTimeout, setPosition, modifyEditor.
  rewrite bind_gets. unfold editorModel. world_cbn. rewrite Hr, Hl, Hd.
  world_cbn. exec. rewrite Hx. exec.
  destruct ep as [q|]; exec;
    (eexists; split; [rewrite tr_prepend; reflexivity|];
     split; [rewrite st_prepend; reflexivity|]);
    unfold set_timers, set_editor, set_models; world_cbn;
    rewrite alter_insert_eq; repeat split; reflexivity.
Qed.

Lemma filter_filter_sub {A} (f g : A -> bool) (l : list A) :
  (forall x, f x = true -> g x = true) ->
  List.filter f (List.filter g l) = List.filter f l.
Proof.
  intros H. induction l as [|x l IH]; [reflexivity|]. cbn.
  destruct (g x) eqn:Hg; cbn.
  - rewrite IH. reflexivity.
  - destruct (f x) eqn:Hf; [apply H in Hf; congruence|]. exact IH.
Qed.

Lemma focusIfRequested_no_model_call (p : Props) :
  produces (Forall notModelCall) (focusIfRequested p).
Proof. unfold_ops. produces_auto. Qed.

Lemma stateAtLanguageBlock_live (prevProps p : Props) (w : World) :
  editorModel (stateAtLanguageBlock prevProps p w) <> None -> editor w <> None.
Proof.
  unfold stateAtLanguageBlock. rewrite registerCompletionProvider_state.
  unfold editorModel at 1. rewrite syncValue_editor.
  destruct (updatePrologue_editor p w) as [He _]. rewrite He.
  destruct (editor w); [discriminate|]. intros H. exfalso. apply H. reflexivity.
Qed.

Lemma stateAtLanguageBlock_timers (prevProps p : Props) (w : World) :
  timers (stateAtLanguageBlock prevProps p w) = timers w.
Proof.
  unfold stateAtLanguageBlock. rewrite registerCompletionProvider_state.
  rewrite (syncValue_timers prevProps p _). apply updatePrologue_timers.
Qed.

(** The update pass of an editor whose model has another language than the
    non-empty one of the props, with no model registered at the new uri. *)
Lemma componentDidUpdate_swap (prevProps p : Props) (w : World)
      (oldUri : string) (m : Model) :
  let w3 := stateAtLanguageBlock prevProps p w in
  let newUri := createCellUri (contentRef p) (id p) (language p) in
  let pos := match editor w3 with Some e => ed_position e | None => None end in
  let r := didUpdate prevProps p w in
  editorModel w3 = Some (oldUri, m) ->
  language p <> "" ->
  model_language m <> language p ->
  models w3 !! newUri = None ->
  List.filter is_model_call (tr r) =
    [CreateModel (value p) (language p) newUri; SetEOL newUri LF;
     SetModel newUri; SetTimeout (DisposeModelTask oldUri)] ++
    match pos with Some q => [SetPosition q] | None => [] end /\
  models (st r) =
    <[newUri := mkModel (normalizeEOL LF (value p)) (language p) LF]> (models w3) /\
  timers (st r) = timers w ++ [DisposeModelTask oldUri] /\
  (ed_model <$> editor (st r)) = Some (Some newUri) /\
  (ed_position <$> editor (st r)) = Some (Some (default (mkPosition 1 1) pos)).
Proof.
  intros w3 newUri pos r Hm Hl Hd Hx.
  assert (He : editor w <> None).
  { apply (stateAtLanguageBlock_live prevProps p). fold w3. rewrite Hm. discriminate. }
  destruct (applyLanguageChange_create p w3 oldUri m Hm Hl Hd Hx)
    as (w' & Ht & Hs & Hmod & Htim & Hedm & Hedp).
  fold newUri in Ht, Hmod, Hedm. fold pos in Ht, Hedp.
  destruct (componentDidUpdate_blocks prevProps p w He) as [_ Hst].
  fold (stateAtLanguageBlock prevProps p w) in Hst. fold w3 in Hst. fold r in Hst.
  assert (Hview : sameModelView w' (st r)).
  { rewrite Hst, Hs. etransitivity; [apply focusIfRequested_view|].
    apply updateEpilogue_view. }
  split.
  { unfold r. rewrite (componentDidUpdate_model_calls prevProps p w He).
    fold w3. rewrite Ht. rewrite !List.filter_app.
    rewrite (filter_none _ _ (focusIfRequested_no_model_call p w')).
    rewrite app_nil_r. destruct pos; reflexivity. }
  split; [rewrite (sameModelView_models _ _ Hview); exact Hmod|].
  split.
  { rewrite (sameModelView_timers _ _ Hview), Htim. f_equal.
    apply stateAtLanguageBlock_timers. }
  split.
  - rewrite (sameModelView_ed_model _ _ Hview). exact Hedm.
  - rewrite (sameModelView_position _ _ Hview). exact Hedp.
Qed.

Lemma componentDidUpdate_reuse (prevProps p : Props) (w : World)
      (oldUri : string) (m : Model) :
  let w3 := stateAtLanguageBlock prevProps p w in
  let newUri := createCellUri (contentRef p) (id p) (language p) in
  let r := didUpdate prevProps p w in
  editorModel w3 = Some (oldUri, m) ->
  language p <> "" ->
  model_language m <> language p ->
  models w3 !! newUri <> None ->
  List.filter is_model_call (tr r) = [] /\
  sameModelView w3 (st r).
Proof.
  intros w3 newUri r Hm Hl Hd Hx.
  assert (He : editor w <> None).
  { apply (stateAtLanguageBlock_live prevProps p). fold w3. rewrite Hm. discriminate. }
  pose proof (applyLanguageChange_reuse p w3 oldUri m Hm Hl Hd Hx) as Hb.
  destruct (componentDidUpdate_blocks prevProps p w He) as [_ Hst].
  fold (stateAtLanguageBlock prevProps p w) in Hst. fold w3 in Hst. fold r in Hst.
  split.
  - unfold r. rewrite (componentDidUpdate_model_calls prevProps p w He).
    fold w3. rewrite Hb. reflexivity.
  - rewrite Hst, Hb. apply updateEpilogue_view.
Qed.

(** The next turn of the event loop with the single timer of a swap. *)
Lemma runTimers_single (w : World) (u : string) :
  timers w = [DisposeModelTask u] ->
  tr (runTimers w) = [ModelDispose u] /\
  models (st (runTimers w)) = delete u (models w) /\
  timers (st (runTimers w)) = [].
Proof.
  intros Ht. unfold runTimers. rewrite bind_gets, Ht, bind_modify.
  unfold runTasks, runTask, modelDispose.
  repeat (first [rewrite bind_assoc | rewrite bind_gets | rewrite bind_emit
                | rewrite bind_modify | rewrite bind_ret]).
  repeat split.
Qed.

(** C2: an update pass of an editor whose model has another language than
    the non-empty language of the props.  With a model registered at the new
    uri no model is created.  Otherwise exactly one model is created; the
    pass itself disposes of nothing and leaves the old model registered; it
    hands exactly one disposal of the old model to a timer, which runs after
    the pass; and a cursor position the editor had before the swap is set
    again on the new model. *)
Theorem language_change_creates_at_most_one_model
  (prevProps p : Props) (w : World) (oldUri : string) (m : Model) :
  let w3 := stateAtLanguageBlock prevProps p w in
  let newUri := createCellUri (contentRef p) (id p) (language p) in
  let r := didUpdate prevProps p w in
  editorModel w3 = Some (oldUri, m) ->
  language p <> "" ->
  model_language m <> language p ->
  (models w3 !! newUri <> None -> List.filter is_createModel (tr r) = []) /\
  (models w3 !! newUri = None ->
   List.filter is_createModel (tr r) =
     [CreateModel (value p) (language p) newUri] /\
   List.filter is_modelDispose (tr r) = [] /\
   models (st r) !! oldUri = Some m /\
   timers (st r) = timers w ++ [DisposeModelTask oldUri] /\
   (timers w = [] ->
    tr (runTimers (st r)) = [ModelDispose oldUri] /\
    models (st (runTimers (st r))) !! oldUri = None /\
    timers (st (runTimers (st r))) = []) /\
   (forall pos, (ed_position <$> editor w3) = Some (Some pos) ->
    List.filter is_model_call (tr r) =
      [CreateModel (value p) (language p) newUri; SetEOL newUri LF;
       SetModel newUri; SetTimeout (DisposeModelTask oldUri); SetPosition pos] /\
    (ed_position <$> editor (st r)) = Some (Some pos))).
Proof.
  intros w3 newUri r Hm Hl Hd. split.
  - intros Hx.
    destruct (componentDidUpdate_reuse prevProps p w oldUri m Hm Hl Hd Hx) as [Hc _].
    fold r in Hc.
    rewrite <- (filter_filter_sub is_createModel is_model_call), Hc; [reflexivity|].
    intros [] H; try discriminate; reflexivity.
  - intros Hx.
    destruct (componentDidUpdate_swap prevProps p w oldUri m Hm Hl Hd Hx)
      as (Hc & Hmod & Htim & Hedm & Hedp).
    fold w3 in Hc, Hmod, Hedp. fold newUri in Hc, Hmod, Hedm. fold r in Hc, Hmod, Htim, Hedm, Hedp.
    destruct (editorModel_inv w3 oldUri m Hm) as (e & He & Hu & Hr).
    assert (Hne : newUri <> oldUri) by (intros E; rewrite E in Hx; congruence).
    split.
    { rewrite <- (filter_filter_sub is_createModel is_model_call), Hc.
      - rewrite He. destruct (ed_position e); reflexivity.
      - intros [] H; try discriminate; reflexivity. }
    split.
    { rewrite <- (filter_filter_sub is_modelDispose is_model_call), Hc.
      - rewrite He. destruct (ed_position e); reflexivity.
      - intros [] H; try discriminate; reflexivity. }
    split; [rewrite Hmod, lookup_insert_ne; assumption|].
    split; [exact Htim|].
    split.
    { intros Hts. rewrite Hts in Htim. cbn [app] in Htim.
      destruct (runTimers_single (st r) oldUri Htim) as (H1 & H2 & H3).
      repeat split; [exact H1| |exact H3].
      rewrite H2. apply lookup_delete_eq. }
    intros pos Hpos. rewrite He in Hpos, Hc, Hedp. cbn in Hpos.
    assert (Hp : ed_position e = Some pos) by congruence.
    rewrite Hp in Hc, Hedp. split; [exact Hc|exact Hedp].
Qed.

(** With a model already registered at the new uri the pass makes no call
    on any model and the editor keeps the model it had. *)
Lemma language_change_reuse_installs_nothing
  (prevProps p : Props) (w : World) (oldUri : string) (m : Model) :
  let w3 := stateAtLanguageBlock prevProps p w in
  let newUri := createCellUri (contentRef p) (id p) (language p) in
  let r := didUpdate prevProps p w in
  editorModel w3 = Some (oldUri, m) ->
  language p <> "" ->
  model_language m <> language p ->
  models w3 !! newUri <> None ->
  List.filter is_model_call (tr r) = [] /\
  editorModel (st r) = Some (oldUri, m).
Proof.
  intros w3 newUri r Hm Hl Hd Hx.
  destruct (componentDidUpdate_reuse prevProps p w oldUri m Hm Hl Hd Hx) as [Hc Hv].
  fold w3 in Hv. fold r in Hc, Hv.
  split; [exact Hc|]. rewrite (sameModelView_editorModel _ _ Hv). exact Hm.
Qed.

(** C3: an update pass of an editor whose model has another language than
    the non-empty language of the props, with no model registered at the
    new uri.  The pass creates a model there, forces line feeds on it and
    installs it, in this order: the editor ends with the model of the new
    uri, in the new language, with line feeds, its text being the value of
    the props with every line break rewritten as a line feed. *)
Theorem language_change_installs_created_model
  (prevProps p : Props) (w : World) (oldUri : string) (m : Model) :
  let w3 := stateAtLanguageBlock prevProps p w in
  let newUri := createCellUri (contentRef p) (id p) (language p) in
  let r := didUpdate prevProps p w in
  editorModel w3 = Some (oldUri, m) ->
  language p <> "" ->
  model_language m <> language p ->
  models w3 !! newUri = None ->
  (exists rest,
     List.filter is_model_call (tr r) =
       CreateModel (value p) (language p) newUri :: SetEOL newUri LF ::
       SetModel newUri :: rest) /\
  editorModel (st r) =
    Some (newUri, mkModel (normalizeEOL LF (value p)) (language p) LF).
Proof.
  intros w3 newUri r Hm Hl Hd Hx.
  destruct (componentDidUpdate_swap prevProps p w oldUri m Hm Hl Hd Hx)
    as (Hc & Hmod & Htim & Hedm & Hedp).
  fold w3 in Hc, Hmod. fold newUri in Hc, Hmod, Hedm. fold r in Hc, Hmod, Hedm.
  split; [rewrite Hc; eexists; reflexivity|].
  unfold editorModel. destruct (editor (st r)) as [e|]; [|discriminate].
  cbn in Hedm. inversion Hedm as [He]. rewrite He, Hmod, lookup_insert_eq.
  reflexivity.
Qed.

End UpdatePass.

Lemma language_change_witness :
  editorModel (stateAtLanguageBlock sampleProps markdownProps sampleWorld) =
    Some ("file:///cell1", mkModel "print(1)" "python" LF) /\
  language markdownProps <> "" /\
  model_language (mkModel "print(1)" "python" LF) <> language markdownProps /\
  List.filter is_createModel
    (tr (componentDidUpdate sampleCellUri LF sampleProps markdownProps sampleWorld)) =
    [CreateModel "print(1)" "markdown" (sampleCellUri "ref1" "cell1" "markdown")].
Proof.
  assert (H1 : editorModel (stateAtLanguageBlock sampleProps markdownProps sampleWorld) =
               Some ("file:///cell1", mkModel "print(1)" "python" LF))
    by (vm_compute; reflexivity).
  assert (H2 : language markdownProps <> "") by discriminate.
  assert (H3 : model_language (mkModel "print(1)" "python" LF) <>
               language markdownProps) by discriminate.
  split; [exact H1|]. split; [exact H2|]. split; [exact H3|].
  destruct (language_change_creates_at_most_one_model sampleCellUri LF
              sampleProps markdownProps sampleWorld _ _ H1 H2 H3) as [_ H].
  apply H. vm_compute. reflexivity.
Defined.

(** The statement of C2 does not hold as worded: the props may carry an
    empty language.  It differs from the language of the model and no model
    is registered at its uri, yet the pass creates none. *)
Lemma empty_language_creates_no_model :
  editorModel (stateAtLanguageBlock sampleProps noLanguageProps sampleWorld) =
    Some ("file:///cell1", mkModel "print(1)" "python" LF) /\
  language noLanguageProps <> "python" /\
  models (stateAtLanguageBlock sampleProps noLanguageProps sampleWorld)
    !! sampleCellUri "ref1" "cell1" (language noLanguageProps) = None /\
  List.filter is_createModel
    (tr (componentDidUpdate sampleCellUri LF sampleProps noLanguageProps sampleWorld)) = [].
Proof.
  split; [vm_compute; reflexivity|].
  split; [discriminate|].
  split; vm_compute; reflexivity.
Qed.

Lemma language_install_witness :
  editorModel
    (stateAtLanguageBlock (with_value_language crlfText "python" sampleProps)
       (with_value_language crlfText "markdown" sampleProps) sampleWorld) =
    Some ("file:///cell1", mkModel "print(1)" "python" LF) /\
  language (with_value_language crlfText "markdown" sampleProps) <> "" /\
  model_language (mkModel "print(1)" "python" LF) <>
    language (with_value_language crlfText "markdown" sampleProps) /\
  models
    (stateAtLanguageBlock (with_value_language crlfText "python" sampleProps)
       (with_value_language crlfText "markdown" sampleProps) sampleWorld)
    !! sampleCellUri "ref1" "cell1" "markdown" = None /\
  editorModel
    (st (componentDidUpdate sampleCellUri LF
           (with_value_language crlfText "python" sampleProps)
           (with_value_language crlfText "markdown" sampleProps) sampleWorld)) =
    Some (sampleCellUri "ref1" "cell1" "markdown", mkModel lfText "markdown" LF).
Proof.
  assert (H1 : editorModel
                 (stateAtLanguageBlock
                    (with_value_language crlfText "python" sampleProps)
                    (with_value_language crlfText "markdown" sampleProps)
                    sampleWorld) =
               Some ("file:///cell1", mkModel "print(1)" "python" LF))
    by (vm_compute; reflexivity).
  assert (H2 : language (with_value_language crlfText "markdown" sampleProps) <> "")
    by discriminate.
  assert (H3 : model_language (mkModel "print(1)" "python" LF) <>
               language (with_value_language crlfText "markdown" sampleProps))
    by discriminate.
  assert (H4 : models
                 (stateAtLanguageBlock
                    (with_value_language crlfText "python" sampleProps)
                    (with_value_language crlfText "markdown" sampleProps)
                    sampleWorld)
                 !! sampleCellUri "ref1" "cell1" "markdown" = None)
    by (vm_compute; reflexivity).
  split; [exact H1|]. split; [exact H2|]. split; [exact H3|]. split; [exact H4|].
  destruct (language_change_installs_created_model sampleCellUri LF
              (with_value_language crlfText "python" sampleProps)
              (with_value_language crlfText "markdown" sampleProps)
              sampleWorld _ _ H1 H2 H3 H4) as [_ H].
  exact H.
Defined.

(** C3 does not hold of the update pass: with a model already registered
    at the new uri the pass neither forces its line ending nor installs it.
    The editor keeps the python model, and the registered model keeps its
    carriage returns.  [componentDidMount] binds a model it finds and
    forces line feeds on it; the update pass only guards against creating
    the model twice and has nothing for the model it finds. *)
Lemma existing_model_is_not_installed :
  editorModel (stateAtLanguageBlock sampleProps markdownProps staleWorld) =
    Some ("file:///cell1", mkModel "print(1)" "python" LF) /\
  models (stateAtLanguageBlock sampleProps markdownProps staleWorld)
    !! sampleCellUri "ref1" "cell1" "markdown" =
    Some (mkModel crlfText "markdown" CRLF) /\
  List.filter is_model_call
    (tr (componentDidUpdate sampleCellUri LF sampleProps markdownProps staleWorld)) = [] /\
  editorModel
    (st (componentDidUpdate sampleCellUri LF sampleProps markdownProps staleWorld)) =
    Some ("file:///cell1", mkModel "print(1)" "python" LF) /\
  models (st (componentDidUpdate sampleCellUri LF sampleProps markdownProps staleWorld))
    !! sampleCellUri "ref1" "cell1" "markdown" =
    Some (mkModel crlfText "markdown" CRLF) /\
  List.filter is_model_call
    (tr (componentDidMount sampleUriFile LF sampleCreate markdownMountProps
           (constructed (Some sampleContainer) staleModels []))) =
    [SetEOL (sampleCellUri "ref1" "cell1" "markdown") LF] /\
  editorModel
    (st (componentDidMount sampleUriFile LF sampleCreate markdownMountProps
           (constructed (Some sampleContainer) staleModels []))) =
    Some (sampleCellUri "ref1" "cell1" "markdown", mkModel lfText "markdown" LF).
Proof.
  repeat split; vm_compute; reflexivity.
Qed.

(** ** Focus *)

Lemma focusGuardedFrom_any (prev : option Call) (l : list Call) :
  focusGuardedFrom None l = true -> focusGuardedFrom prev l = true.
Proof.
  destruct l as [|c l]; [reflexivity|]. destruct c; cbn; auto; discriminate.
Qed.

Lemma focusGuardedFrom_app (prev : option Call) (l1 l2 : list Call) :
  focusGuardedFrom prev l1 = true ->
  focusGuardedFrom None l2 = true ->
  focusGuardedFrom prev (l1 ++ l2) = true.
Proof.
  revert prev. induction l1 as [|c l1 IH]; intros prev H1 H2.
  - apply focusGuardedFrom_any. exact H2.
  - cbn in *. destruct c; auto.
    destruct prev as [[]|]; try discriminate.
    destruct b; [discriminate|]. auto.
Qed.

#[global] Instance FocusGuarded_monoidal : Monoidal FocusGuarded.
Proof.
  split; [reflexivity|]. intros l1 l2. apply focusGuardedFrom_app.
Qed.

(** What the checker checks: every focus call stands right after a
    [hasWidgetFocus] query that returned false. *)
Lemma focusGuardedFrom_spec (prev : option Call) (l pre post : list Call) :
  focusGuardedFrom prev l = true ->
  l = pre ++ Focus :: post ->
  last (option_list prev ++ pre) = Some (HasWidgetFocus false).
Proof.
  revert prev pre. induction l as [|c l IH]; intros prev pre H Hl.
  - destruct pre; discriminate.
  - destruct pre as [|c' pre].
    + cbn in Hl. inversion Hl; subst. cbn in H.
      destruct prev as [[]|]; try discriminate.
      destruct b; [discriminate|]. reflexivity.
    + cbn in Hl. inversion Hl; subst.
      assert (H' : focusGuardedFrom (Some c') (pre ++ Focus :: post) = true).
      { cbn in H. destruct c'; auto.
        destruct prev as [[]|]; try discriminate.
        destruct b; [discriminate|]. exact H. }
      specialize (IH (Some c') pre H' eq_refl). cbn in IH.
      rewrite <- IH. destruct prev; cbn; rewrite ?last_cons; cbn;
        destruct (last (c' :: pre)) eqn:E; try reflexivity;
        destruct pre; cbn in *; try discriminate; reflexivity.
Qed.

Lemma focusGuarded_spec (l pre post : list Call) :
  focusGuarded l = true ->
  l = pre ++ Focus :: post ->
  exists pre', pre = pre' ++ [HasWidgetFocus false].
Proof.
  intros H Hl. pose proof (focusGuardedFrom_spec None l pre post H Hl) as E.
  cbn in E. apply last_Some in E. exact E.
Qed.

(** The guarded call: query, then focus when the query says no. *)
Lemma focus_after_query_guarded :
  produces FocusGuarded (bind hasWidgetFocus (fun f => if negb f then focus else ret tt)).
Proof.
  intros w. unfold hasWidgetFocus, focus, modifyEditor.
  repeat (first [rewrite bind_assoc | rewrite bind_gets | rewrite bind_emit
                | rewrite bind_ret | rewrite tr_prepend]).
  destruct (match editor w with Some e => ed_hasWidgetFocus e | None => false end);
    reflexivity.
Qed.

Ltac unfold_ops_but_focus :=
  unfold updatePrologue, updateEpilogue, syncValue, applyLanguageChange,
    focusIfRequested, registerCompletionProvider, registerDocumentFormatter,
    registerDefaultCompletionProvider, registerCursorListener,
    unregisterCursorListener, toggleEditorOptions, updateIntersectRegistration,
    requestLayout, onIntersecting, layout, scheduleEditorForLayout,
    callHandler, getValue, setValue, monacoGetModel,
    createModel, setEOL, setModel, getPosition, setPosition, setTimeout,
    modelDispose, when.

Ltac focus_auto :=
  repeat (first [apply focus_after_query_guarded | produces_step]).

Section FocusCalls.

Variable createCellUri : string -> string -> string -> Uri.
Variable uriFile : string -> Uri.
Variable platformEOL : EndOfLineSequence.
Variable monacoCreate : Container -> Uri -> Editor.

Local Abbreviation didMount := (componentDidMount uriFile platformEOL monacoCreate).
Local Abbreviation didUpdate := (componentDidUpdate createCellUri platformEOL).

Lemma componentDidMount_guarded (p : Props) :
  produces FocusGuarded (didMount p).
Proof. unfold componentDidMount. unfold_ops_but_focus. focus_auto. Qed.

Lemma componentDidUpdate_guarded (prevProps p : Props) :
  produces FocusGuarded (didUpdate prevProps p).
Proof. unfold componentDidUpdate. unfold_ops_but_focus. focus_auto. Qed.

Lemma componentDidMount_unfocused (p : Props) :
  truthy (editorFocused p) = false ->
  produces (Forall notFocus) (didMount p).
Proof.
  intros H. unfold componentDidMount. unfold_ops_but_focus. rewrite H.
  produces_auto.
Qed.

Lemma componentDidUpdate_unfocused (prevProps p : Props) :
  truthy (editorFocused p) = false ->
  produces (Forall notFocus) (didUpdate prevProps p).
Proof.
  intros H. unfold componentDidUpdate. unfold_ops_but_focus. rewrite H.
  produces_auto.
Qed.

Lemma Forall_notFocus (l : list Call) : Forall notFocus l -> Focus ∉ l.
Proof.
  intros H Hin. rewrite Forall_forall in H. apply H in Hin. discriminate.
Qed.

(** C6: at mount and in every update pass, a call of [focus] on the editor
    happens only with [editorFocused] set, and only right after a query of
    [hasWidgetFocus] that answered false; with [editorFocused] unset the
    trace holds no call of [focus]. *)
Theorem focus_only_when_requested_and_not_held (prevProps p : Props) (w : World) :
  (forall pre post, tr (didMount p w) = pre ++ Focus :: post ->
     truthy (editorFocused p) = true /\
     exists pre', pre = pre' ++ [HasWidgetFocus false]) /\
  (forall pre post, tr (didUpdate prevProps p w) = pre ++ Focus :: post ->
     truthy (editorFocused p) = true /\
     exists pre', pre = pre' ++ [HasWidgetFocus false]) /\
  (truthy (editorFocused p) = false ->
     (Focus ∉ tr (didMount p w)) /\ (Focus ∉ tr (didUpdate prevProps p w))).
Proof.
  assert (Hoff : truthy (editorFocused p) = false ->
                 (Focus ∉ tr (didMount p w)) /\
                 (Focus ∉ tr (didUpdate prevProps p w))).
  { intros H. split; apply Forall_notFocus.
    - apply componentDidMount_unfocused; exact H.
    - apply componentDidUpdate_unfocused; exact H. }
  repeat split.
  - destruct (truthy (editorFocused p)); [reflexivity|].
    destruct (Hoff eq_refl) as [Hm _]. exfalso. apply Hm. rewrite H.
    apply elem_of_app. right. apply elem_of_cons. left. reflexivity.
  - apply (focusGuarded_spec _ _ _ (componentDidMount_guarded p w) H).
  - destruct (truthy (editorFocused p)); [reflexivity|].
    destruct (Hoff eq_refl) as [_ Hu]. exfalso. apply Hu. rewrite H.
    apply elem_of_app. right. apply elem_of_cons. left. reflexivity.
  - apply (focusGuarded_spec _ _ _ (componentDidUpdate_guarded prevProps p w) H).
  - apply Hoff; assumption.
  - apply Hoff; assumption.
Qed.

End FocusCalls.

(** ** Teardown *)

Section Unmount.

Variable throws : TeardownOp -> bool.

Ltac teardown_branch :=
  match goal with
  | |- context [bind (if throws ?op then _ else _) _ _] =>
      let E := fresh "E" in destruct (throws op) eqn:E
  | |- context [(if throws ?op then _ else _) ?w] =>
      let E := fresh "E" in destruct (throws op) eqn:E
  end.

Ltac teardown_leaf Hem :=
  unfold prepend, ret, guardedOps; world_cbn; try rewrite <- Hem;
  cbn [app List.find];
  repeat match goal with
         | H : throws ?op = _ |- context [throws ?op] => rewrite H
         end;
  cbn [app List.find];
  repeat split; intros;
  repeat match goal with
         | H : editorModel _ = Some _ |- _ => rewrite <- Hem in H
         | H : _ ∈ _ |- _ => rewrite list_elem_of_In in H; cbn [In] in H
         | |- _ ∈ _ => rewrite list_elem_of_In; cbn [In]
         | |- _ ∉ _ => rewrite list_elem_of_In; cbn [In]
         end;
  try solve [intuition (try discriminate; try congruence)].

(** What unmount of a live editor does, by the first operation of the
    guarded block that throws, if any. *)
Lemma componentWillUnmount_outcome (w : World) :
  let r := componentWillUnmount throws w in
  let failed := List.find throws (guardedOps w) in
  editor w <> None ->
  (forall op, val r = inl op -> op = OpMouseMoveDispose /\ mouseMoveListener w = true) /\
  (forall op, ConsoleError op ∈ tr r <-> failed = Some op) /\
  (editor (st r) = None <-> failed = None) /\
  (failed = None ->
   (editorContainerRef w <> None -> ResizeUnobserve ∈ tr r) /\
   (intersectObservation w = true -> IntersectUnobserve ∈ tr r) /\
   intersectObservation (st r) = false /\
   (forall u m, editorModel w = Some (u, m) -> ModelDispose u ∈ tr r) /\
   EditorDispose ∈ tr r) /\
  (mouseMoveListener w = true -> throws OpMouseMoveDispose = false ->
   MouseMoveDispose ∈ tr r) /\
  cursorPositionListener (st r) = cursorPositionListener w /\
  (CursorListenerDispose ∉ tr r).
Proof.
  intros r failed He. subst r failed.
  destruct w as [ed ref cl ml io iv dr dd ms ts]. cbn in He.
  destruct ed as [e|]; [clear He|congruence].
  unfold componentWillUnmount, tryCatch, teardownBody, ethen, native, pure, skip,
    modelDispose, modifyEditor.
  match goal with
  | |- context [mkWorld ?a ?b ?c ?d ?e ?f ?g ?h ?i ?j] =>
      remember (editorModel (mkWorld a b c d e f g h i j)) as em eqn:Hem
  end.
  destruct em as [[u m]|]; destruct ref as [c|]; destruct io; destruct ml.
  all: repeat (exec; try rewrite <- Hem; cbn [fst]; try teardown_branch).
  all: teardown_leaf Hem.
Qed.

(** C8: unmount of a live editor.  An error thrown inside the guarded block
    (reading the model, removing the observers, disposing of the model and
    of the editor) is caught and logged and does not reach the host.  When
    nothing in the block throws, the editor handle is cleared, the resize
    and intersection observations are removed and the model and the editor
    are disposed of.  The mouse listener is disposed of whenever it is
    registered. *)
Theorem unmount_catches_guarded_errors (w : World) :
  let r := componentWillUnmount throws w in
  let failed := List.find throws (guardedOps w) in
  editor w <> None ->
  (forall op, val r = inl op -> op = OpMouseMoveDispose) /\
  (forall op, failed = Some op -> ConsoleError op ∈ tr r) /\
  (failed = None ->
   editor (st r) = None /\
   (editorContainerRef w <> None -> ResizeUnobserve ∈ tr r) /\
   (intersectObservation w = true -> IntersectUnobserve ∈ tr r) /\
   intersectObservation (st r) = false /\
   (forall u m, editorModel w = Some (u, m) -> ModelDispose u ∈ tr r) /\
   EditorDispose ∈ tr r) /\
  (mouseMoveListener w = true -> throws OpMouseMoveDispose = false ->
   MouseMoveDispose ∈ tr r).
Proof.
  intros r failed He.
  destruct (componentWillUnmount_outcome w He)
    as (H1 & H2 & H3 & H4 & H5 & _).
  fold r in H1, H2, H3, H4, H5. fold failed in H2, H3, H4.
  split; [intros op Hop; apply (H1 op Hop)|].
  split; [intros op Hop; apply H2; exact Hop|].
  split; [|exact H5].
  intros Hf. split; [apply H3; exact Hf|apply H4; exact Hf].
Qed.

End Unmount.

Lemma unmount_witness :
  editor sampleWorld <> None /\
  editor (st (componentWillUnmount nothingThrows sampleWorld)) = None.
Proof.
  assert (He : editor sampleWorld <> None) by discriminate.
  split; [exact He|].
  destruct (unmount_catches_guarded_errors nothingThrows sampleWorld He)
    as (_ & _ & H & _).
  apply H. reflexivity.
Defined.

(** The statement of C8 does not hold as worded.  When the disposal of the
    model throws, the error is caught and logged, but the editor is not
    disposed of and the handle stays set.  And without any error the cursor
    listener is still registered after unmount. *)
Lemma failed_model_disposal_keeps_handle :
  val (componentWillUnmount modelDisposeThrows sampleWorld) = inr tt /\
  tr (componentWillUnmount modelDisposeThrows sampleWorld) =
    [ResizeUnobserve; ConsoleError OpModelDispose; MouseMoveDispose] /\
  editor (st (componentWillUnmount modelDisposeThrows sampleWorld)) =
    Some sampleEditor /\
  tr (componentWillUnmount nothingThrows listeningWorld) =
    [ResizeUnobserve; ModelDispose "file:///cell1"; EditorDispose;
     MouseMoveDispose] /\
  cursorPositionListener (st (componentWillUnmount nothingThrows listeningWorld)) =
    true.
Proof.
  repeat split; vm_compute; reflexivity.
Qed.

(** ** Class names *)

Lemma split_nospace (s : string) : Forall (fun t => nospace t = true) (Dom.split s).
Proof.
  induction s as [|c s IH]; cbn [Dom.split].
  - repeat constructor.
  - destruct (Ascii.eqb c Dom.space) eqn:Ec.
    + constructor; [reflexivity|exact IH].
    + destruct (Dom.split s) as [|t ts].
      * repeat constructor. cbn [nospace]. rewrite Ec. reflexivity.
      * inversion IH; subst. constructor; [|assumption].
        cbn [nospace]. rewrite Ec. assumption.
Qed.

Lemma split_token (t : string) : nospace t = true -> Dom.split t = [t].
Proof.
  induction t as [|c t IH]; cbn [Dom.split nospace]; [reflexivity|].
  intros H. apply andb_true_iff in H. destruct H as [Hc Ht].
  apply negb_true_iff in Hc. rewrite Hc, (IH Ht). reflexivity.
Qed.

Lemma split_append_space (t rest : string) :
  nospace t = true ->
  Dom.split (String.append t (String Dom.space rest)) = t :: Dom.split rest.
Proof.
  induction t as [|c t IH]; intros H.
  - reflexivity.
  - cbn [nospace] in H. apply andb_true_iff in H. destruct H as [Hc Ht].
    apply negb_true_iff in Hc.
    change (String.append (String c t) (String Dom.space rest))
      with (String c (String.append t (String Dom.space rest))).
    cbn [Dom.split]. rewrite Hc, (IH Ht). reflexivity.
Qed.

(** Splitting what was joined gives the tokens back. *)
Lemma split_join (l : list string) :
  l <> [] ->
  Forall (fun t => nospace t = true) l ->
  Dom.split (Dom.join l) = l.
Proof.
  induction l as [|t ts IH]; [congruence|]. intros _ H.
  inversion H as [|? ? Ht Hts]; subst.
  destruct ts as [|t' ts'].
  - cbn [Dom.join]. apply split_token. exact Ht.
  - change (Dom.join (t :: t' :: ts'))
      with (String.append t (String Dom.space (Dom.join (t' :: ts')))).
    rewrite split_append_space by exact Ht.
    rewrite IH; [reflexivity|discriminate|exact Hts].
Qed.

Lemma existsb_filter_sub {A} (g f : A -> bool) (l : list A) :
  (forall x, g x = true -> f x = true) ->
  existsb g (List.filter f l) = existsb g l.
Proof.
  intros H. induction l as [|x l IH]; [reflexivity|]. cbn.
  destruct (f x) eqn:Hf; cbn; rewrite IH; [reflexivity|].
  destruct (g x) eqn:Hg; [apply H in Hg; congruence|reflexivity].
Qed.

(** The tokens of a class name rebuilt from kept tokens. *)
Lemma existsb_split_join (g : string -> bool) (l : list string) :
  g "" = false ->
  Forall (fun t => nospace t = true) l ->
  existsb g (Dom.split (Dom.join l)) = existsb g l.
Proof.
  intros Hg Hl. destruct l as [|t ts].
  - cbn. rewrite Hg. reflexivity.
  - rewrite split_join; [reflexivity|discriminate|exact Hl].
Qed.

Lemma kept_tokens_nospace (s : string) :
  Forall (fun t => nospace t = true)
    (List.filter (fun c => negb (String.eqb c "visible")) (Dom.split s)).
Proof.
  pose proof (split_nospace s) as H. rewrite Forall_forall in *.
  intros t Ht. apply list_elem_of_In, filter_In in Ht. destruct Ht as [Ht _].
  apply H. apply list_elem_of_In. exact Ht.
Qed.

Lemma hideWidget_keeps_class (c : string) (e : Dom.Element) :
  c <> "visible" -> c <> "" ->
  Dom.hasClass c (Dom.hideWidget e) = Dom.hasClass c e.
Proof.
  intros Hv He. unfold Dom.hasClass, Dom.hideWidget. cbn [Dom.className].
  rewrite existsb_split_join.
  - apply existsb_filter_sub. intros x Hx. apply String.eqb_eq in Hx. subst x.
    apply negb_true_iff. apply String.eqb_neq. exact Hv.
  - apply String.eqb_neq. exact He.
  - apply kept_tokens_nospace.
Qed.

Lemma hideWidget_strips_visible (e : Dom.Element) :
  Dom.hasClass "visible" (Dom.hideWidget e) = false.
Proof.
  unfold Dom.hasClass, Dom.hideWidget. cbn [Dom.className].
  rewrite existsb_split_join; [|reflexivity|apply kept_tokens_nospace].
  induction (Dom.split (Dom.className e)) as [|t ts IH]; [reflexivity|].
  cbn [List.filter]. destruct (String.eqb t "visible") eqn:Et; cbn [negb]; [exact IH|].
  cbn [existsb]. rewrite IH, orb_false_r.
  rewrite String.eqb_sym. exact Et.
Qed.

Lemma hideWidget_hidden (e : Dom.Element) : Dom.isHidden (Dom.hideWidget e) = true.
Proof.
  unfold Dom.isHidden. rewrite hideWidget_strips_visible. cbn [negb andb].
  unfold Dom.hideWidget. cbn [Dom.style_visibility].
  destruct (String.eqb (Dom.style_visibility e) "hidden") eqn:E; cbn [negb].
  - exact E.
  - reflexivity.
Qed.

(** ** Hiding keeps the shape of the document *)

Lemma related_refl (e : Dom.Element) : related e e.
Proof. repeat split; auto. Qed.

Lemma related_trans (a b c : Dom.Element) : related a b -> related b c -> related a c.
Proof.
  intros (H1 & H2 & H3) (H4 & H5 & H6). repeat split; try congruence. auto.
Qed.

Lemma related_hideWidget (e : Dom.Element) : related e (Dom.hideWidget e).
Proof.
  repeat split.
  - apply hideWidget_keeps_class; discriminate.
  - intros _. apply hideWidget_hidden.
Qed.

Lemma Evolves_refl (d : list Dom.Element) : Evolves d d.
Proof. induction d; constructor; auto using related_refl. Qed.

Lemma Evolves_trans (a b c : list Dom.Element) :
  Evolves a b -> Evolves b c -> Evolves a c.
Proof.
  intros Hab. revert c. induction Hab as [|x y l l' Hxy _ IH]; intros c Hbc.
  - inversion Hbc. constructor.
  - inversion Hbc; subst.
    constructor; [eapply related_trans; eassumption|apply IH; assumption].
Qed.

Lemma Evolves_alter (d : list Dom.Element) (i : nat) :
  Evolves d (alter Dom.hideWidget i d).
Proof.
  revert i. induction d as [|e d IH]; intros i; [constructor|].
  destruct i as [|i]; cbn.
  - constructor; [apply related_hideWidget|apply Evolves_refl].
  - constructor; [apply related_refl|apply IH].
Qed.

Lemma Evolves_length (d d' : list Dom.Element) : Evolves d d' -> length d' = length d.
Proof. intros H. symmetry. eapply Forall2_length. exact H. Qed.

Lemma Evolves_lookup (d d' : list Dom.Element) (i : nat) (e : Dom.Element) :
  Evolves d d' -> d !! i = Some e -> exists e', d' !! i = Some e' /\ related e e'.
Proof.
  intros H. revert i. induction H as [|x y l l' Hxy _ IH]; intros i Hi.
  - discriminate.
  - destruct i as [|i]; cbn in *.
    + inversion Hi; subst. eauto.
    + apply IH. exact Hi.
Qed.

Lemma Evolves_lookup_None (d d' : list Dom.Element) (i : nat) :
  Evolves d d' -> d !! i = None -> d' !! i = None.
Proof.
  intros H Hi. apply lookup_ge_None in Hi. apply lookup_ge_None.
  rewrite (Evolves_length _ _ H). exact Hi.
Qed.

Lemma Evolves_hidden (d d' : list Dom.Element) (i : nat) :
  Evolves d d' -> HiddenAt d i -> HiddenAt d' i.
Proof.
  intros H (e & He & Hh).
  destruct (Evolves_lookup d d' i e H He) as (e' & He' & _ & _ & Hr).
  exists e'. auto.
Qed.

Lemma Evolves_parent (d d' : list Dom.Element) (i : nat) :
  Evolves d d' ->
  (Dom.parentElement <$> d' !! i) = (Dom.parentElement <$> d !! i).
Proof.
  intros H. destruct (d !! i) as [e|] eqn:E.
  - destruct (Evolves_lookup d d' i e H E) as (e' & He' & Hp & _).
    rewrite He'. cbn. rewrite Hp. reflexivity.
  - rewrite (Evolves_lookup_None d d' i H E). reflexivity.
Qed.

Lemma Evolves_hasAncestor (d d' : list Dom.Element) (fuel a i : nat) :
  Evolves d d' -> Dom.hasAncestor d' fuel a i = Dom.hasAncestor d fuel a i.
Proof.
  intros H. revert i. induction fuel as [|fuel IH]; intros i; [reflexivity|].
  cbn [Dom.hasAncestor]. pose proof (Evolves_parent d d' i H) as Hp.
  destruct (d !! i) as [e|], (d' !! i) as [e'|]; cbn in Hp; try discriminate;
    [|reflexivity].
  inversion Hp as [Hpe]. rewrite Hpe.
  destruct (Dom.parentElement e); [rewrite IH|]; reflexivity.
Qed.

Lemma Evolves_hints (d d' : list Dom.Element) (i : nat) :
  Evolves d d' ->
  Dom.matchesAt d' Dom.parameterHints i = Dom.matchesAt d Dom.parameterHints i.
Proof.
  intros H. unfold Dom.matchesAt. destruct (d !! i) as [e|] eqn:E.
  - destruct (Evolves_lookup d d' i e H E) as (e' & He' & _ & Hc & _).
    rewrite He'. exact Hc.
  - rewrite (Evolves_lookup_None d d' i H E). reflexivity.
Qed.

(** Hiding does not change which widgets a container holds. *)
Lemma Evolves_querySelectorAllIn (d d' : list Dom.Element) (parent : nat) :
  Evolves d d' ->
  Dom.querySelectorAllIn d' parent Dom.parameterHints =
  Dom.querySelectorAllIn d parent Dom.parameterHints.
Proof.
  intros H. unfold Dom.querySelectorAllIn, Dom.isDescendant.
  rewrite (Evolves_length _ _ H).
  apply filter_ext. intros i.
  rewrite (Evolves_hints _ _ _ H), (Evolves_hasAncestor _ _ _ _ _ H). reflexivity.
Qed.

Lemma hide_each (l : list nat) (d : list Dom.Element) :
  Evolves d (fold_left (fun d' i => alter Dom.hideWidget i d') l d) /\
  forall i, In i l -> (i < length d)%nat ->
    HiddenAt (fold_left (fun d' i => alter Dom.hideWidget i d') l d) i.
Proof.
  revert d. induction l as [|j l IH]; intros d; cbn [fold_left].
  - split; [apply Evolves_refl|]. intros i [].
  - destruct (IH (alter Dom.hideWidget j d)) as [He Hh].
    pose proof (Evolves_alter d j) as Hs.
    split; [eapply Evolves_trans; eassumption|].
    intros i [Hi|Hi] Hlt.
    + subst j. apply (Evolves_hidden _ _ _ He).
      destruct (lookup_lt_is_Some_2 d i Hlt) as [e E].
      exists (Dom.hideWidget e). split; [|apply hideWidget_hidden].
      rewrite list_lookup_alter_eq, E. reflexivity.
    + apply Hh; [exact Hi|]. rewrite length_alter. exact Hlt.
Qed.

Lemma querySelectorAllIn_bound (d : list Dom.Element) (parent i : nat) (sel : Dom.Selector) :
  In i (Dom.querySelectorAllIn d parent sel) -> (i < length d)%nat.
Proof.
  unfold Dom.querySelectorAllIn. intros H. apply filter_In in H.
  destruct H as [H _]. apply in_seq in H. lia.
Qed.

Lemma hideWidgets_hints (d : list Dom.Element) (parent : nat) :
  Evolves d (Dom.hideWidgets d parent [Dom.parameterHints]) /\
  forall i, In i (Dom.querySelectorAllIn d parent Dom.parameterHints) ->
    HiddenAt (Dom.hideWidgets d parent [Dom.parameterHints]) i.
Proof.
  unfold Dom.hideWidgets. cbn [fold_left].
  destruct (hide_each (Dom.querySelectorAllIn d parent Dom.parameterHints) d)
    as [He Hh].
  split; [exact He|]. intros i Hi. apply Hh; [exact Hi|].
  eapply querySelectorAllIn_bound. exact Hi.
Qed.

Lemma hide_parents_evolves (parents : list nat) (d : list Dom.Element) :
  Evolves d (fold_left (fun a parent => Dom.hideWidgets a parent [Dom.parameterHints])
                       parents d).
Proof.
  revert d. induction parents as [|q parents IH]; intros d; cbn [fold_left].
  - apply Evolves_refl.
  - eapply Evolves_trans; [apply hideWidgets_hints|apply IH].
Qed.

Lemma hide_parents (parents : list nat) (d0 d : list Dom.Element) :
  Evolves d0 d ->
  forall parent i, In parent parents ->
    In i (Dom.querySelectorAllIn d0 parent Dom.parameterHints) ->
    HiddenAt (fold_left (fun a parent => Dom.hideWidgets a parent [Dom.parameterHints])
                        parents d) i.
Proof.
  revert d. induction parents as [|q parents IH]; intros d H0; cbn [fold_left].
  - intros parent i [].
  - destruct (hideWidgets_hints d q) as [Hs Hh].
    assert (H1 : Evolves d0 (Dom.hideWidgets d q [Dom.parameterHints]))
      by (eapply Evolves_trans; eassumption).
    intros parent i [Hp|Hp] Hi.
    + subst q.
      rewrite <- (Evolves_querySelectorAllIn d0 d parent H0) in Hi.
      apply Hh in Hi.
      apply (Evolves_hidden _ _ _ (hide_parents_evolves parents _)). exact Hi.
    + apply (IH _ H1 parent i); assumption.
Qed.

(** The pointer is inside the padded box exactly when both coordinates are
    within its sides. *)
Lemma coordsInsideElement_spec (e : Dom.Element) (x y : Z) :
  Dom.coordsInsideElement (Some e) (Some x) (Some y) Dom.HOVER_BOUND_DEFAULT_PADDING = true <->
  (Dom.rect_left (Dom.boundingClientRect e) - 5 <= x <=
     Dom.rect_right (Dom.boundingClientRect e) + 5 /\
   Dom.rect_top (Dom.boundingClientRect e) - 5 <= y <=
     Dom.rect_bottom (Dom.boundingClientRect e) + 5)%Z.
Proof.
  unfold Dom.coordsInsideElement, Dom.js_ge, Dom.js_le, Dom.HOVER_BOUND_DEFAULT_PADDING.
  rewrite !andb_true_iff, !Z.leb_le. lia.
Qed.

(** A coordinate that is [undefined] is never inside. *)
Lemma coordsInsideElement_undefined (e : option Dom.Element) (x y : option Z) (padding : Z) :
  x = None \/ y = None -> Dom.coordsInsideElement e x y padding = false.
Proof.
  intros H. destruct e as [e|]; [|reflexivity]. unfold Dom.coordsInsideElement.
  destruct H as [-> | ->]; cbn; rewrite ?andb_false_r; reflexivity.
Qed.

(** C7: a pointer move handled by a mounted instance, where [first] is the
    first element of the document that carries the parameter-hint class
    (shown or not).  With the pointer strictly outside its bounding box
    padded by 5 pixels, every parameter-hint widget inside a monaco
    container other than the one of this instance ends without the
    [visible] class and with inline visibility [hidden].  With the pointer
    inside the padded box (sides included) the document is left as it is. *)
Theorem pointer_outside_first_hint_hides_other_hints
  (doc : list Dom.Element) (ref : nat) (x y : Z) (first : nat) (e : Dom.Element) :
  Dom.querySelector doc Dom.parameterHints = Some first ->
  doc !! first = Some e ->
  let box := Dom.boundingClientRect e in
  let doc' :=
    Dom.handleCoordsOutsideWidgetActiveRegion doc (Some ref) (Some x) (Some y) in
  ((x < Dom.rect_left box - 5 \/ Dom.rect_right box + 5 < x \/
    y < Dom.rect_top box - 5 \/ Dom.rect_bottom box + 5 < y)%Z ->
   Evolves doc doc' /\
   forall parent i,
     In parent (Dom.querySelectorAll doc Dom.monacoContainer) ->
     Some parent <> Dom.refParent doc (Some ref) ->
     In i (Dom.querySelectorAllIn doc parent Dom.parameterHints) ->
     HiddenAt doc' i) /\
  ((Dom.rect_left box - 5 <= x <= Dom.rect_right box + 5 /\
    Dom.rect_top box - 5 <= y <= Dom.rect_bottom box + 5)%Z ->
   doc' = doc).
Proof.
  intros Hq He box doc'. subst doc'.
  unfold Dom.handleCoordsOutsideWidgetActiveRegion. rewrite Hq, He.
  pose proof (coordsInsideElement_spec e x y) as Hspec. fold box in Hspec.
  destruct (Dom.coordsInsideElement (Some e) (Some x) (Some y)
              Dom.HOVER_BOUND_DEFAULT_PADDING) eqn:Hin; cbn [negb].
  - split; [|reflexivity].
    intros Hout. exfalso. assert (Ht : true = true) by reflexivity.
    apply Hspec in Ht. lia.
  - split.
    + intros _. unfold Dom.hideAllOtherParameterWidgets. split.
      * apply hide_parents_evolves.
      * intros parent i Hp Hne Hi.
        apply (hide_parents _ doc doc (Evolves_refl doc) parent i); [|exact Hi].
        apply filter_In. split; [exact Hp|].
        unfold Dom.isOther. destruct (Dom.refParent doc (Some ref)) as [o|];
          [|reflexivity].
        apply negb_true_iff, Nat.eqb_neq. congruence.
    + intros Hins. apply Hspec in Hins. discriminate.
Qed.

Lemma pointer_outside_witness :
  Dom.querySelector twoEditors Dom.parameterHints = Some 2%nat /\
  twoEditors !! 2%nat = Some shownHint /\
  Dom.isVisiblePopup shownHint = true /\
  HiddenAt
    (Dom.handleCoordsOutsideWidgetActiveRegion twoEditors (Some 4%nat)
       (Some 150%Z) (Some 150%Z)) 2.
Proof.
  assert (H1 : Dom.querySelector twoEditors Dom.parameterHints = Some 2%nat)
    by reflexivity.
  assert (H2 : twoEditors !! 2%nat = Some shownHint) by reflexivity.
  split; [exact H1|]. split; [exact H2|]. split; [reflexivity|].
  destruct (pointer_outside_first_hint_hides_other_hints twoEditors 4 150 150 2
              shownHint H1 H2) as [H _].
  destruct H as [_ H]; [cbn; lia|].
  apply (H 0%nat 2%nat).
  - vm_compute. auto.
  - vm_compute. discriminate.
  - vm_compute. auto.
Defined.

(** C7 does not hold of the handler: the box the pointer is compared with
    is the one of the first parameter-hint widget of the document, shown or
    not, where the handler is meant to look at the active widget.  Here the
    pointer is inside the padded box of the widget that is shown, yet that
    widget gets hidden, because the first widget of the document is another
    one, which is not shown. *)
Lemma pointer_inside_visible_hint_still_hides :
  threeEditors !! 5%nat = Some visibleHint /\
  Dom.isVisiblePopup visibleHint = true /\
  Dom.isVisiblePopup hiddenHint = false /\
  Dom.coordsInsideElement (Some visibleHint) (Some 150%Z) (Some 120%Z)
    Dom.HOVER_BOUND_DEFAULT_PADDING = true /\
  Dom.querySelector threeEditors Dom.parameterHints = Some 2%nat /\
  (Dom.isVisiblePopup <$>
     Dom.handleCoordsOutsideWidgetActiveRegion threeEditors (Some 7%nat)
       (Some 150%Z) (Some 120%Z) !! 5%nat) = Some false /\
  (Dom.style_visibility <$>
     Dom.handleCoordsOutsideWidgetActiveRegion threeEditors (Some 7%nat)
       (Some 150%Z) (Some 120%Z) !! 5%nat) = Some "hidden".
Proof.
  repeat split; vm_compute; reflexivity.
Qed.

(** ** The scenarios of the specification, run on the model *)

(** Value unchanged: no push.  Value changed while the text is the old one:
    one push of the new value. *)
Example scenario_value_unchanged :
  List.filter is_setValue
    (tr (componentDidUpdate sampleCellUri LF sampleProps sampleProps sampleWorld)) = [].
Proof. vm_compute. reflexivity. Qed.

Example scenario_value_changed :
  List.filter is_setValue
    (tr (componentDidUpdate sampleCellUri LF sampleProps
           (with_value_language "print(2)" "python" sampleProps) sampleWorld)) =
    [SetValue "print(2)"].
Proof. vm_compute. reflexivity. Qed.

(** Same language: no model is created.  Another language: one model is
    created and one disposal is scheduled, none is carried out in the pass. *)
Example scenario_same_language :
  List.filter is_model_call
    (tr (componentDidUpdate sampleCellUri LF sampleProps sampleProps sampleWorld)) = [].
Proof. vm_compute. reflexivity. Qed.

Example scenario_other_language :
  List.filter is_model_call
    (tr (componentDidUpdate sampleCellUri LF sampleProps markdownProps sampleWorld)) =
    [CreateModel "print(1)" "markdown" (sampleCellUri "ref1" "cell1" "markdown");
     SetEOL (sampleCellUri "ref1" "cell1" "markdown") LF;
     SetModel (sampleCellUri "ref1" "cell1" "markdown");
     SetTimeout (DisposeModelTask "file:///cell1");
     SetPosition (mkPosition 3 7)].
Proof. vm_compute. reflexivity. Qed.

(** Focus requested at mount: one call when no widget holds the focus, none
    when one does, none when focus is not requested. *)
Example scenario_mount_takes_focus :
  count is_focus
    (tr (componentDidMount sampleUriFile LF sampleCreate sampleProps unmountedWorld)) = 1%nat.
Proof. vm_compute. reflexivity. Qed.

Example scenario_mount_keeps_widget_focus :
  count is_focus
    (tr (componentDidMount sampleUriFile LF focusedCreate sampleProps unmountedWorld)) = 0%nat.
Proof. vm_compute. reflexivity. Qed.

Example scenario_mount_without_request :
  count is_focus
    (tr (componentDidMount sampleUriFile LF sampleCreate
           (with_editorFocused (Some false) sampleProps) unmountedWorld)) = 0%nat.
Proof. vm_compute. reflexivity. Qed.

(** Mount looks the model up, creates it when absent, and forces line feeds
    once (the test "Should call setEOL when creating editor"). *)
Example scenario_mount_model :
  List.filter is_model_call
    (tr (componentDidMount sampleUriFile LF sampleCreate sampleProps unmountedWorld)) =
    [CreateModel "print(1)" "python" "file:///cell1"; SetEOL "file:///cell1" LF].
Proof. vm_compute. reflexivity. Qed.

(** * Further properties *)

(** ** The measured dimension has no zero side *)

Lemma getLayoutDimension_none (p : Props) (w : World) :
  getLayoutDimension p w = None <->
  match readEditorDomSize w with
  | Some box => width box = 0%Z \/ height box = 0%Z
  | None => True
  end.
Proof.
  unfold getLayoutDimension.
  destruct (readEditorDomSize w) as [box|]; [|tauto].
  destruct (Z.eqb_spec (width box) 0) as [Hw|Hw]; cbn [orb]; [tauto|].
  destruct (Z.eqb_spec (height box) 0) as [Hh|Hh]; [tauto|].
  split; [discriminate|intros [?|?]; congruence].
Qed.

Lemma getLayoutDimension_some (p : Props) (w : World) (d : Dimension) :
  getLayoutDimension p w = Some d ->
  width d <> 0%Z /\ height d <> 0%Z /\
  (exists box, readEditorDomSize w = Some box /\ width d = width box) /\
  (forall m, maxContentHeight p = Some m -> m <> 0%Z -> (height d <= m)%Z).
Proof.
  unfold getLayoutDimension.
  destruct (readEditorDomSize w) as [box|]; [|discriminate].
  destruct (Z.eqb_spec (width box) 0) as [Hw|Hw]; cbn [orb]; [discriminate|].
  destruct (Z.eqb_spec (height box) 0) as [Hh|Hh]; [discriminate|].
  assert (Hfit :
    exists h, h <> 0%Z /\
      (if nullish (autoFitContentHeight p) true
       then if optnum_truthy (contentHeight w)
            then mkDimension (width box) (default 0%Z (contentHeight w))
            else box
       else box) = mkDimension (width box) h).
  { destruct (nullish (autoFitContentHeight p) true);
      [|exists (height box); destruct box; auto].
    destruct (contentHeight w) as [h|]; cbn [optnum_truthy default];
      [|exists (height box); destruct box; auto].
    unfold num_truthy. destruct (Z.eqb_spec h 0); cbn [negb];
      [exists (height box); destruct box; auto|exists h; auto]. }
  destruct Hfit as (h & Hh0 & ->).
  intros Hd.
  destruct (maxContentHeight p) as [m|]; cbn [width height] in Hd.
  - unfold num_truthy in Hd.
    destruct (Z.eqb_spec m 0) as [Hm|Hm]; cbn [negb width height] in Hd;
      inversion Hd; subst d; cbn [width height].
    + repeat split; auto; [eexists; eauto|]. intros m' E. congruence.
    + repeat split; auto; [lia|eexists; eauto|].
      intros m' E Hm'. inversion E; subst. lia.
  - inversion Hd; subst d; cbn [width height].
    repeat split; auto; [eexists; eauto|]. discriminate.
Qed.

(** X1: [getLayoutDimension] gives nothing exactly when the editor has no
    container node or the client box of the container has a zero side.  A
    dimension it gives has the client width of the container, a width and a
    height that are not zero, and a height that does not exceed a maximum
    content height that is set and not zero. *)
Theorem measured_dimension_has_no_zero_side (p : Props) (w : World) :
  (getLayoutDimension p w = None <->
   match readEditorDomSize w with
   | Some box => width box = 0%Z \/ height box = 0%Z
   | None => True
   end) /\
  (forall d, getLayoutDimension p w = Some d ->
     width d <> 0%Z /\ height d <> 0%Z /\
     (exists box, readEditorDomSize w = Some box /\ width d = width box) /\
     (forall m, maxContentHeight p = Some m -> m <> 0%Z -> (height d <= m)%Z)).
Proof.
  split; [apply getLayoutDimension_none|apply getLayoutDimension_some].
Qed.

(** ** Resize *)

Lemma requestLayout_measured_calls (p : Props) (w : World) :
  (length (tr (requestLayout p None w)) <= 1)%nat /\
  (forall d, Layout d ∈ tr (requestLayout p None w) ->
     getLayoutDimension p w = Some d /\ editor w <> None /\
     isInViewport w = true /\ shouldLayout p w = true /\
     is_true_strict (batchLayoutChanges p) = false) /\
  (forall d, ScheduleEditorForLayout d ∈ tr (requestLayout p None w) ->
     d = None /\ isInViewport w = true /\ shouldLayout p w = true).
Proof.
  split; [apply requestLayout_at_most_one|].
  unfold requestLayout, layout, scheduleEditorForLayout.
  rewrite bind_gets.
  destruct (editor w) eqn:He;
    [|split; intros d H; cbn in H; apply elem_of_nil in H; contradiction].
  rewrite bind_gets.
  destruct (isInViewport w); cbn [negb];
    [|split; intros d H; cbn in H; apply elem_of_nil in H; contradiction].
  rewrite bind_gets.
  destruct (shouldLayout p w); cbn [negb];
    [|split; intros d H; cbn in H; apply elem_of_nil in H; contradiction].
  destruct (is_true_strict (batchLayoutChanges p)).
  - split; intros d H; cbn in H; apply list_elem_of_singleton in H.
    + discriminate.
    + inversion H. auto.
  - rewrite bind_gets.
    destruct (getLayoutDimension p w) as [dim|].
    + rewrite bind_gets, He.
      split; intros d H; cbn in H; apply list_elem_of_singleton in H.
      * inversion H. repeat split; auto; discriminate.
      * discriminate.
    + split; intros d H; cbn in H; apply elem_of_nil in H; contradiction.
Qed.

(** X2: a resize of the container leads to a layout request only with
    [shouldUpdateLayoutWhenNotFocused], or for a live editor with
    [editorFocused]; otherwise, and without an editor, it does nothing.  The
    request carries no dimension: a layout it makes is the measured one,
    with no zero side, for an instance that is in the viewport and allowed
    to lay out; a hand-over to the scheduler carries no dimension; and at
    most one call is made. *)
Theorem resize_lays_out_the_measured_box (p : Props) (w : World) :
  (truthy (shouldUpdateLayoutWhenNotFocused p) = false ->
   truthy (editorFocused p) = false -> onResize p w = mkRes tt w []) /\
  (editor w = None -> onResize p w = mkRes tt w []) /\
  (length (tr (onResize p w)) <= 1)%nat /\
  (forall d, Layout d ∈ tr (onResize p w) ->
     getLayoutDimension p w = Some d /\ width d <> 0%Z /\ height d <> 0%Z /\
     isInViewport w = true /\ shouldLayout p w = true) /\
  (forall d, ScheduleEditorForLayout d ∈ tr (onResize p w) -> d = None).
Proof.
  assert (Hreq : onResize p w = requestLayout p None w \/ onResize p w = mkRes tt w []).
  { unfold onResize.
    destruct (truthy (shouldUpdateLayoutWhenNotFocused p)); [auto|].
    rewrite bind_gets. destruct (editor w); [|auto].
    destruct (truthy (editorFocused p)); auto. }
  split; [|split; [|split; [|split]]].
  - intros Hs Hf. unfold onResize. rewrite Hs, bind_gets, Hf.
    destruct (editor w); reflexivity.
  - intros He. unfold onResize.
    destruct (truthy (shouldUpdateLayoutWhenNotFocused p)).
    + apply requestLayout_no_editor. exact He.
    + rewrite bind_gets, He. reflexivity.
  - destruct Hreq as [-> | ->]; [apply requestLayout_at_most_one|cbn; lia].
  - intros d Hd. destruct Hreq as [E|E]; rewrite E in Hd;
      [|cbn in Hd; apply elem_of_nil in Hd; contradiction].
    destruct (requestLayout_measured_calls p w) as (_ & H & _).
    destruct (H d Hd) as (Hg & _ & Hv & Hs & _).
    destruct (getLayoutDimension_some p w d Hg) as (Hw0 & Hh0 & _).
    auto.
  - intros d Hd. destruct Hreq as [E|E]; rewrite E in Hd;
      [|cbn in Hd; apply elem_of_nil in Hd; contradiction].
    destruct (requestLayout_measured_calls p w) as (_ & _ & H).
    apply (H d Hd).
Qed.
(** ** A change of the content size *)

(** X3: the listener of [onDidContentSizeChange] does nothing unless the
    content height changed, auto-fit is on (the default) and the editor is
    live.  Otherwise it requests a layout at the width of the current layout
    and the content height of the event, as reported: in the viewport, not
    hidden and not batched, that dimension is laid out as it is, whatever
    [maxContentHeight] says; batched, it is handed to the scheduler; outside
    the viewport it is stashed. *)
Theorem content_size_change_requests_reported_height
  (p : Props) (layoutWidth : Z) (info : ContentSizeChangedEvent) (w : World) :
  let d := mkDimension layoutWidth (newContentHeight info) in
  let r := contentSizeChanged p layoutWidth info w in
  ((contentHeightChanged info = false \/
    nullish (autoFitContentHeight p) true = false \/ editor w = None) ->
   r = mkRes tt w []) /\
  (contentHeightChanged info = true ->
   nullish (autoFitContentHeight p) true = true -> editor w <> None ->
   (isInViewport w = true -> shouldLayout p w = true ->
    is_true_strict (batchLayoutChanges p) = false -> r = mkRes tt w [Layout d]) /\
   (isInViewport w = true -> shouldLayout p w = true ->
    is_true_strict (batchLayoutChanges p) = true ->
    r = mkRes tt w [ScheduleEditorForLayout (Some d)]) /\
   (isInViewport w = true -> shouldLayout p w = false -> r = mkRes tt w []) /\
   (isInViewport w = false ->
    r = mkRes tt (set_deferredLayoutRequest true
                    (set_deferredLayoutDimension (Some d) w)) [])).
Proof.
  intros d r. subst d r. unfold contentSizeChanged. split.
  - intros [H|[H|H]].
    + rewrite H. reflexivity.
    + rewrite H, andb_false_r. reflexivity.
    + destruct (contentHeightChanged info && nullish (autoFitContentHeight p) true);
        [|reflexivity].
      rewrite bind_gets, H. reflexivity.
  - intros Hc Ha He. rewrite Hc, Ha. cbn [andb]. rewrite bind_gets.
    destruct (editor w) eqn:E; [clear He|congruence].
    unfold requestLayout, layout, scheduleEditorForLayout.
    rewrite bind_gets, E, bind_gets.
    split; [|split; [|split]].
    + intros Hv Hs Hb. rewrite Hv. cbn [negb]. rewrite bind_gets, Hs. cbn [negb].
      rewrite Hb, bind_ret, bind_gets, E. reflexivity.
    + intros Hv Hs Hb. rewrite Hv. cbn [negb]. rewrite bind_gets, Hs. cbn [negb].
      rewrite Hb. reflexivity.
    + intros Hv Hs. rewrite Hv. cbn [negb]. rewrite bind_gets, Hs. reflexivity.
    + intros Hv. rewrite Hv. reflexivity.
Qed.

(** ** Registration with the intersection observer *)

(** X4: [updateIntersectRegistration] registers an observation only with
    [skipLayoutWhenNotInViewport], a container and no observation yet, and
    then marks the instance as outside the viewport until the observer
    reports; it removes the observation only when the prop is off and one is
    registered, and then marks the instance as in the viewport.  Called
    again with the same props it makes no call and changes nothing, so there
    is never more than one observation. *)
Theorem intersect_registration_is_idempotent (p : Props) (w : World) :
  let r := updateIntersectRegistration p w in
  updateIntersectRegistration p (st r) = mkRes tt (st r) [] /\
  (IntersectObserve ∈ tr r <->
   truthy (skipLayoutWhenNotInViewport p) = true /\ editorContainerRef w <> None /\
   intersectObservation w = false) /\
  (IntersectUnobserve ∈ tr r <->
   truthy (skipLayoutWhenNotInViewport p) = false /\ intersectObservation w = true) /\
  (length (tr r) <= 1)%nat /\
  (IntersectObserve ∈ tr r ->
   intersectObservation (st r) = true /\ isInViewport (st r) = false) /\
  (truthy (skipLayoutWhenNotInViewport p) = false ->
   intersectObservation (st r) = false /\ isInViewport (st r) = true) /\
  (tr r = [] -> truthy (skipLayoutWhenNotInViewport p) = true -> st r = w).
Proof.
  intros r. subst r. unfold updateIntersectRegistration, when.
  destruct w as [ed ref cl ml io iv dr dd ms ts].
  destruct (truthy (skipLayoutWhenNotInViewport p)) eqn:Hs;
    destruct ref as [c|]; destruct io; cbn;
    rewrite ?list_elem_of_singleton, ?elem_of_nil;
    repeat split; intros; try lia;
    try match goal with H : _ /\ _ |- _ => decompose [and] H; clear H end;
    try discriminate; try congruence; try contradiction; auto.
Qed.

(** ** Running a computation block by block *)

Lemma bind_run {A B} (m : M A) (k : A -> M B) w :
  bind m k w = prepend (tr (m w)) (k (val (m w)) (st (m w))).
Proof. reflexivity. Qed.

Lemma bind_ext {A B} (m : M A) (k k' : A -> M B) w :
  (forall a w', k a w' = k' a w') -> bind m k w = bind m k' w.
Proof. intros H. unfold bind. cbn. rewrite H. reflexivity. Qed.

#[global] Instance sameOn_preorder {A} (f : World -> A) : PreOrder (sameOn f).
Proof.
  split.
  - intros w. reflexivity.
  - intros a b c Hab Hbc. unfold sameOn in *. congruence.
Qed.

#[global] Instance keepsMounted_preorder (c : Container) : PreOrder (keepsMounted c).
Proof.
  split.
  - intros w H. exact H.
  - intros x y z Hxy Hyz H. apply Hyz, Hxy, H.
Qed.

(** The side condition on a single state change, for a part of the state
    that the change leaves alone. *)
Ltac solve_frame :=
  let w := fresh "w" in
  intros w; unfold sameOn, keepsMounted, mountedInvariant;
  try match goal with
      | |- context [editorModel ?x] => destruct (editorModel x) as [[? ?]|]
      end;
  destruct w as [[?|] ? ? ? ? ? ? ? ? ?]; cbn; try reflexivity; try tauto.

Ltac frame_step :=
  lazymatch goal with
  | |- preserves _ (bind _ _) =>
      apply preserves_bind; [typeclasses eauto| |intros ?]
  | |- preserves _ (ret _) => apply preserves_ret; typeclasses eauto
  | |- preserves _ (gets _) => apply preserves_gets; typeclasses eauto
  | |- preserves _ (emit _) => apply preserves_emit; typeclasses eauto
  | |- preserves _ (modify _) => apply preserves_modify; solve_frame
  | |- preserves _ (if ?b then _ else _) => destruct b
  | |- preserves _ (match ?x with _ => _ end) => destruct x
  end.

Ltac frame_auto := repeat frame_step.

(** The native operations and the helpers, unfolded down to reads, writes
    and calls. *)
Ltac unfold_natives :=
  unfold focusIfRequested, registerCompletionProvider, registerDocumentFormatter,
    registerDefaultCompletionProvider, registerCursorListener,
    unregisterCursorListener, toggleEditorOptions,
    layout, scheduleEditorForLayout,
    callHandler, getValue, setValue, hasWidgetFocus, focus, monacoGetModel,
    createModel, setEOL, setModel, getPosition, setPosition, setTimeout,
    modelDispose, modifyEditor, when.

Lemma registerDocumentFormatter_state (p : Props) (w : World) :
  st (registerDocumentFormatter p w) = w.
Proof.
  unfold registerDocumentFormatter.
  destruct (truthy (enableFormatting p) && str_truthy (language p)); [|reflexivity].
  destruct (onRegisterDocumentFormattingEditProvider p); reflexivity.
Qed.

Lemma requestLayout_frame {A} (f : World -> A) (p : Props) (d : option Dimension) :
  (forall b w, f (set_deferredLayoutRequest b w) = f w) ->
  (forall x w, f (set_deferredLayoutDimension x w) = f w) ->
  preserves (sameOn f) (requestLayout p d).
Proof.
  intros H1 H2. unfold requestLayout. unfold_natives.
  repeat lazymatch goal with
         | |- preserves _ (modify _) =>
             apply preserves_modify; intros ?; unfold sameOn; auto
         | _ => frame_step
         end.
Qed.

(** ** What an update pass leaves in the registry *)

Section UpdateRegistry.

Variable createCellUri : string -> string -> string -> Uri.
Variable platformEOL : EndOfLineSequence.

Local Abbreviation didUpdate := (componentDidUpdate createCellUri platformEOL).
Local Abbreviation languageChange := (applyLanguageChange createCellUri platformEOL).

(** The state the value block leaves. *)
Lemma syncValue_state (prevProps p : Props) (w : World) :
  st (syncValue prevProps p w) =
    if str_neq (value prevProps) (value p) && str_neq (editorValue w) (value p) then
      match editorModel w with
      | Some (u, _) => set_models (alter (model_set_value (value p)) u (models w)) w
      | None => w
      end
    else w.
Proof.
  unfold syncValue, getValue, setValue.
  destruct (str_neq (value prevProps) (value p)); [|reflexivity].
  rewrite bind_assoc, bind_gets, bind_assoc, bind_emit, bind_ret, st_prepend.
  destruct (str_neq (editorValue w) (value p)); reflexivity.
Qed.

(** The language block of an update pass either leaves the registry, the
    timers and the model of the editor as they were, or it swaps the model. *)
Lemma componentDidUpdate_language_cases (prevProps p : Props) (w : World) :
  editor w <> None ->
  let w3 := stateAtLanguageBlock prevProps p w in
  let newUri := createCellUri (contentRef p) (id p) (language p) in
  let r := didUpdate prevProps p w in
  sameModelView w3 (st r) \/
  (exists oldUri m,
     editorModel w3 = Some (oldUri, m) /\ models w3 !! newUri = None /\
     models (st r) =
    <[newUri := mkModel (normalizeEOL LF (value p)) (language p) LF]> (models w3) /\
     timers (st r) = timers w ++ [DisposeModelTask oldUri] /\
     (ed_model <$> editor (st r)) = Some (Some newUri)).
Proof.
  intros He w3 newUri r.
  destruct (componentDidUpdate_blocks createCellUri platformEOL prevProps p w He)
    as [_ Hst].
  fold (stateAtLanguageBlock prevProps p w) in Hst. fold w3 in Hst. fold r in Hst.
  destruct (editorModel w3) as [[oldUri m]|] eqn:Hm.
  2:{ left. rewrite Hst, applyLanguageChange_idle by auto. apply updateEpilogue_view. }
  destruct (string_dec (language p) "") as [Hl|Hl].
  { left. rewrite Hst, applyLanguageChange_idle by auto. apply updateEpilogue_view. }
  destruct (string_dec (model_language m) (language p)) as [Hd|Hd].
  { left. rewrite Hst, applyLanguageChange_idle by eauto 6. apply updateEpilogue_view. }
  destruct (models w3 !! newUri) as [m'|] eqn:Hx.
  - left.
    apply (componentDidUpdate_reuse createCellUri platformEOL prevProps p w oldUri m);
      auto. fold w3 newUri. rewrite Hx. discriminate.
  - right. exists oldUri, m.
    destruct (componentDidUpdate_swap createCellUri platformEOL prevProps p w oldUri m
                Hm Hl Hd Hx) as (_ & Hmod & Htim & Hedm & _).
    auto.
Qed.

Lemma stateAtLanguageBlock_eq (prevProps p : Props) (w : World) :
  stateAtLanguageBlock prevProps p w = st (syncValue prevProps p (st (updatePrologue p w))).
Proof.
  unfold stateAtLanguageBlock. apply registerCompletionProvider_state.
Qed.

(** The text of the editor once the value block has run. *)
Lemma syncValue_value (prevProps p : Props) (w : World) :
  editorModel w <> None -> value prevProps <> value p ->
  editorValue (st (syncValue prevProps p w)) = value p.
Proof.
  intros Hm Hv. rewrite syncValue_state.
  apply str_neq_true in Hv. rewrite Hv. cbn [andb].
  destruct (str_neq (editorValue w) (value p)) eqn:E.
  - destruct (editorModel w) as [[u m]|] eqn:Hem; [|congruence].
    destruct (editorModel_inv w u m Hem) as (e & He & Hu & Hr).
    unfold editorValue, editorModel. cbn [editor set_models models].
    rewrite He, Hu, lookup_alter_eq, Hr. reflexivity.
  - apply str_neq_false in E. exact E.
Qed.

Lemma sameModelView_editorValue (w w' : World) :
  sameModelView w w' -> editorValue w' = editorValue w.
Proof.
  intros H. unfold editorValue. rewrite (sameModelView_editorModel _ _ H). reflexivity.
Qed.

(** Text that was normalized to line feeds has no other line break left. *)
Lemma normalizeFrom_LF_idem (afterCR : bool) (s : string) :
  normalizeEOL LF (normalizeFrom LF afterCR s) = normalizeFrom LF afterCR s.
Proof.
  unfold normalizeEOL. revert afterCR.
  induction s as [|c s IH]; intros afterCR; [reflexivity|].
  cbn [normalizeFrom].
  destruct (Ascii.eqb c charCR) eqn:Ec.
  - change (String.append (eolText LF) ?t) with (String charLF t).
    cbn [normalizeFrom]. change (Ascii.eqb charLF charCR) with false.
    change (Ascii.eqb charLF charLF) with true. cbn iota.
    change (String.append (eolText LF) ?t) with (String charLF t).
    rewrite IH. reflexivity.
  - destruct (Ascii.eqb c charLF) eqn:El.
    + destruct afterCR; [apply IH|].
      change (String.append (eolText LF) ?t) with (String charLF t).
      cbn [normalizeFrom]. change (Ascii.eqb charLF charCR) with false.
      change (Ascii.eqb charLF charLF) with true. cbn iota.
      change (String.append (eolText LF) ?t) with (String charLF t).
      rewrite IH. reflexivity.
    + cbn [normalizeFrom]. rewrite Ec, El, IH. reflexivity.
Qed.

(** X6: when the value prop of an update pass differs from the previous
    one and the editor holds a registered model once the handlers of the
    pass have run, the text of the editor after the pass is the new value
    up to its line endings, whether the pass pushed it, found it there
    already, or swapped in a new model created from it: the text of a new
    model is the value normalized to line feeds. *)
Theorem update_leaves_the_new_value_in_the_editor (prevProps p : Props) (w : World) :
  editorModel (st (updatePrologue p w)) <> None ->
  value prevProps <> value p ->
  normalizeEOL LF (editorValue (st (didUpdate prevProps p w))) =
    normalizeEOL LF (value p).
Proof.
  intros Hm Hv.
  assert (He : editor w <> None).
  { intros E. apply Hm. unfold editorModel.
    destruct (updatePrologue_editor p w) as [H _]. rewrite H, E. reflexivity. }
  pose proof (syncValue_value prevProps p _ Hm Hv) as H2.
  rewrite <- stateAtLanguageBlock_eq in H2.
  destruct (componentDidUpdate_language_cases prevProps p w He)
    as [Hview|(oldUri & m & _ & _ & Hmod & _ & Hed)].
  - rewrite (sameModelView_editorValue _ _ Hview), H2. reflexivity.
  - assert (E : editorValue (st (didUpdate prevProps p w)) =
                normalizeEOL LF (value p)).
    { unfold editorValue, editorModel.
      destruct (editor (st (didUpdate prevProps p w))) as [e|]; [|discriminate].
      cbn in Hed. inversion Hed as [E]. rewrite E, Hmod, lookup_insert_eq.
      reflexivity. }
    rewrite E. apply (normalizeFrom_LF_idem false).
Qed.

(** X7: an update pass removes no model from the registry, and it leaves
    every model alone but the one the editor holds at the value check and
    the one at the uri of the new language. *)
Theorem update_pass_touches_no_other_model (prevProps p : Props) (w : World) :
  let r := didUpdate prevProps p w in
  let own := fst <$> editorModel (st (updatePrologue p w)) in
  let newUri := createCellUri (contentRef p) (id p) (language p) in
  (forall u, is_Some (models w !! u) -> is_Some (models (st r) !! u)) /\
  (forall u, own <> Some u -> u <> newUri -> models (st r) !! u = models w !! u).
Proof.
  intros r own newUri.
  destruct (editor w) eqn:He.
  2:{ assert (E : st r = w).
      { unfold r, componentDidUpdate. rewrite bind_gets, He. reflexivity. }
      rewrite E. auto. }
  assert (Hl : editor w <> None) by congruence.
  set (w1 := st (updatePrologue p w)).
  assert (Hm1 : models w1 = models w) by apply updatePrologue_editor.
  set (w3 := stateAtLanguageBlock prevProps p w).
  assert (H3 : (forall u, is_Some (models w !! u) -> is_Some (models w3 !! u)) /\
               (forall u, own <> Some u -> models w3 !! u = models w !! u)).
  { unfold w3. rewrite stateAtLanguageBlock_eq, syncValue_state. fold w1.
    destruct (str_neq (value prevProps) (value p) &&
              str_neq (editorValue w1) (value p)); [|rewrite Hm1; auto].
    unfold own. fold w1.
    destruct (editorModel w1) as [[u0 m0]|]; [|rewrite Hm1; auto].
    cbn [set_models models fmap option_fmap option_map fst]. rewrite Hm1. split.
    - intros u Hu. apply lookup_alter_is_Some. exact Hu.
    - intros u Hu. apply lookup_alter_ne. congruence. }
  destruct H3 as [H3a H3b].
  destruct (componentDidUpdate_language_cases prevProps p w Hl)
    as [Hview|(oldUri & m & _ & Hx & Hmod & _ & _)];
    fold w3 in Hview || fold w3 in Hx, Hmod; fold r in Hview || fold r in Hmod.
  - rewrite (sameModelView_models _ _ Hview). split; auto.
  - fold newUri in Hx, Hmod. rewrite Hmod. split.
    + intros u Hu. destruct (string_dec u newUri) as [->|Hne].
      * rewrite lookup_insert_eq. eauto.
      * rewrite lookup_insert_ne by congruence. auto.
    + intros u Hu Hne. rewrite lookup_insert_ne by congruence. auto.
Qed.

End UpdateRegistry.

Lemma update_value_witness :
  editorModel (st (updatePrologue (with_value_language crlfText "markdown" sampleProps)
                     sampleWorld)) <> None /\
  value sampleProps <> value (with_value_language crlfText "markdown" sampleProps) /\
  normalizeEOL LF
    (editorValue
       (st (componentDidUpdate sampleCellUri LF sampleProps
              (with_value_language crlfText "markdown" sampleProps) sampleWorld))) =
    normalizeEOL LF crlfText.
Proof.
  assert (H1 : editorModel
                 (st (updatePrologue
                        (with_value_language crlfText "markdown" sampleProps)
                        sampleWorld)) <> None) by (vm_compute; discriminate).
  assert (H2 : value sampleProps <>
               value (with_value_language crlfText "markdown" sampleProps))
    by discriminate.
  split; [exact H1|]. split; [exact H2|].
  apply (update_leaves_the_new_value_in_the_editor sampleCellUri LF _ _ _ H1 H2).
Defined.

(** ** Mount, block by block *)

Arguments mountModel : simpl never.
Arguments mountHandlers : simpl never.
Arguments mountFocus : simpl never.
Arguments mountListeners : simpl never.
Arguments mountTail : simpl never.
Arguments updateIntersectRegistration : simpl never.
Arguments registerDocumentFormatter : simpl never.

#[global] Instance staysLive_preorder : PreOrder staysLive.
Proof.
  split.
  - intros w H. exact H.
  - intros x y z Hxy Hyz H. apply Hyz, Hxy, H.
Qed.

(** The side condition on a single state change, in general. *)
Ltac solve_kept :=
  let w := fresh "w" in
  intros w;
  unfold sameOn, staysLive, keepsMounted, mountedInvariant, sameModelView, modelView;
  try match goal with
      | |- context [editorModel ?x] => destruct (editorModel x) as [[? ?]|]
      end;
  destruct w as [[?|] ? ? ? ? ? ? ? ? ?]; cbn;
  first [reflexivity | intuition (try discriminate; try congruence)].

Ltac kept_step :=
  lazymatch goal with
  | |- preserves _ (bind _ _) =>
      apply preserves_bind; [typeclasses eauto| |intros ?]
  | |- preserves _ (ret _) => apply preserves_ret; typeclasses eauto
  | |- preserves _ (gets _) => apply preserves_gets; typeclasses eauto
  | |- preserves _ (emit _) => apply preserves_emit; typeclasses eauto
  | |- preserves _ (modify _) => apply preserves_modify; solve_kept
  | |- preserves _ (if ?b then _ else _) => destruct b
  | |- preserves _ (match ?x with _ => _ end) => destruct x
  end.

Ltac kept_auto := repeat kept_step.

Ltac unfold_blocks :=
  unfold mountHandlers, mountFocus, mountListeners, mountTail,
    updatePrologue, updateEpilogue, syncValue, updateIntersectRegistration,
    onResize, contentSizeChanged, onIntersecting, requestLayout;
  unfold_natives.

(** A block that makes no call of the kind [f]. *)
Ltac silent :=
  lazymatch goal with
  | |- List.filter ?f (tr (?m ?w)) = [] =>
      apply filter_none;
      let H := fresh "H" in
      assert (H : produces (Forall (fun x => f x = false)) m);
      [ unfold_blocks; produces_auto | apply H ]
  end.

Ltac clear_silent :=
  repeat match goal with
         | |- context [List.filter ?f (tr (?m ?w))] =>
             let H := fresh "H" in
             assert (H : List.filter f (tr (m w)) = []) by silent;
             rewrite H; clear H
         end.

(** A block that leaves the part [f] of the state as it was. *)
Ltac kept :=
  lazymatch goal with
  | |- ?f (st (?m ?w)) = ?f ?w =>
      let H := fresh "H" in
      assert (H : preserves (sameOn f) m);
      [ unfold_blocks; kept_auto | apply H ]
  end.

Section Mount.

Variable uriFile : string -> Uri.
Variable platformEOL : EndOfLineSequence.
Variable monacoCreate : Container -> Uri -> Editor.

Local Abbreviation didMount := (componentDidMount uriFile platformEOL monacoCreate).
Local Abbreviation model := (mountModel uriFile platformEOL monacoCreate).
Local Abbreviation uriOf := (mountUri uriFile).

(** [componentDidMount] of an instance with a container is the sequence of
    its blocks. *)
Lemma componentDidMount_chain (p : Props) (w : World) (c : Container) :
  editorContainerRef w = Some c ->
  didMount p w =
  (updateIntersectRegistration p >>
   registerCompletionProvider p >>
   registerDocumentFormatter p >>
   model p c >>
   mountHandlers p >>
   mountFocus p >>
   mountListeners >>
   requestLayout p (initialDimension p) >>
   mountTail p) w.
Proof.
  intros Hc. unfold componentDidMount. rewrite bind_gets, Hc.
  unfold mountHandlers, mountFocus, mountListeners, mountTail.
  change (match modelUri p with Some u => u | None => uriFile (id p) end)
    with (uriOf p).
  fold (model p c).
  repeat (repeat rewrite bind_assoc;
          first [reflexivity | apply bind_ext; intros ? ?]).
Qed.

Lemma componentDidMount_blocks (p : Props) (w : World) (c : Container) :
  editorContainerRef w = Some c ->
  let w1 := st (updateIntersectRegistration p w) in
  let w2 := st (model p c w1) in
  let w3 := st (mountHandlers p w2) in
  let w4 := st (mountFocus p w3) in
  let w5 := st (requestLayout p (initialDimension p) w4) in
  tr (didMount p w) =
    tr (updateIntersectRegistration p w) ++
    tr (registerCompletionProvider p w1) ++
    tr (registerDocumentFormatter p w1) ++
    tr (model p c w1) ++
    tr (mountHandlers p w2) ++
    tr (mountFocus p w3) ++
    tr (mountListeners w4) ++
    tr (requestLayout p (initialDimension p) w4) ++
    tr (mountTail p w5) /\
  st (didMount p w) = st (mountTail p w5).
Proof.
  intros Hc w1 w2 w3 w4 w5. rewrite (componentDidMount_chain p w c Hc).
  rewrite !tr_bind, !st_bind.
  rewrite !registerCompletionProvider_state, !registerDocumentFormatter_state.
  change (st (mountListeners ?x)) with x.
  fold w1. fold w2. fold w3. fold w4. fold w5.
  split; [|reflexivity]. rewrite <- !app_assoc. reflexivity.
Qed.

(** The model block: the lookup, the creation when nothing is found, the
    line feeds, the options and the editor. *)
Lemma mountModel_run (p : Props) (c : Container) (w : World) :
  let uri := uriOf p in
  let found := match models w !! uri with Some _ => true | None => false end in
  tr (model p c w) =
    [GetModelByUri uri found] ++
    (if found then [] else [CreateModel (value p) (language p) uri]) ++
    [SetEOL uri LF; ModelUpdateOptions uri (indentSize p) (tabSize p);
     CreateEditor uri] /\
  editor (st (model p c w)) = Some (monacoCreate c uri) /\
  models (st (model p c w)) =
    alter (model_set_eol LF) uri
      (if found then models w
       else <[uri := mkModel (value p) (language p) platformEOL]> (models w)) /\
  (forall A (f : World -> A), (forall e x, f (set_editor e x) = f x) ->
     (forall m x, f (set_models m x) = f x) -> f (st (model p c w)) = f w).
Proof.
  intros uri found. subst found.
  unfold mountModel, monacoGetModel, createModel, setEOL. fold uri.
  destruct (models w !! uri) as [m|] eqn:Hm; cbn [negb];
    repeat (first [ rewrite bind_assoc | rewrite bind_gets | rewrite bind_modify
                  | rewrite bind_ret | rewrite bind_emit | rewrite prepend_prepend
                  | rewrite Hm ]; cbn [negb]);
    (split; [reflexivity|]); (split; [reflexivity|]); (split; [reflexivity|]);
    intros A f H1 H2; unfold modify, prepend; cbn [st]; rewrite ?H1, ?H2; reflexivity.
Qed.

Lemma mountTail_mouse (p : Props) (w : World) :
  mouseMoveListener (st (mountTail p w)) = true.
Proof.
  unfold mountTail. rewrite !st_bind. reflexivity.
Qed.

(** What mount leaves: the editor, the listeners, the gate and the registry. *)
Lemma componentDidMount_state (p : Props) (w : World) (c : Container) :
  editorContainerRef w = Some c ->
  let uri := uriOf p in
  let found := match models w !! uri with Some _ => true | None => false end in
  let r := didMount p w in
  let w1 := st (updateIntersectRegistration p w) in
  editor (st r) <> None /\
  editorContainerRef (st r) = Some c /\
  mouseMoveListener (st r) = true /\
  intersectObservation (st r) = intersectObservation w1 /\
  isInViewport (st r) = isInViewport w1 /\
  models (st r) =
    alter (model_set_eol LF) uri
      (if found then models w
       else <[uri := mkModel (value p) (language p) platformEOL]> (models w)) /\
  timers (st r) = timers w.
Proof.
  intros Hc uri found r w1.
  destruct (componentDidMount_blocks p w c Hc) as [_ Hst].
  fold r in Hst. fold w1 in Hst.
  set (w2 := st (model p c w1)) in *.
  set (w3 := st (mountHandlers p w2)) in *.
  set (w4 := st (mountFocus p w3)) in *.
  set (w5 := st (requestLayout p (initialDimension p) w4)) in *.
  destruct (mountModel_run p c w1) as (_ & Hed & Hmod & Hfr). fold w2 in Hed, Hmod, Hfr.
  assert (L1 : preserves staysLive (mountHandlers p)) by (unfold_blocks; kept_auto).
  assert (L2 : preserves staysLive (mountFocus p)) by (unfold_blocks; kept_auto).
  assert (L3 : preserves staysLive (requestLayout p (initialDimension p)))
    by (unfold_blocks; kept_auto).
  assert (L4 : preserves staysLive (mountTail p)) by (unfold_blocks; kept_auto).
  rewrite Hst.
  split.
  { apply L4, L3, L2, L1. rewrite Hed. discriminate. }
  split.
  { transitivity (editorContainerRef w5); [kept|].
    transitivity (editorContainerRef w4); [unfold w5; kept|].
    transitivity (editorContainerRef w3); [unfold w4; kept|].
    transitivity (editorContainerRef w2); [unfold w3; kept|].
    rewrite (Hfr _ editorContainerRef) by reflexivity.
    unfold w1. rewrite <- Hc. kept. }
  split; [apply mountTail_mouse|].
  split.
  { transitivity (intersectObservation w5); [kept|].
    transitivity (intersectObservation w4); [unfold w5; kept|].
    transitivity (intersectObservation w3); [unfold w4; kept|].
    transitivity (intersectObservation w2); [unfold w3; kept|].
    apply (Hfr _ intersectObservation); reflexivity. }
  split.
  { transitivity (isInViewport w5); [kept|].
    transitivity (isInViewport w4); [unfold w5; kept|].
    transitivity (isInViewport w3); [unfold w4; kept|].
    transitivity (isInViewport w2); [unfold w3; kept|].
    apply (Hfr _ isInViewport); reflexivity. }
  assert (Hm1 : models w1 = models w) by (unfold w1; kept).
  assert (Ht1 : timers w1 = timers w) by (unfold w1; kept).
  split.
  { transitivity (models w5); [kept|].
    transitivity (models w4); [unfold w5; kept|].
    transitivity (models w3); [unfold w4; kept|].
    transitivity (models w2); [unfold w3; kept|].
    rewrite Hmod, Hm1. reflexivity. }
  transitivity (timers w5); [kept|].
  transitivity (timers w4); [unfold w5; kept|].
  transitivity (timers w3); [unfold w4; kept|].
  transitivity (timers w2); [unfold w3; kept|].
  rewrite (Hfr _ timers) by reflexivity. exact Ht1.
Qed.

(** X8: mount of an instance with a container looks the model up at the
    uri of the props (or the file uri of the id) and creates it, from the
    value and the language of the props, only when none is registered; a
    model that is found is bound again with the language it has.  Either
    way the model is switched to line feeds, which rewrites the line breaks
    of its text (the text it had when it was found, the value of the props
    when it was created); exactly one editor is created, on that uri, and
    no other model of the registry is touched. *)
Theorem mount_reuses_or_creates_the_model (p : Props) (w : World) (c : Container) :
  editorContainerRef w = Some c ->
  let uri := uriOf p in
  let r := didMount p w in
  (forall m, models w !! uri = Some m ->
     List.filter is_model_call (tr r) = [SetEOL uri LF] /\
     models (st r) !! uri =
       Some (mkModel (normalizeEOL LF (model_value m)) (model_language m) LF)) /\
  (models w !! uri = None ->
     List.filter is_model_call (tr r) =
       [CreateModel (value p) (language p) uri; SetEOL uri LF] /\
     models (st r) !! uri = Some (mkModel (normalizeEOL LF (value p)) (language p) LF)) /\
  (forall u, u <> uri -> models (st r) !! u = models w !! u) /\
  List.filter is_createEditor (tr r) = [CreateEditor uri] /\
  editor (st r) <> None.
Proof.
  intros Hc uri r.
  destruct (componentDidMount_state p w c Hc) as (He & _ & _ & _ & _ & Hmod & _).
  fold uri in Hmod. fold r in He, Hmod.
  destruct (componentDidMount_blocks p w c Hc) as [Htr _]. fold r in Htr.
  assert (Hm1 : models (st (updateIntersectRegistration p w)) = models w) by kept.
  destruct (mountModel_run p c (st (updateIntersectRegistration p w)))
    as (Hmt & _ & _ & _).
  rewrite Hm1 in Hmt. fold uri in Hmt.
  assert (Emc : List.filter is_model_call (tr r) =
                (if match models w !! uri with Some _ => true | None => false end
                 then [] else [CreateModel (value p) (language p) uri]) ++
                [SetEOL uri LF]).
  { rewrite Htr, !List.filter_app, Hmt. clear_silent.
    destruct (models w !! uri); reflexivity. }
  assert (Ece : List.filter is_createEditor (tr r) = [CreateEditor uri]).
  { rewrite Htr, !List.filter_app, Hmt. clear_silent.
    destruct (models w !! uri); reflexivity. }
  split; [|split; [|split; [|split]]].
  - intros m Hm. rewrite Emc, Hm. split; [reflexivity|].
    rewrite Hmod, Hm, lookup_alter_eq, Hm. reflexivity.
  - intros Hm. rewrite Emc, Hm. split; [reflexivity|].
    rewrite Hmod, Hm, lookup_alter_eq, lookup_insert_eq. reflexivity.
  - intros u Hu. rewrite Hmod, lookup_alter_ne by congruence.
    destruct (models w !! uri); [reflexivity|].
    rewrite lookup_insert_ne by congruence. reflexivity.
  - exact Ece.
  - exact He.
Qed.

Lemma onIntersecting_flush (p : Props) (w : World) :
  isInViewport w = false ->
  deferredLayoutRequest w = true ->
  onIntersecting p true w =
    requestLayout p (deferredLayoutDimension w)
      (set_deferredLayoutRequest false (set_isInViewport true w)).
Proof.
  intros Hv Hd. unfold onIntersecting. rewrite bind_gets, Hv.
  cbn [eqb negb]. rewrite bind_modify, !bind_gets.
  cbn [isInViewport set_isInViewport deferredLayoutRequest andb].
  rewrite Hd, bind_modify, bind_gets. reflexivity.
Qed.

(** X9: with [skipLayoutWhenNotInViewport], mount of a fresh instance
    registers the intersection observation, takes the instance to be outside
    the viewport and makes no layout call: the layout request of mount is
    stashed with the initial dimension, and it is issued when the observer
    first reports an intersection.  Without the prop the instance is in the
    viewport, nothing is stashed, and mount makes at most one layout call. *)
Theorem mount_defers_its_layout_when_gated
  (p : Props) (c : Container) (ms : gmap string Model) (ts : list Task) :
  let r := didMount p (constructed (Some c) ms ts) in
  (truthy (skipLayoutWhenNotInViewport p) = true ->
   List.filter is_layout_or_schedule (tr r) = [] /\
   intersectObservation (st r) = true /\
   isInViewport (st r) = false /\
   deferredLayoutRequest (st r) = true /\
   deferredLayoutDimension (st r) = initialDimension p /\
   onIntersecting p true (st r) =
     requestLayout p (initialDimension p)
       (set_deferredLayoutRequest false (set_isInViewport true (st r)))) /\
  (truthy (skipLayoutWhenNotInViewport p) = false ->
   (length (List.filter is_layout_or_schedule (tr r)) <= 1)%nat /\
   intersectObservation (st r) = false /\
   isInViewport (st r) = true /\
   deferredLayoutRequest (st r) = false).
Proof.
  intros r. set (w0 := constructed (Some c) ms ts) in *.
  assert (Hc : editorContainerRef w0 = Some c) by reflexivity.
  destruct (componentDidMount_state p w0 c Hc) as (_ & _ & _ & Ho & Hv & _ & _).
  destruct (componentDidMount_blocks p w0 c Hc) as [Htr Hst].
  fold r in Ho, Hv, Htr, Hst.
  set (w1 := st (updateIntersectRegistration p w0)) in *.
  set (w2 := st (model p c w1)) in *.
  set (w3 := st (mountHandlers p w2)) in *.
  set (w4 := st (mountFocus p w3)) in *.
  set (w5 := st (requestLayout p (initialDimension p) w4)) in *.
  destruct (mountModel_run p c w1) as (_ & Hed & _ & Hfr). fold w2 in Hed, Hfr.
  assert (L1 : preserves staysLive (mountHandlers p)) by (unfold_blocks; kept_auto).
  assert (L2 : preserves staysLive (mountFocus p)) by (unfold_blocks; kept_auto).
  assert (He4 : editor w4 <> None).
  { apply L2, L1. rewrite Hed. discriminate. }
  assert (Hv4 : isInViewport w4 = isInViewport w1).
  { transitivity (isInViewport w3); [unfold w4; kept|].
    transitivity (isInViewport w2); [unfold w3; kept|].
    apply (Hfr _ isInViewport); reflexivity. }
  assert (Hd4 : deferredLayoutRequest w4 = false).
  { transitivity (deferredLayoutRequest w3); [unfold w4; kept|].
    transitivity (deferredLayoutRequest w2); [unfold w3; kept|].
    rewrite (Hfr _ deferredLayoutRequest) by reflexivity.
    transitivity (deferredLayoutRequest w0); [unfold w1; kept|reflexivity]. }
  assert (Hrest : List.filter is_layout_or_schedule (tr r) =
                  List.filter is_layout_or_schedule
                    (tr (requestLayout p (initialDimension p) w4))).
  { rewrite Htr, !List.filter_app.
    destruct (mountModel_run p c w1) as (Hmt & _). fold w2 in Hmt. rewrite Hmt.
    clear_silent.
    rewrite !List.filter_app.
    destruct (models w1 !! uriOf p); cbn [List.filter app is_layout_or_schedule];
      rewrite app_nil_r; reflexivity. }
  split.
  - intros Hs.
    assert (E1 : isInViewport w1 = false /\ intersectObservation w1 = true).
    { unfold w1, updateIntersectRegistration. rewrite Hs. split; reflexivity. }
    destruct E1 as [Ev1 Eo1]. rewrite Ev1 in Hv, Hv4. rewrite Eo1 in Ho.
    destruct (requestLayout_stash p w4 (initialDimension p) He4 Hv4) as [Ht5 Hs5].
    fold w5 in Hs5.
    assert (Hdr : deferredLayoutRequest (st r) = true).
    { rewrite Hst. transitivity (deferredLayoutRequest w5); [kept|].
      rewrite Hs5. reflexivity. }
    assert (Hdd : deferredLayoutDimension (st r) = initialDimension p).
    { rewrite Hst. transitivity (deferredLayoutDimension w5); [kept|].
      rewrite Hs5. reflexivity. }
    split; [rewrite Hrest, Ht5; reflexivity|].
    split; [exact Ho|]. split; [exact Hv|]. split; [exact Hdr|].
    split; [exact Hdd|].
    rewrite (onIntersecting_flush p (st r) Hv Hdr), Hdd. reflexivity.
  - intros Hs.
    assert (E1 : isInViewport w1 = true /\ intersectObservation w1 = false).
    { unfold w1, updateIntersectRegistration. rewrite Hs. split; reflexivity. }
    destruct E1 as [Ev1 Eo1]. rewrite Ev1 in Hv, Hv4. rewrite Eo1 in Ho.
    split.
    { rewrite Hrest.
      pose proof (requestLayout_at_most_one p w4 (initialDimension p)).
      pose proof (filter_length is_layout_or_schedule
                    (tr (requestLayout p (initialDimension p) w4))). lia. }
    split; [exact Ho|]. split; [exact Hv|].
    rewrite Hst. transitivity (deferredLayoutRequest w5); [kept|].
    transitivity (deferredLayoutRequest w4); [|exact Hd4].
    unfold w5, requestLayout, layout, scheduleEditorForLayout.
    rewrite bind_gets. destruct (editor w4); [|reflexivity].
    rewrite bind_gets, Hv4. cbn [negb]. rewrite bind_gets.
    destruct (shouldLayout p w4); cbn [negb]; [|reflexivity].
    destruct (is_true_strict (batchLayoutChanges p)); [reflexivity|].
    destruct (initialDimension p) as [d|].
    + rewrite bind_ret, bind_gets. destruct (editor w4); reflexivity.
    + rewrite bind_gets. destruct (getLayoutDimension p w4); [|reflexivity].
      rewrite bind_gets. destruct (editor w4); reflexivity.
Qed.

Lemma mountFocus_cursor (p : Props) (w : World) :
  editor w <> None ->
  cursorPositionListener (st (mountFocus p w)) =
    cursorPositionListener w || (truthy (editorFocused p) && onCursorPositionChange p).
Proof.
  intros He. unfold mountFocus, toggleEditorOptions, registerCursorListener,
    hasWidgetFocus, focus, modifyEditor.
  destruct w as [ed ref cl ml io iv dr dd ms ts]. cbn in He.
  destruct ed as [e|]; [clear He|congruence].
  destruct (truthy (editorFocused p)); destruct (onCursorPositionChange p);
    destruct (ed_hasWidgetFocus e) eqn:Hf; destruct cl;
    repeat (first [ rewrite bind_assoc | rewrite bind_gets | rewrite bind_modify
                  | rewrite bind_ret | rewrite bind_emit | rewrite st_prepend
                  | rewrite Hf ];
            cbn [editor cursorPositionListener set_editor set_cursorPositionListener
                 negb fmap option_fmap option_map ed_hasWidgetFocus
                 ed_set_hasWidgetFocus orb andb st]);
    reflexivity.
Qed.

(** The cursor listener after mount: registered when the editor is to be
    focused and the host listens to the cursor. *)
Lemma componentDidMount_cursor (p : Props) (w : World) (c : Container) :
  editorContainerRef w = Some c ->
  cursorPositionListener (st (didMount p w)) =
    cursorPositionListener w || (truthy (editorFocused p) && onCursorPositionChange p).
Proof.
  intros Hc.
  destruct (componentDidMount_blocks p w c Hc) as [_ Hst]. rewrite Hst.
  set (w1 := st (updateIntersectRegistration p w)) in *.
  set (w2 := st (model p c w1)) in *.
  set (w3 := st (mountHandlers p w2)) in *.
  set (w4 := st (mountFocus p w3)) in *.
  set (w5 := st (requestLayout p (initialDimension p) w4)) in *.
  destruct (mountModel_run p c w1) as (_ & Hed & _ & Hfr). fold w2 in Hed, Hfr.
  assert (L1 : preserves staysLive (mountHandlers p)) by (unfold_blocks; kept_auto).
  assert (He3 : editor w3 <> None) by (apply L1; rewrite Hed; discriminate).
  transitivity (cursorPositionListener w5); [kept|].
  transitivity (cursorPositionListener w4); [unfold w5; kept|].
  unfold w4. rewrite (mountFocus_cursor p w3 He3). f_equal.
  transitivity (cursorPositionListener w2); [unfold w3; kept|].
  rewrite (Hfr _ cursorPositionListener) by reflexivity.
  unfold w1. kept.
Qed.

End Mount.

(** ** Mount, then unmount *)

(** Unmount of a live editor when no native call throws. *)
Lemma componentWillUnmount_clean (throws : TeardownOp -> bool) (w : World) :
  (forall op, throws op = false) ->
  editor w <> None ->
  let r := componentWillUnmount throws w in
  tr r =
    (if editorContainerRef w is Some _ then [ResizeUnobserve] else []) ++
    (if intersectObservation w then [IntersectUnobserve] else []) ++
    (if editorModel w is Some (u, _) then [ModelDispose u] else []) ++
    [EditorDispose] ++
    (if mouseMoveListener w then [MouseMoveDispose] else []) /\
  val r = inr tt /\
  editor (st r) = None /\
  intersectObservation (st r) = false /\
  models (st r) =
    (if editorModel w is Some (u, _) then delete u (models w) else models w) /\
  cursorPositionListener (st r) = cursorPositionListener w /\
  mouseMoveListener (st r) = mouseMoveListener w /\
  timers (st r) = timers w.
Proof.
  intros Hn He r. subst r.
  destruct w as [ed ref cl ml io iv dr dd ms ts]. cbn in He.
  destruct ed as [e|]; [clear He|congruence].
  unfold componentWillUnmount, tryCatch, teardownBody, ethen, native, pure, skip,
    modelDispose, modifyEditor.
  rewrite !Hn.
  match goal with
  | |- context [mkWorld ?a ?b ?c ?d ?e ?f ?g ?h ?i ?j] =>
      remember (editorModel (mkWorld a b c d e f g h i j)) as em eqn:Hem
  end.
  destruct em as [[u m]|]; destruct ref as [c|]; destruct io; destruct ml.
  all: repeat (exec; try rewrite <- Hem; cbn [fst]).
  all: unfold prepend, ret; world_cbn; repeat split.
Qed.

Section MountUnmount.

Variable uriFile : string -> Uri.
Variable platformEOL : EndOfLineSequence.
Variable monacoCreate : Container -> Uri -> Editor.
Variable throws : TeardownOp -> bool.

(** X10: a fresh instance is mounted and then unmounted, no native call
    throws, and the editor still holds the model mount bound.  Unmount then
    removes the resize observation, the intersection observation when mount
    registered one, the model at the uri (whether mount created it or found
    it), the editor and the mouse listener, in this order, and clears the
    editor handle; no other model is touched.  The cursor listener that
    mount registers for a focused editor is not disposed of: it is still
    registered after unmount. *)
Theorem mount_then_unmount_releases_what_mount_acquired
  (p : Props) (c : Container) (ms : gmap string Model) (ts : list Task) :
  let uri := mountUri uriFile p in
  let mounted := componentDidMount uriFile platformEOL monacoCreate p
                   (constructed (Some c) ms ts) in
  let r := componentWillUnmount throws (st mounted) in
  (forall op, throws op = false) ->
  (ed_model <$> editor (st mounted)) = Some (Some uri) ->
  tr r =
    [ResizeUnobserve] ++
    (if truthy (skipLayoutWhenNotInViewport p) then [IntersectUnobserve] else []) ++
    [ModelDispose uri; EditorDispose; MouseMoveDispose] /\
  editor (st r) = None /\
  intersectObservation (st r) = false /\
  models (st r) !! uri = None /\
  (forall u, u <> uri -> models (st r) !! u = ms !! u) /\
  cursorPositionListener (st r) =
    truthy (editorFocused p) && onCursorPositionChange p /\
  (CursorListenerDispose ∉ tr r).
Proof.
  intros uri mounted r Hn Hed.
  set (w0 := constructed (Some c) ms ts) in *.
  assert (Hc : editorContainerRef w0 = Some c) by reflexivity.
  destruct (componentDidMount_state uriFile platformEOL monacoCreate p w0 c Hc)
    as (He & Href & Hml & Ho & _ & Hmod & _).
  fold mounted in He, Href, Hml, Ho, Hmod. fold uri in Hmod.
  pose proof (componentDidMount_cursor uriFile platformEOL monacoCreate p w0 c Hc)
    as Hcl.
  fold mounted in Hcl. cbn [w0 constructed cursorPositionListener orb] in Hcl.
  assert (Hobs : intersectObservation (st mounted) =
                 truthy (skipLayoutWhenNotInViewport p)).
  { rewrite Ho. unfold updateIntersectRegistration.
    destruct (truthy (skipLayoutWhenNotInViewport p)); reflexivity. }
  assert (Hreg : exists m, models (st mounted) !! uri = Some m).
  { rewrite Hmod, lookup_alter_eq. cbn [w0 constructed models].
    destruct (ms !! uri) as [m|] eqn:E; [rewrite E|rewrite lookup_insert_eq]; eauto. }
  destruct Hreg as [m Hreg].
  assert (Hem : editorModel (st mounted) = Some (uri, m)).
  { unfold editorModel. destruct (editor (st mounted)) as [e|]; [|discriminate].
    cbn in Hed. inversion Hed as [E]. rewrite E, Hreg. reflexivity. }
  destruct (componentWillUnmount_clean throws (st mounted) Hn He)
    as (Ht & _ & H1 & H2 & H3 & H4 & _).
  fold r in Ht, H1, H2, H3, H4.
  rewrite Href, Hobs, Hem, Hml in Ht. rewrite Hem in H3.
  assert (Hothers : forall u, u <> uri -> models (st mounted) !! u = ms !! u).
  { intros u Hu. rewrite Hmod, lookup_alter_ne by congruence.
    cbn [w0 constructed models].
    destruct (ms !! uri); [reflexivity|]. rewrite lookup_insert_ne by congruence.
    reflexivity. }
  split; [exact Ht|]. split; [exact H1|]. split; [exact H2|].
  split; [rewrite H3; apply lookup_delete_eq|].
  split; [intros u Hu; rewrite H3, lookup_delete_ne by congruence; auto|].
  split; [rewrite H4; exact Hcl|].
  rewrite Ht. intros Hin.
  destruct (truthy (skipLayoutWhenNotInViewport p)); cbn in Hin;
    apply list_elem_of_In in Hin; cbn in Hin;
    intuition discriminate.
Qed.

End MountUnmount.

(** ** The life of a mounted instance *)

Lemma updateIntersectRegistration_mounted (c : Container) (p : Props) :
  preserves (keepsMounted c) (updateIntersectRegistration p).
Proof.
  intros w. unfold keepsMounted, mountedInvariant, updateIntersectRegistration, when.
  destruct w as [ed ref cl ml io iv dr dd ms ts].
  destruct (truthy (skipLayoutWhenNotInViewport p)); destruct ref; destruct io;
    cbn; intuition (try discriminate; try congruence).
Qed.

Ltac mounted_step :=
  lazymatch goal with
  | |- preserves _ (updateIntersectRegistration _) =>
      apply updateIntersectRegistration_mounted
  | _ => kept_step
  end.

Lemma requestLayout_mounted (c : Container) (p : Props) (d : option Dimension) :
  preserves (keepsMounted c) (requestLayout p d).
Proof. unfold requestLayout. unfold_natives. kept_auto. Qed.

Lemma runTasks_mounted (c : Container) (ts : list Task) :
  preserves (keepsMounted c) (runTasks ts).
Proof.
  induction ts as [|t ts IH]; cbn [runTasks].
  - apply preserves_ret. typeclasses eauto.
  - apply preserves_bind; [typeclasses eauto| |intros ?; exact IH].
    destruct t. unfold runTask. unfold_natives. kept_auto.
Qed.

Lemma requestLayout_in_viewport (p : Props) (d : option Dimension) (w : World) :
  isInViewport w = true -> st (requestLayout p d w) = w.
Proof.
  intros Hv. unfold requestLayout, layout, scheduleEditorForLayout.
  rewrite bind_gets. destruct (editor w) eqn:He; [|reflexivity].
  rewrite bind_gets, Hv. cbn [negb]. rewrite bind_gets.
  destruct (shouldLayout p w); cbn [negb]; [|reflexivity].
  destruct (is_true_strict (batchLayoutChanges p)); [reflexivity|].
  destruct d as [d|].
  - rewrite bind_ret, bind_gets, He. reflexivity.
  - rewrite bind_gets. destruct (getLayoutDimension p w); [|reflexivity].
    rewrite bind_gets, He. reflexivity.
Qed.

Section Life.

Variable createCellUri : string -> string -> string -> Uri.
Variable uriFile : string -> Uri.
Variable platformEOL : EndOfLineSequence.
Variable monacoCreate : Container -> Uri -> Editor.

Local Abbreviation didMount := (componentDidMount uriFile platformEOL monacoCreate).
Local Abbreviation didUpdate := (componentDidUpdate createCellUri platformEOL).
Local Abbreviation handle := (handleEvent createCellUri platformEOL).
Local Abbreviation handleAll := (handleEvents createCellUri platformEOL).

Lemma componentDidUpdate_mounted (c : Container) (prevProps p : Props) :
  preserves (keepsMounted c) (didUpdate prevProps p).
Proof.
  unfold componentDidUpdate, applyLanguageChange, updatePrologue, updateEpilogue,
    syncValue, requestLayout.
  unfold_natives. repeat mounted_step.
Qed.

Lemma handleEvent_mounted (c : Container) (e : Event) :
  preserves (keepsMounted c) (handle e).
Proof.
  destruct e as [prevProps p|p|p b|p lw info|p d|]; cbn [handleEvent].
  - apply componentDidUpdate_mounted.
  - unfold onResize, requestLayout. unfold_natives. kept_auto.
  - intros w. rewrite bind_gets.
    destruct (intersectObservation w) eqn:Ho; [|intros H; exact H].
    assert (H1 : editor (st (onIntersecting p b w)) = editor w) by kept.
    assert (H2 : editorContainerRef (st (onIntersecting p b w)) = editorContainerRef w)
      by kept.
    assert (H3 : mouseMoveListener (st (onIntersecting p b w)) = mouseMoveListener w)
      by kept.
    assert (H4 : intersectObservation (st (onIntersecting p b w)) =
                 intersectObservation w) by kept.
    unfold keepsMounted, mountedInvariant. rewrite H1, H2, H3, H4, Ho.
    intuition discriminate.
  - unfold contentSizeChanged, requestLayout. unfold_natives. kept_auto.
  - apply requestLayout_mounted.
  - unfold runTimers.
    apply preserves_bind; [typeclasses eauto|kept_auto|intros ts].
    apply preserves_bind; [typeclasses eauto|kept_auto|intros ?].
    apply runTasks_mounted.
Qed.

Lemma handleEvents_mounted (c : Container) (es : list Event) :
  preserves (keepsMounted c) (handleAll es).
Proof.
  induction es as [|e es IH]; cbn [handleEvents].
  - apply preserves_ret. typeclasses eauto.
  - apply preserves_bind; [typeclasses eauto|apply handleEvent_mounted|intros ?; exact IH].
Qed.

Lemma componentDidMount_mounted
      (p : Props) (c : Container) (ms : gmap string Model) (ts : list Task) :
  mountedInvariant c (st (didMount p (constructed (Some c) ms ts))).
Proof.
  set (w0 := constructed (Some c) ms ts).
  assert (Hc : editorContainerRef w0 = Some c) by reflexivity.
  destruct (componentDidMount_state uriFile platformEOL monacoCreate p w0 c Hc)
    as (He & Href & Hml & Ho & Hv & _).
  split; [exact He|]. split; [exact Href|]. split; [exact Hml|].
  rewrite Ho, Hv. unfold updateIntersectRegistration.
  destruct (truthy (skipLayoutWhenNotInViewport p)); cbn; auto; discriminate.
Qed.

(** X11: whatever happens to a mounted instance (update passes with any
    props, resizes, reports of the intersection observer while it is
    registered, changes of the content size, layout requests, timers), it
    keeps a live editor, its container and its mouse listener, and it is
    taken to be in the viewport whenever no intersection observation is
    registered.  So a layout request is stashed only while an observation
    is registered that can report later: without one a request leaves the
    state as it is. *)
Theorem mounted_instance_defers_only_while_observed
  (p : Props) (c : Container) (ms : gmap string Model) (ts : list Task)
  (es : list Event) :
  let w := st (handleAll es (st (didMount p (constructed (Some c) ms ts)))) in
  editor w <> None /\
  editorContainerRef w = Some c /\
  mouseMoveListener w = true /\
  (intersectObservation w = false -> isInViewport w = true) /\
  (forall p' d, intersectObservation w = false -> st (requestLayout p' d w) = w).
Proof.
  intros w.
  assert (H : mountedInvariant c w).
  { apply (handleEvents_mounted c es). apply componentDidMount_mounted. }
  destruct H as (H1 & H2 & H3 & H4).
  repeat split; auto.
  intros p' d Ho. apply requestLayout_in_viewport. auto.
Qed.

End Life.

(** ** Pending disposals *)

Lemma pendingInvariant_view (w w' : World) :
  sameModelView w w' -> pendingInvariant w -> pendingInvariant w'.
Proof.
  intros Hv H u Hu.
  rewrite (sameModelView_timers _ _ Hv) in Hu.
  rewrite (sameModelView_models _ _ Hv), (sameModelView_ed_model _ _ Hv).
  apply H. exact Hu.
Qed.

Lemma runTasks_state (ts : list Task) (w : World) :
  editor (st (runTasks ts w)) = editor w /\
  timers (st (runTasks ts w)) = timers w /\
  (forall u, models (st (runTasks ts w)) !! u =
     if bool_decide (DisposeModelTask u ∈ ts) then None else models w !! u).
Proof.
  revert w. induction ts as [|t ts IH]; intros w; cbn [runTasks].
  - split; [reflexivity|]. split; [reflexivity|].
    intros u. rewrite bool_decide_eq_false_2; [reflexivity|].
    apply not_elem_of_nil.
  - destruct t as [u0]. unfold runTask, modelDispose.
    rewrite st_bind, bind_emit, st_prepend. unfold modify. cbn [st].
    destruct (IH (set_models (delete u0 (models w)) w)) as (H1 & H2 & H3).
    rewrite H1, H2. split; [reflexivity|]. split; [reflexivity|].
    intros u. rewrite H3. cbn [models set_models].
    destruct (decide (u = u0)) as [->|Hne].
    + rewrite lookup_delete_eq.
      rewrite (bool_decide_eq_true_2 (DisposeModelTask u0 ∈ DisposeModelTask u0 :: ts))
        by (apply elem_of_cons; auto).
      destruct (bool_decide (DisposeModelTask u0 ∈ ts)); reflexivity.
    + rewrite lookup_delete_ne by congruence.
      destruct (bool_decide (DisposeModelTask u ∈ ts)) eqn:E.
      * apply bool_decide_eq_true_1 in E.
        rewrite bool_decide_eq_true_2; [reflexivity|].
        apply elem_of_cons. auto.
      * apply bool_decide_eq_false_1 in E.
        rewrite bool_decide_eq_false_2; [reflexivity|].
        intros Hin. apply elem_of_cons in Hin. destruct Hin as [Hin|Hin]; [|auto].
        inversion Hin. congruence.
Qed.

(** The timers fire: every pending model leaves the registry, the queue is
    empty, and the editor is left alone. *)
Lemma runTimers_state (w : World) :
  editor (st (runTimers w)) = editor w /\
  timers (st (runTimers w)) = [] /\
  (forall u, models (st (runTimers w)) !! u =
     if bool_decide (DisposeModelTask u ∈ timers w) then None else models w !! u).
Proof.
  unfold runTimers. rewrite bind_gets, bind_modify.
  destruct (runTasks_state (timers w) (set_timers [] w)) as (H1 & H2 & H3).
  rewrite H1, H2. split; [reflexivity|]. split; [reflexivity|]. exact H3.
Qed.

Section Pending.

Variable createCellUri : string -> string -> string -> Uri.
Variable uriFile : string -> Uri.
Variable platformEOL : EndOfLineSequence.
Variable monacoCreate : Container -> Uri -> Editor.

Local Abbreviation didMount := (componentDidMount uriFile platformEOL monacoCreate).
Local Abbreviation didUpdate := (componentDidUpdate createCellUri platformEOL).
Local Abbreviation handle := (handleEvent createCellUri platformEOL).
Local Abbreviation handleAll := (handleEvents createCellUri platformEOL).

Lemma stateAtLanguageBlock_view (prevProps p : Props) (w : World) :
  keepsModel (cursorPositionHandler p) ->
  keepsModel (commandHandler p) ->
  let w3 := stateAtLanguageBlock prevProps p w in
  timers w3 = timers w /\
  (forall u, is_Some (models w3 !! u) <-> is_Some (models w !! u)) /\
  (ed_model <$> editor w3) = (ed_model <$> editor w).
Proof.
  intros H1 H2 w3. subst w3.
  split; [apply stateAtLanguageBlock_timers|].
  rewrite stateAtLanguageBlock_eq.
  destruct (updatePrologue_editor p w) as [He Hm].
  split.
  - intros u. rewrite syncValue_state.
    destruct (str_neq (value prevProps) (value p) &&
              str_neq (editorValue (st (updatePrologue p w))) (value p));
      [|rewrite Hm; reflexivity].
    destruct (editorModel (st (updatePrologue p w))) as [[u0 m0]|];
      [|rewrite Hm; reflexivity].
    cbn [models set_models]. rewrite Hm. apply lookup_alter_is_Some.
  - rewrite syncValue_editor, He.
    destruct (editor w) as [e|]; [|reflexivity]. cbn. f_equal.
    transitivity (ed_model (default (fun e => e) (cursorPositionHandler p) e)).
    + destruct (commandHandler p) as [f|] eqn:E; [|reflexivity].
      cbn. apply (H2 f). reflexivity.
    + destruct (cursorPositionHandler p) as [f|] eqn:E; [|reflexivity].
      cbn. apply (H1 f). reflexivity.
Qed.

Lemma componentDidUpdate_pending (prevProps p : Props) (w : World) :
  keepsModel (cursorPositionHandler p) ->
  keepsModel (commandHandler p) ->
  pendingInvariant w -> pendingInvariant (st (didUpdate prevProps p w)).
Proof.
  intros H1 H2 Hinv.
  destruct (editor w) eqn:He.
  2:{ unfold componentDidUpdate. rewrite bind_gets, He. exact Hinv. }
  assert (Hl : editor w <> None) by congruence.
  destruct (stateAtLanguageBlock_view prevProps p w H1 H2) as (Ht & Hd & Hed).
  set (w3 := stateAtLanguageBlock prevProps p w) in *.
  assert (Hinv3 : pendingInvariant w3).
  { intros u Hu. rewrite Ht in Hu. destruct (Hinv u Hu) as [Ha Hb].
    split; [apply Hd; exact Ha|rewrite Hed; exact Hb]. }
  destruct (componentDidUpdate_language_cases createCellUri platformEOL
              prevProps p w Hl)
    as [Hview|(oldUri & m & Hm & Hx & Hmod & Htim & Hnew)];
    fold w3 in Hview || fold w3 in Hm, Hx, Hmod.
  - apply (pendingInvariant_view _ _ Hview Hinv3).
  - intros u Hu. rewrite Htim in Hu. rewrite Hmod, Hnew.
    set (newUri := createCellUri (contentRef p) (id p) (language p)) in *.
    assert (Hreg : is_Some (models w3 !! u)).
    { apply elem_of_app in Hu. destruct Hu as [Hu|Hu].
      - rewrite <- Ht in Hu. apply (Hinv3 u Hu).
      - apply list_elem_of_singleton in Hu. inversion Hu; subst u.
        destruct (editorModel_inv w3 oldUri m Hm) as (e0 & _ & _ & Hr).
        rewrite Hr. eauto. }
    assert (Hne : u <> newUri).
    { intros E. rewrite E, Hx in Hreg. destruct Hreg as [? Hreg]. discriminate. }
    split.
    + rewrite lookup_insert_ne by congruence. exact Hreg.
    + congruence.
Qed.

Lemma handleEvent_pending (e : Event) (w : World) :
  quietEvent e -> pendingInvariant w -> pendingInvariant (st (handle e w)).
Proof.
  destruct e as [prevProps p|p|p b|p lw info|p d|]; cbn [handleEvent quietEvent].
  - intros [H1 H2]. apply componentDidUpdate_pending; assumption.
  - intros _. apply pendingInvariant_view.
    assert (H : preserves sameModelView (onResize p)) by (unfold_blocks; kept_auto).
    apply H.
  - intros _. apply pendingInvariant_view. rewrite bind_gets.
    destruct (intersectObservation w); [|reflexivity].
    assert (H : preserves sameModelView (onIntersecting p b))
      by (unfold_blocks; kept_auto).
    apply H.
  - intros _. apply pendingInvariant_view.
    assert (H : preserves sameModelView (contentSizeChanged p lw info))
      by (unfold_blocks; kept_auto).
    apply H.
  - intros _. apply pendingInvariant_view.
    assert (H : preserves sameModelView (requestLayout p d))
      by (unfold_blocks; kept_auto).
    apply H.
  - intros _ _ u Hu. destruct (runTimers_state w) as (_ & Ht & _).
    rewrite Ht in Hu. apply elem_of_nil in Hu. contradiction.
Qed.

Lemma handleEvents_pending (es : list Event) (w : World) :
  Forall quietEvent es -> pendingInvariant w ->
  pendingInvariant (st (handleAll es w)).
Proof.
  intros Hq. revert w. induction Hq as [|e es He _ IH]; intros w Hinv.
  - exact Hinv.
  - cbn [handleEvents]. rewrite st_bind. apply IH.
    apply handleEvent_pending; assumption.
Qed.

(** X12: a fresh instance is mounted with an empty timer queue, and then
    goes through update passes whose handlers leave the model of the editor
    attached, resizes, intersection reports, content size changes, layout
    requests and turns of the timers.  At every point, each model whose
    disposal waits in the timer queue is still registered and is not the
    model the editor holds.  So when the timers fire, the model of the
    editor stays registered and attached, every pending model leaves the
    registry, and the queue is empty. *)
Theorem pending_disposals_spare_the_model_of_the_editor
  (p : Props) (c : Container) (ms : gmap string Model) (es : list Event) :
  Forall quietEvent es ->
  let w := st (handleAll es (st (didMount p (constructed (Some c) ms [])))) in
  (forall u, DisposeModelTask u ∈ timers w ->
     is_Some (models w !! u) /\ (ed_model <$> editor w) <> Some (Some u)) /\
  editorModel (st (runTimers w)) = editorModel w /\
  (forall u, DisposeModelTask u ∈ timers w -> models (st (runTimers w)) !! u = None) /\
  timers (st (runTimers w)) = [].
Proof.
  intros Hq w.
  assert (Hinv : pendingInvariant w).
  { apply handleEvents_pending; [exact Hq|].
    intros u Hu.
    assert (Hc : editorContainerRef (constructed (Some c) ms []) = Some c)
      by reflexivity.
    destruct (componentDidMount_state uriFile platformEOL monacoCreate p _ c Hc)
      as (_ & _ & _ & _ & _ & _ & Ht).
    rewrite Ht in Hu. apply elem_of_nil in Hu. contradiction. }
  destruct (runTimers_state w) as (He & Ht & Hm).
  split; [exact Hinv|]. split; [|split; [|exact Ht]].
  - unfold editorModel. rewrite He.
    destruct (editor w) as [e|] eqn:Ee; [|reflexivity].
    destruct (ed_model e) as [u|] eqn:Eu; [|reflexivity].
    rewrite Hm. rewrite bool_decide_eq_false_2; [reflexivity|].
    intros Hin. destruct (Hinv u Hin) as [_ Hne]. apply Hne.
    rewrite Ee. cbn. rewrite Eu. reflexivity.
  - intros u Hu. rewrite Hm, bool_decide_eq_true_2 by exact Hu. reflexivity.
Qed.

End Pending.

(** ** Language features are registered first *)

Lemma registration_in_prefix (pre post l1 l2 : list Call) (c : Call) :
  pre ++ post = l1 ++ c :: l2 ->
  List.filter is_creation pre = [] ->
  List.filter is_registration post = [] ->
  is_registration c = true ->
  List.filter is_creation l1 = [].
Proof.
  revert l1. induction pre as [|x pre IH]; intros l1 E Hpre Hpost Hc.
  - cbn in E. subst post. rewrite List.filter_app in Hpost. cbn in Hpost.
    rewrite Hc in Hpost. apply app_eq_nil in Hpost. destruct Hpost. discriminate.
  - destruct l1 as [|y l1]; [reflexivity|].
    cbn in E. inversion E; subst y. cbn in Hpre |- *.
    destruct (is_creation x); [discriminate|]. eapply IH; eauto.
Qed.

Section RegistersFirst.

Variable createCellUri : string -> string -> string -> Uri.
Variable uriFile : string -> Uri.
Variable platformEOL : EndOfLineSequence.
Variable monacoCreate : Container -> Uri -> Editor.

Local Abbreviation didMount := (componentDidMount uriFile platformEOL monacoCreate).
Local Abbreviation didUpdate := (componentDidUpdate createCellUri platformEOL).

Lemma componentDidMount_registers_first (p : Props) (w : World) :
  exists pre post, tr (didMount p w) = pre ++ post /\
    List.filter is_creation pre = [] /\ List.filter is_registration post = [].
Proof.
  destruct (editorContainerRef w) as [c|] eqn:Hc.
  2:{ exists [], []. unfold componentDidMount. rewrite bind_gets, Hc. auto. }
  destruct (componentDidMount_blocks uriFile platformEOL monacoCreate p w c Hc)
    as [Htr _].
  set (w1 := st (updateIntersectRegistration p w)) in *.
  exists (tr (updateIntersectRegistration p w) ++
          tr (registerCompletionProvider p w1) ++
          tr (registerDocumentFormatter p w1)).
  eexists. split; [rewrite Htr, <- !app_assoc; reflexivity|].
  split.
  - rewrite !List.filter_app. clear_silent. reflexivity.
  - rewrite !List.filter_app.
    destruct (mountModel_run uriFile platformEOL monacoCreate p c w1) as (Hmt & _).
    rewrite Hmt. clear_silent.
    destruct (models w1 !! mountUri uriFile p); reflexivity.
Qed.

Lemma componentDidUpdate_registers_first (prevProps p : Props) (w : World) :
  exists pre post, tr (didUpdate prevProps p w) = pre ++ post /\
    List.filter is_creation pre = [] /\ List.filter is_registration post = [].
Proof.
  destruct (editor w) as [e|] eqn:He.
  2:{ exists [], []. unfold componentDidUpdate. rewrite bind_gets, He. auto. }
  assert (Hl : editor w <> None) by congruence.
  destruct (componentDidUpdate_blocks createCellUri platformEOL prevProps p w Hl)
    as [Htr _].
  set (w1 := st (updatePrologue p w)) in *.
  set (w2 := st (syncValue prevProps p w1)) in *.
  exists (tr (updatePrologue p w) ++ tr (syncValue prevProps p w1) ++ [SetChannels] ++
          tr (registerCompletionProvider p w2)).
  eexists. split; [rewrite Htr, <- !app_assoc; reflexivity|].
  split.
  - rewrite !List.filter_app. clear_silent. reflexivity.
  - rewrite !List.filter_app.
    assert (H1 : produces (Forall (fun c => is_registration c = false))
                   (applyLanguageChange createCellUri platformEOL p))
      by (unfold applyLanguageChange; unfold_natives; produces_auto).
    rewrite (filter_none _ _ (H1 _)).
    clear_silent. reflexivity.
Qed.

(** X13: language features are registered before the model is set: in the
    calls of a mount and in those of an update pass, no registration of a
    completion provider or of a document formatter comes after the creation
    of a model or of the editor, or after a model is installed. *)
Theorem language_features_are_registered_first (prevProps p : Props) (w : World) :
  (forall l1 c l2, tr (didMount p w) = l1 ++ c :: l2 ->
     is_registration c = true -> List.filter is_creation l1 = []) /\
  (forall l1 c l2, tr (didUpdate prevProps p w) = l1 ++ c :: l2 ->
     is_registration c = true -> List.filter is_creation l1 = []).
Proof.
  split; intros l1 c l2 E Hc.
  - destruct (componentDidMount_registers_first p w) as (pre & post & Ht & H1 & H2).
    rewrite Ht in E. eapply registration_in_prefix; eauto.
  - destruct (componentDidUpdate_registers_first prevProps p w)
      as (pre & post & Ht & H1 & H2).
    rewrite Ht in E. eapply registration_in_prefix; eauto.
Qed.

End RegistersFirst.

(** ** An instance without editor *)

Section NoEditor.

Variable createCellUri : string -> string -> string -> Uri.
Variable platformEOL : EndOfLineSequence.

Local Abbreviation handle := (handleEvent createCellUri platformEOL).
Local Abbreviation handleAll := (handleEvents createCellUri platformEOL).

Lemma runTasks_calls (ts : list Task) (w : World) (c : Call) :
  c ∈ tr (runTasks ts w) -> exists u, c = ModelDispose u /\ DisposeModelTask u ∈ ts.
Proof.
  revert w. induction ts as [|t ts IH]; intros w; cbn [runTasks].
  - intros H. apply elem_of_nil in H. contradiction.
  - destruct t as [u0]. unfold runTask, modelDispose.
    rewrite tr_bind, bind_emit, tr_prepend, st_prepend. unfold modify. cbn [tr st app].
    intros H. apply elem_of_cons in H. destruct H as [->|H].
    + exists u0. split; [reflexivity|]. apply elem_of_cons. auto.
    + destruct (IH _ H) as (u & E & Hu). exists u. split; [exact E|].
      apply elem_of_cons. auto.
Qed.

Lemma handleEvent_no_editor (e : Event) (w : World) :
  editor w = None ->
  editor (st (handle e w)) = None /\
  (forall u, DisposeModelTask u ∈ timers (st (handle e w)) ->
     DisposeModelTask u ∈ timers w) /\
  (forall c, c ∈ tr (handle e w) ->
     exists u, c = ModelDispose u /\ DisposeModelTask u ∈ timers w).
Proof.
  intros He.
  assert (Hnone : forall r : Res unit, r = mkRes tt w [] ->
            editor (st r) = None /\
            (forall u, DisposeModelTask u ∈ timers (st r) ->
               DisposeModelTask u ∈ timers w) /\
            (forall c, c ∈ tr r ->
               exists u, c = ModelDispose u /\ DisposeModelTask u ∈ timers w)).
  { intros r ->. cbn. split; [exact He|]. split; [auto|].
    intros c H. apply elem_of_nil in H. contradiction. }
  destruct e as [prevProps p|p|p b|p lw info|p d|]; cbn [handleEvent].
  - apply Hnone. unfold componentDidUpdate. rewrite bind_gets, He. reflexivity.
  - apply Hnone. unfold onResize.
    destruct (truthy (shouldUpdateLayoutWhenNotFocused p)).
    + apply requestLayout_no_editor. exact He.
    + rewrite bind_gets, He. reflexivity.
  - rewrite bind_gets. destruct (intersectObservation w); [|apply Hnone; reflexivity].
    unfold onIntersecting. rewrite bind_gets.
    destruct (negb (eqb (isInViewport w) b)); [|apply Hnone; reflexivity].
    rewrite bind_modify, !bind_gets.
    destruct (isInViewport (set_isInViewport b w) &&
              deferredLayoutRequest (set_isInViewport b w)).
    + rewrite bind_modify, bind_gets, requestLayout_no_editor by exact He.
      cbn. split; [exact He|]. split; [auto|].
      intros c H. apply elem_of_nil in H. contradiction.
    + cbn. split; [exact He|]. split; [auto|].
      intros c H. apply elem_of_nil in H. contradiction.
  - apply Hnone. unfold contentSizeChanged.
    destruct (contentHeightChanged info && nullish (autoFitContentHeight p) true);
      [|reflexivity].
    rewrite bind_gets, He. reflexivity.
  - apply Hnone. apply requestLayout_no_editor. exact He.
  - destruct (runTimers_state w) as (H1 & H2 & _).
    split; [rewrite H1; exact He|]. split.
    + intros u Hu. rewrite H2 in Hu. apply elem_of_nil in Hu. contradiction.
    + intros c Hc. unfold runTimers in Hc. rewrite bind_gets, bind_modify in Hc.
      apply (runTasks_calls _ _ _ Hc).
Qed.

(** X14: an instance without editor calls nothing on the editor, whatever
    happens to it: update passes, resizes, intersection reports, content size
    changes and layout requests make no call, and the editor handle stays
    empty.  The only calls are the disposals that were waiting in the timer
    queue, made when the timers fire. *)
Theorem instance_without_editor_calls_nothing (es : list Event) (w : World) :
  editor w = None ->
  editor (st (handleAll es w)) = None /\
  (forall c, c ∈ tr (handleAll es w) ->
     exists u, c = ModelDispose u /\ DisposeModelTask u ∈ timers w).
Proof.
  revert w. induction es as [|e es IH]; intros w He.
  - cbn. split; [exact He|]. intros c H. apply elem_of_nil in H. contradiction.
  - cbn [handleEvents]. rewrite st_bind, tr_bind.
    destruct (handleEvent_no_editor e w He) as (H1 & H2 & H3).
    destruct (IH _ H1) as [H4 H5].
    split; [exact H4|].
    intros c Hc. apply elem_of_app in Hc. destruct Hc as [Hc|Hc]; [auto|].
    destruct (H5 c Hc) as (u & E & Hu). exists u. auto.
Qed.

End NoEditor.

(** ** Hiding a widget *)

Lemma filter_idem {A} (f : A -> bool) (l : list A) :
  List.filter f (List.filter f l) = List.filter f l.
Proof.
  induction l as [|x l IH]; [reflexivity|]. cbn.
  destruct (f x) eqn:E; cbn; rewrite ?E, IH; reflexivity.
Qed.

Lemma hideWidget_tokens (e : Dom.Element) :
  Dom.split (Dom.className (Dom.hideWidget e)) =
    match keptTokens e with [] => [""] | l => l end.
Proof.
  unfold Dom.hideWidget, keptTokens. cbn [Dom.className].
  destruct (List.filter _ (Dom.split (Dom.className e))) as [|t ts] eqn:E.
  - reflexivity.
  - apply split_join; [discriminate|]. rewrite <- E. apply kept_tokens_nospace.
Qed.

Lemma hideWidget_idem (e : Dom.Element) :
  Dom.hideWidget (Dom.hideWidget e) = Dom.hideWidget e.
Proof.
  assert (Hc : Dom.className (Dom.hideWidget (Dom.hideWidget e)) =
               Dom.className (Dom.hideWidget e)).
  { unfold Dom.hideWidget at 1. cbn [Dom.className].
    rewrite hideWidget_tokens. unfold keptTokens.
    destruct (List.filter _ (Dom.split (Dom.className e))) as [|t ts] eqn:E.
    - unfold Dom.hideWidget. cbn [Dom.className]. rewrite E. reflexivity.
    - rewrite <- E, filter_idem. reflexivity. }
  assert (Hs : Dom.style_visibility (Dom.hideWidget (Dom.hideWidget e)) =
               Dom.style_visibility (Dom.hideWidget e)).
  { unfold Dom.hideWidget. cbn [Dom.style_visibility].
    destruct (String.eqb (Dom.style_visibility e) "hidden") eqn:E; cbn [negb].
    - rewrite E. reflexivity.
    - reflexivity. }
  unfold Dom.hideWidget at 1.
  unfold Dom.hideWidget at 1 in Hc. cbn [Dom.className] in Hc.
  unfold Dom.hideWidget at 1 in Hs. cbn [Dom.style_visibility] in Hs.
  rewrite Hc, Hs. destruct (Dom.hideWidget e). reflexivity.
Qed.

(** X15: hiding a widget takes the tokens [visible] out of its class name
    and keeps every other token, in order ([split] of the new class name
    gives the kept tokens, or the single empty token when none is kept); it
    sets the inline visibility to [hidden] and leaves parent, tag and box as
    they are; and hiding a widget that is hidden already changes nothing. *)
Theorem hideWidget_strips_only_visible (e : Dom.Element) :
  Dom.split (Dom.className (Dom.hideWidget e)) =
    match keptTokens e with [] => [""] | l => l end /\
  Dom.style_visibility (Dom.hideWidget e) = "hidden" /\
  Dom.parentElement (Dom.hideWidget e) = Dom.parentElement e /\
  Dom.tagName (Dom.hideWidget e) = Dom.tagName e /\
  Dom.boundingClientRect (Dom.hideWidget e) = Dom.boundingClientRect e /\
  Dom.hideWidget (Dom.hideWidget e) = Dom.hideWidget e.
Proof.
  split; [apply hideWidget_tokens|].
  split.
  { unfold Dom.hideWidget. cbn [Dom.style_visibility].
    destruct (String.eqb (Dom.style_visibility e) "hidden") eqn:E; cbn [negb].
    - apply String.eqb_eq. exact E.
    - reflexivity. }
  repeat split. apply hideWidget_idem.
Qed.

(** ** Hiding as one pass over the document *)

Lemma hideWhere_lookup (T : nat -> bool) (d : list Dom.Element) (i : nat) :
  hideWhere T d !! i = (fun e => if T i then Dom.hideWidget e else e) <$> d !! i.
Proof. apply list_lookup_imap. Qed.

Lemma hideWhere_ext (T T' : nat -> bool) (d : list Dom.Element) :
  (forall i, (i < length d)%nat -> T i = T' i) -> hideWhere T d = hideWhere T' d.
Proof.
  intros H. apply imap_ext. intros i x Hx. rewrite H; [reflexivity|].
  eapply lookup_lt_Some. exact Hx.
Qed.

Lemma hideWhere_none (d : list Dom.Element) : hideWhere (fun _ => false) d = d.
Proof.
  apply list_eq. intros i. rewrite hideWhere_lookup.
  destruct (d !! i); reflexivity.
Qed.

Lemma alter_hideWhere (T : nat -> bool) (d : list Dom.Element) (j : nat) :
  alter Dom.hideWidget j (hideWhere T d) = hideWhere (fun i => T i || Nat.eqb i j) d.
Proof.
  apply list_eq. intros i. rewrite list_lookup_alter, !hideWhere_lookup.
  destruct (decide (j = i)) as [->|Hne].
  - rewrite Nat.eqb_refl, orb_true_r.
    destruct (d !! i) as [e|]; [|reflexivity]. cbn.
    destruct (T i); [rewrite hideWidget_idem|]; reflexivity.
  - assert (E : Nat.eqb i j = false) by (apply Nat.eqb_neq; congruence).
    rewrite E, orb_false_r. reflexivity.
Qed.

Lemma fold_alter_hideWhere (l : list nat) (T : nat -> bool) (d : list Dom.Element) :
  fold_left (fun d' i => alter Dom.hideWidget i d') l (hideWhere T d) =
  hideWhere (fun i => T i || memb i l) d.
Proof.
  revert T. induction l as [|j l IH]; intros T; cbn [fold_left].
  - apply hideWhere_ext. intros i _. cbn. rewrite orb_false_r. reflexivity.
  - rewrite alter_hideWhere, IH. apply hideWhere_ext. intros i _.
    unfold memb. cbn [existsb]. rewrite orb_assoc. reflexivity.
Qed.

Lemma Evolves_hideWhere (T : nat -> bool) (d : list Dom.Element) :
  Evolves d (hideWhere T d).
Proof.
  unfold Evolves. apply Forall2_same_length_lookup. split.
  - unfold hideWhere. rewrite length_imap. reflexivity.
  - intros i x y Hx Hy. rewrite hideWhere_lookup, Hx in Hy. cbn in Hy.
    inversion Hy. destruct (T i); [apply related_hideWidget|apply related_refl].
Qed.

Lemma hideWidgets_hideWhere (T : nat -> bool) (d : list Dom.Element) (parent : nat) :
  Dom.hideWidgets (hideWhere T d) parent [Dom.parameterHints] =
  hideWhere (fun i => T i || hintOf d parent i) d.
Proof.
  unfold Dom.hideWidgets. cbn [fold_left].
  rewrite (Evolves_querySelectorAllIn d (hideWhere T d) parent (Evolves_hideWhere T d)).
  apply fold_alter_hideWhere.
Qed.

Lemma fold_hideWidgets_hideWhere (parents : list nat) (T : nat -> bool)
      (d : list Dom.Element) :
  fold_left (fun a parent => Dom.hideWidgets a parent [Dom.parameterHints])
            parents (hideWhere T d) =
  hideWhere (fun i => T i || existsb (fun parent => hintOf d parent i) parents) d.
Proof.
  revert T. induction parents as [|q parents IH]; intros T; cbn [fold_left].
  - apply hideWhere_ext. intros i _. cbn. rewrite orb_false_r. reflexivity.
  - rewrite hideWidgets_hideWhere, IH. apply hideWhere_ext. intros i _.
    cbn [existsb]. rewrite orb_assoc. reflexivity.
Qed.

(** X16: [hideAllOtherParameterWidgets] of an instance with a container is
    one pass over the document: it hides exactly the parameter-hint widgets
    that lie inside a monaco container other than the parent of this
    instance's container, each as [hideWidget] does, and leaves every other
    element as it is, the widgets of this instance among them.  Without a
    container the document is left as it is. *)
Theorem hideAllOtherParameterWidgets_is_one_pass
  (doc : list Dom.Element) (ref : option nat) :
  let own := Dom.refParent doc ref in
  let doc' := Dom.hideAllOtherParameterWidgets doc ref in
  (ref = None -> doc' = doc) /\
  (ref <> None -> doc' = hideWhere (hintOfOthers doc own) doc) /\
  (forall i, hintOfOthers doc own i = false -> doc' !! i = doc !! i) /\
  (forall i, ref <> None -> hintOfOthers doc own i = true ->
     doc' !! i = Dom.hideWidget <$> doc !! i) /\
  length doc' = length doc.
Proof.
  intros own doc'.
  assert (H : ref <> None -> doc' = hideWhere (hintOfOthers doc own) doc).
  { intros Hr. unfold doc', Dom.hideAllOtherParameterWidgets.
    destruct ref as [c|]; [|congruence].
    rewrite <- (hideWhere_none doc) at 3.
    rewrite fold_hideWidgets_hideWhere. apply hideWhere_ext. intros i _.
    reflexivity. }
  assert (Hn : ref = None -> doc' = doc) by (intros ->; reflexivity).
  split; [exact Hn|]. split; [exact H|].
  destruct ref as [c|]; [|rewrite Hn by reflexivity; repeat split; congruence].
  rewrite H by discriminate.
  split; [|split].
  - intros i Hi. rewrite hideWhere_lookup, Hi. destruct (doc !! i); reflexivity.
  - intros i _ Hi. rewrite hideWhere_lookup, Hi. reflexivity.
  - unfold hideWhere. apply length_imap.
Qed.

(** ** A pointer event without a position *)

(** X17: a pointer event whose position misses a coordinate is never inside
    a widget: when the document holds a parameter-hint widget the event hides
    the widgets of the other editors, whatever the box of that widget; when
    it holds none the document is left as it is, whatever the position. *)
Theorem pointer_without_position_counts_as_outside
  (doc : list Dom.Element) (ref : option nat) (x y : option Z) :
  (Dom.querySelector doc Dom.parameterHints = None ->
   Dom.handleCoordsOutsideWidgetActiveRegion doc ref x y = doc) /\
  (Dom.querySelector doc Dom.parameterHints <> None ->
   x = None \/ y = None ->
   Dom.handleCoordsOutsideWidgetActiveRegion doc ref x y =
     Dom.hideAllOtherParameterWidgets doc ref).
Proof.
  unfold Dom.handleCoordsOutsideWidgetActiveRegion. split.
  - intros ->. reflexivity.
  - intros Hq Hxy.
    destruct (Dom.querySelector doc Dom.parameterHints) as [widget|]; [|congruence].
    rewrite coordsInsideElement_undefined by exact Hxy. reflexivity.
Qed.

(** ** Blur *)

Arguments hideParameterWidget : simpl never.

Lemma find_existsb {A} (f : A -> bool) (l : list A) :
  (if List.find f l is Some _ then true else false) = existsb f l.
Proof.
  induction l as [|x l IH]; [reflexivity|]. cbn. destruct (f x); auto.
Qed.

Lemma hideWidgets_one_pass (doc : list Dom.Element) (container : nat) :
  Dom.hideWidgets doc container [Dom.parameterHints] =
  hideWhere (hintOf doc container) doc.
Proof.
  rewrite <- (hideWhere_none doc) at 1. rewrite hideWidgets_hideWhere.
  apply hideWhere_ext. intros i _. reflexivity.
Qed.

(** What [hideParameterWidget] does, case by case. *)
Lemma hideParameterWidget_run (doc : list Dom.Element) (ref : option nat)
      (domNode : bool) (hoverElements : list nat) (w : World) :
  let r := hideParameterWidget doc ref domNode hoverElements w in
  st r = w /\
  match editor w, ref with
  | Some e, Some container =>
      if domNode && negb (existsb (isOwnParameterWidget doc container) hoverElements)
      then tr r = [HasWidgetFocus (ed_hasWidgetFocus e)] /\
           val r = if ed_hasWidgetFocus e then doc
                   else hideWhere (hintOf doc container) doc
      else tr r = [] /\ val r = doc
  | _, _ => tr r = [] /\ val r = doc
  end.
Proof.
  intros r. subst r. unfold hideParameterWidget, hasWidgetFocus.
  rewrite bind_gets. destruct (editor w) as [e|] eqn:He; [|auto].
  destruct ref as [container|]; [|destruct domNode; auto].
  destruct domNode; cbn [negb andb]; [|auto].
  rewrite <- find_existsb.
  destruct (List.find (isOwnParameterWidget doc container) hoverElements);
    cbn [negb]; [auto|].
  rewrite bind_assoc, bind_gets, He, bind_assoc, bind_emit, bind_ret.
  rewrite hideWidgets_one_pass.
  destruct (ed_hasWidgetFocus e); cbn [st tr val prepend ret app]; auto.
Qed.

(** X18: [hideParameterWidget], the last step of a blur.  With a live
    editor that has a DOM node and a container, when no element under the
    pointer is a shown parameter widget of this editor and the editor does
    not hold the widget focus, every parameter-hint widget inside the
    container of this instance is hidden and every other element of the
    document is left as it is.  When such a widget is hovered, or the editor
    holds the focus, or there is no editor, no DOM node or no container,
    the document is left as it is.  The state of the instance does not
    change. *)
Theorem blur_hides_the_hints_of_this_editor
  (doc : list Dom.Element) (ref : option nat) (domNode : bool)
  (hoverElements : list nat) (w : World) :
  let r := hideParameterWidget doc ref domNode hoverElements w in
  st r = w /\
  (editor w = None \/ domNode = false \/ ref = None -> val r = doc /\ tr r = []) /\
  (forall e container, editor w = Some e -> ref = Some container -> domNode = true ->
     let hovered := existsb (isOwnParameterWidget doc container) hoverElements in
     (hovered = true -> val r = doc /\ tr r = []) /\
     (hovered = false -> ed_hasWidgetFocus e = true -> val r = doc) /\
     (hovered = false -> ed_hasWidgetFocus e = false ->
      val r = hideWhere (hintOf doc container) doc /\
      (forall i, hintOf doc container i = true -> HiddenAt (val r) i) /\
      (forall i, hintOf doc container i = false -> val r !! i = doc !! i))).
Proof.
  intros r. destruct (hideParameterWidget_run doc ref domNode hoverElements w)
    as [Hst Hrun]. fold r in Hst, Hrun.
  split; [exact Hst|]. split.
  - intros [H|[H|H]].
    + rewrite H in Hrun. tauto.
    + rewrite H in Hrun. destruct (editor w), ref; cbn in Hrun; tauto.
    + rewrite H in Hrun. destruct (editor w); tauto.
  - intros e container He Hr Hd hovered. rewrite He, Hr, Hd in Hrun.
    fold hovered in Hrun. cbn [andb] in Hrun.
    split; [|split].
    + intros Hh. rewrite Hh in Hrun. cbn in Hrun. tauto.
    + intros Hh Hf. rewrite Hh, Hf in Hrun. cbn in Hrun. tauto.
    + intros Hh Hf. rewrite Hh, Hf in Hrun. cbn in Hrun.
      destruct Hrun as [_ Hv]. rewrite Hv.
      split; [reflexivity|]. split.
      * intros i Hi. unfold HiddenAt. rewrite hideWhere_lookup, Hi.
        assert (Hlt : (i < length doc)%nat).
        { unfold hintOf, memb in Hi. apply existsb_exists in Hi.
          destruct Hi as (j & Hj & Hij). apply Nat.eqb_eq in Hij. subst j.
          eapply querySelectorAllIn_bound. exact Hj. }
        destruct (lookup_lt_is_Some_2 doc i Hlt) as [x Hx]. rewrite Hx.
        exists (Dom.hideWidget x). split; [reflexivity|apply hideWidget_hidden].
      * intros i Hi. rewrite hideWhere_lookup, Hi. destruct (doc !! i); reflexivity.
Qed.

(** ** Focus and blur, and the cursor listener *)

Lemma filter_ComponentCall (f : FocusCall -> bool) (l : list Call) :
  List.filter f (ComponentCall <$> l) =
  ComponentCall <$> List.filter (fun c => f (ComponentCall c)) l.
Proof.
  induction l as [|c l IH]; [reflexivity|]. cbn.
  destruct (f (ComponentCall c)); cbn; rewrite IH; reflexivity.
Qed.

Lemma hostNotifications_app (l1 l2 : list FocusCall) :
  hostNotifications (l1 ++ l2) = hostNotifications l1 ++ hostNotifications l2.
Proof.
  induction l1 as [|c l1 IH]; [reflexivity|]. destruct c; cbn; rewrite IH; reflexivity.
Qed.

Lemma hostNotifications_component (l : list Call) :
  hostNotifications (ComponentCall <$> l) = [].
Proof. induction l as [|c l IH]; [reflexivity|]. exact IH. Qed.

Lemma onFocus_step (onFocusChange : bool) (p : Props) (w : World) :
  let r := onFocus onFocusChange p w in
  (length (List.filter is_cursorSubscribe (snd r)) +
     Nat.b2n (cursorPositionListener w) =
   length (List.filter is_cursorDispose (snd r)) +
     Nat.b2n (cursorPositionListener (fst r)))%nat /\
  hostNotifications (snd r) = (if onFocusChange then [true] else []) /\
  editor (fst r) = editor w /\
  (editor w <> None -> onCursorPositionChange p = true ->
   cursorPositionListener (fst r) = true).
Proof.
  unfold onFocus, notifyFocusChange, toggleEditorOptions, registerCursorListener.
  destruct w as [ed ref cl ml io iv dr dd ms ts].
  destruct onFocusChange; destruct ed as [e|];
    destruct (onCursorPositionChange p); destruct cl;
    cbn; repeat split; try reflexivity; intros; congruence.
Qed.

Lemma onBlur_step (onFocusChange : bool) (ref : option nat) (domNode : bool)
      (hoverElements : list nat) (doc : list Dom.Element) (w : World) :
  let r := onBlur onFocusChange ref domNode hoverElements doc w in
  (length (List.filter is_cursorSubscribe (snd r)) +
     Nat.b2n (cursorPositionListener w) =
   length (List.filter is_cursorDispose (snd r)) +
     Nat.b2n (cursorPositionListener (fst (fst r))))%nat /\
  hostNotifications (snd r) = (if onFocusChange then [false] else []) /\
  editor (fst (fst r)) = editor w /\
  cursorPositionListener (fst (fst r)) = false.
Proof.
  unfold onBlur. cbn [fst snd].
  set (pre := toggleEditorOptions false >> unregisterCursorListener).
  rewrite st_bind, tr_bind.
  destruct (hideParameterWidget_run doc ref domNode hoverElements (st (pre w)))
    as [Hst Hrun].
  rewrite Hst.
  assert (Htr : List.filter is_cursorSubscribe
                  (ComponentCall <$>
                     tr (hideParameterWidget doc ref domNode hoverElements (st (pre w)))) = [] /\
                List.filter is_cursorDispose
                  (ComponentCall <$>
                     tr (hideParameterWidget doc ref domNode hoverElements (st (pre w)))) = []).
  { destruct (editor (st (pre w))), ref; try (destruct Hrun as [-> _]; auto).
    destruct (domNode && _); destruct Hrun as [-> _]; auto. }
  destruct Htr as [Hs Hd].
  rewrite !List.filter_app, fmap_app, !List.filter_app, Hs, Hd, !app_nil_r.
  rewrite !hostNotifications_app, !hostNotifications_component, !app_nil_r.
  clear Hst Hrun Hs Hd.
  unfold pre, notifyFocusChange, toggleEditorOptions, unregisterCursorListener.
  destruct w as [ed ref' cl ml io iv dr dd ms ts].
  destruct onFocusChange; destruct ed as [e|]; destruct cl;
    cbn; repeat split; reflexivity.
Qed.

(** X19: through any sequence of focus and blur events the cursor listener
    is subscribed and disposed of in pairs: the subscriptions made exceed
    the disposals by one exactly when the sequence registers a listener that
    was not there, and fall short by one when it removes one that was.  A
    sequence that ends in a blur leaves no listener registered.  The host is
    told of each event, in order, when it gave [onFocusChange], and never
    otherwise; the editor handle is left as it is. *)
Theorem cursor_listener_is_subscribed_and_disposed_in_pairs
  (onFocusChange : bool) (ref : option nat) (domNode : bool)
  (es : list FocusEvent) (w : World) (doc : list Dom.Element) :
  let r := focusEvents onFocusChange ref domNode es (w, doc) in
  let w' := fst (fst r) in
  (length (List.filter is_cursorSubscribe (snd r)) +
     Nat.b2n (cursorPositionListener w) =
   length (List.filter is_cursorDispose (snd r)) +
     Nat.b2n (cursorPositionListener w'))%nat /\
  hostNotifications (snd r) = (if onFocusChange then gainsFocus <$> es else []) /\
  editor w' = editor w /\
  (forall es' hoverElements, es = es' ++ [LostFocus hoverElements] ->
     cursorPositionListener w' = false).
Proof.
  revert w doc. induction es as [|e es IH]; intros w doc.
  - cbn. repeat split; try reflexivity; [destruct onFocusChange; reflexivity|].
    intros es' h E. destruct es'; discriminate.
  - cbn zeta. cbn [focusEvents].
    set (r1 := focusEvent onFocusChange ref domNode e (w, doc)).
    assert (H1 :
      (length (List.filter is_cursorSubscribe (snd r1)) +
         Nat.b2n (cursorPositionListener w) =
       length (List.filter is_cursorDispose (snd r1)) +
         Nat.b2n (cursorPositionListener (fst (fst r1))))%nat /\
      hostNotifications (snd r1) = (if onFocusChange then [gainsFocus e] else []) /\
      editor (fst (fst r1)) = editor w /\
      (gainsFocus e = false -> cursorPositionListener (fst (fst r1)) = false)).
    { unfold r1. destruct e as [p|h]; cbn [focusEvent fst snd gainsFocus].
      - destruct (onFocus_step onFocusChange p w) as (A & B & C & _).
        repeat split; auto. discriminate.
      - destruct (onBlur_step onFocusChange ref domNode h doc w) as (A & B & C & D).
        repeat split; auto. }
    destruct H1 as (A1 & B1 & C1 & D1).
    destruct (fst r1) as [w1 doc1] eqn:E1. cbn [fst] in A1, C1, D1.
    specialize (IH w1 doc1). cbn zeta in IH. destruct IH as (A2 & B2 & C2 & D2).
    cbn [fst snd].
    rewrite !List.filter_app, !length_app, hostNotifications_app, B1, B2.
    split; [lia|]. split; [destruct onFocusChange; reflexivity|].
    split; [congruence|].
    intros es' h E. destruct es' as [|e' es'].
    + cbn in E. inversion E; subst. cbn. apply D1. reflexivity.
    + cbn in E. inversion E; subst. eapply D2. reflexivity.
Qed.

(** ** The ResizeObserver polyfill *)

Lemma set_add_elem (x y : nat) (s : list nat) :
  y ∈ ResizeObserver.set_add x s <-> y = x \/ y ∈ s.
Proof.
  unfold ResizeObserver.set_add.
  destruct (existsb (Nat.eqb x) s) eqn:E.
  - split; [auto|]. intros [->|H]; [|exact H].
    apply existsb_exists in E. destruct E as (z & Hz & Hxz).
    apply Nat.eqb_eq in Hxz. subst z. apply list_elem_of_In. exact Hz.
  - rewrite elem_of_app, list_elem_of_singleton. tauto.
Qed.

Lemma set_add_NoDup (x : nat) (s : list nat) :
  NoDup s -> NoDup (ResizeObserver.set_add x s).
Proof.
  intros H. unfold ResizeObserver.set_add.
  destruct (existsb (Nat.eqb x) s) eqn:E; [exact H|].
  apply NoDup_app. split; [exact H|]. split; [|apply NoDup_singleton].
  intros y Hy Hx. apply list_elem_of_singleton in Hx. subst y.
  assert (Ht : existsb (Nat.eqb x) s = true).
  { apply existsb_exists. exists x. split; [apply list_elem_of_In; exact Hy|].
    apply Nat.eqb_refl. }
  congruence.
Qed.

Lemma set_delete_elem (x y : nat) (s : list nat) :
  y ∈ ResizeObserver.set_delete x s <-> y <> x /\ y ∈ s.
Proof.
  unfold ResizeObserver.set_delete.
  rewrite !list_elem_of_In, filter_In, negb_true_iff, Nat.eqb_neq.
  split; intros [H1 H2]; split; auto.
Qed.

Lemma set_delete_NoDup (x : nat) (s : list nat) :
  NoDup s -> NoDup (ResizeObserver.set_delete x s).
Proof.
  intros H. unfold ResizeObserver.set_delete.
  apply NoDup_ListNoDup. apply List.NoDup_filter. apply NoDup_ListNoDup. exact H.
Qed.

Lemma set_delete_absent (x : nat) (s : list nat) :
  x ∉ s -> ResizeObserver.set_delete x s = s.
Proof.
  intros H. unfold ResizeObserver.set_delete.
  induction s as [|y s IH]; [reflexivity|]. cbn.
  apply not_elem_of_cons in H. destruct H as [Hne Hs].
  assert (E : Nat.eqb x y = false) by (apply Nat.eqb_neq; exact Hne).
  rewrite E. cbn. rewrite IH by exact Hs. reflexivity.
Qed.

Lemma polyfill_run_elements (ops : list ResizeObserver.Op) (o : ResizeObserver.t) :
  NoDup (ResizeObserver.elements o) ->
  NoDup (ResizeObserver.elements (ResizeObserver.run ops o)) /\
  (forall el b, (b = true <-> el ∈ ResizeObserver.elements o) ->
     (el ∈ ResizeObserver.elements (ResizeObserver.run ops o) <->
      ResizeObserver.observedAfter el ops b = true)).
Proof.
  revert o. induction ops as [|op ops IH]; intros o Hnd.
  - split; [exact Hnd|]. intros el b Hb. cbn. tauto.
  - unfold ResizeObserver.run. cbn [fold_left].
    fold (ResizeObserver.run ops (ResizeObserver.step o op)).
    destruct op as [x|x|]; cbn [ResizeObserver.step ResizeObserver.observedAfter].
    + destruct (IH (ResizeObserver.observe x o)) as [H1 H2];
        [apply set_add_NoDup; exact Hnd|].
      split; [exact H1|]. intros el b Hb. apply H2.
      cbn [ResizeObserver.observe ResizeObserver.elements]. rewrite set_add_elem.
      destruct (Nat.eqb_spec x el) as [->|Hne]; [tauto|].
      rewrite Hb. split; [auto|]. intros [E|E]; [congruence|exact E].
    + destruct (IH (ResizeObserver.unobserve x o)) as [H1 H2];
        [apply set_delete_NoDup; exact Hnd|].
      split; [exact H1|]. intros el b Hb. apply H2.
      cbn [ResizeObserver.unobserve ResizeObserver.elements]. rewrite set_delete_elem.
      destruct (Nat.eqb_spec x el) as [->|Hne].
      * split; [discriminate|]. intros [E _]. congruence.
      * rewrite Hb. split; [intros E; split; [congruence|exact E]|tauto].
    + apply (IH (ResizeObserver.disconnect o)). exact Hnd.
Qed.

Lemma polyfill_run_attached (ops : list ResizeObserver.Op) (o : ResizeObserver.t) :
  ResizeObserver.attached (ResizeObserver.run ops o) =
  ResizeObserver.attached o && negb (existsb ResizeObserver.is_disconnect ops).
Proof.
  revert o. induction ops as [|op ops IH]; intros o.
  - cbn. rewrite andb_true_r. reflexivity.
  - unfold ResizeObserver.run. cbn [fold_left].
    fold (ResizeObserver.run ops (ResizeObserver.step o op)). rewrite IH.
    destruct op; cbn; [reflexivity|reflexivity|].
    rewrite andb_false_r. reflexivity.
Qed.

(** X20: after any sequence of calls on a new observer, the observed
    elements are those whose last call was [observe], each held once; a
    resize of the window hands the callback exactly one entry for each of
    them, in the order of the set, with the element as target and its
    bounding box at that moment as content rectangle; the callback runs on
    every resize, also with no element observed, as long as the observer was
    not disconnected. *)
Theorem polyfill_reports_each_observed_element_once
  (ops : list ResizeObserver.Op) (getBoundingClientRect : nat -> Dom.ClientRect) :
  let o := ResizeObserver.run ops ResizeObserver.create in
  let entries := ResizeObserver.onWindowResize getBoundingClientRect o in
  NoDup (ResizeObserver.elements o) /\
  (forall el, el ∈ ResizeObserver.elements o <->
     ResizeObserver.observedAfter el ops false = true) /\
  ResizeObserver.target <$> entries = ResizeObserver.elements o /\
  (forall entry, entry ∈ entries ->
     ResizeObserver.contentRect entry =
       getBoundingClientRect (ResizeObserver.target entry)) /\
  ResizeObserver.windowResize getBoundingClientRect o =
    (if existsb ResizeObserver.is_disconnect ops then None else Some entries).
Proof.
  intros o entries.
  destruct (polyfill_run_elements ops ResizeObserver.create) as [H1 H2];
    [apply NoDup_nil_2|].
  split; [exact H1|]. split.
  { intros el. apply H2. cbn. split; [discriminate|]. intros H.
    apply elem_of_nil in H. contradiction. }
  split.
  { unfold entries, ResizeObserver.onWindowResize.
    induction (ResizeObserver.elements o) as [|x l IH]; [reflexivity|].
    cbn. f_equal. exact IH. }
  split.
  { intros entry He. unfold entries, ResizeObserver.onWindowResize in He.
    apply list_elem_of_In, in_map_iff in He. destruct He as (x & <- & _).
    reflexivity. }
  unfold ResizeObserver.windowResize. fold o.
  unfold o at 1. rewrite polyfill_run_attached. cbn [ResizeObserver.attached
    ResizeObserver.create andb].
  destruct (existsb ResizeObserver.is_disconnect ops); reflexivity.
Qed.

(** X21: observing an element twice is observing it once, and so is
    unobserving; unobserving an element that is not observed changes
    nothing; and observing an element that was not observed and unobserving
    it again gives the observer back as it was. *)
Theorem polyfill_observe_unobserve_round_trip (el : nat) (o : ResizeObserver.t) :
  ResizeObserver.observe el (ResizeObserver.observe el o) = ResizeObserver.observe el o /\
  ResizeObserver.unobserve el (ResizeObserver.unobserve el o) =
    ResizeObserver.unobserve el o /\
  (el ∈ ResizeObserver.elements (ResizeObserver.observe el o)) /\
  (el ∉ ResizeObserver.elements (ResizeObserver.unobserve el o)) /\
  (el ∉ ResizeObserver.elements o ->
   ResizeObserver.unobserve el o = o /\
   ResizeObserver.unobserve el (ResizeObserver.observe el o) = o).
Proof.
  destruct o as [s a].
  unfold ResizeObserver.observe, ResizeObserver.unobserve.
  cbn [ResizeObserver.elements ResizeObserver.attached].
  assert (Hin : el ∈ ResizeObserver.set_add el s) by (apply set_add_elem; auto).
  assert (Hout : el ∉ ResizeObserver.set_delete el s).
  { intros H. apply set_delete_elem in H. destruct H. congruence. }
  split.
  { f_equal. unfold ResizeObserver.set_add at 1.
    assert (E : existsb (Nat.eqb el) (ResizeObserver.set_add el s) = true).
    { apply existsb_exists. exists el.
      split; [apply list_elem_of_In; exact Hin|apply Nat.eqb_refl]. }
    rewrite E. reflexivity. }
  split; [f_equal; apply set_delete_absent; exact Hout|].
  split; [exact Hin|]. split; [exact Hout|].
  intros Hs. split; [f_equal; apply set_delete_absent; exact Hs|].
  f_equal. unfold ResizeObserver.set_add.
  destruct (existsb (Nat.eqb el) s) eqn:E.
  - apply set_delete_absent. exact Hs.
  - unfold ResizeObserver.set_delete. rewrite List.filter_app. cbn.
    rewrite Nat.eqb_refl. cbn. rewrite app_nil_r.
    apply set_delete_absent. exact Hs.
Qed.

(** X22: [disconnect] detaches the listener and keeps the elements.  From
    then on the callback never runs again, whatever is observed or
    unobserved afterwards, while the set of elements goes on changing as if
    the observer were connected. *)
Theorem polyfill_disconnect_silences_the_observer
  (before after : list ResizeObserver.Op) (o : ResizeObserver.t)
  (getBoundingClientRect : nat -> Dom.ClientRect) :
  let stopped := ResizeObserver.disconnect (ResizeObserver.run before o) in
  ResizeObserver.elements stopped =
    ResizeObserver.elements (ResizeObserver.run before o) /\
  ResizeObserver.windowResize getBoundingClientRect
    (ResizeObserver.run after stopped) = None /\
  ResizeObserver.elements (ResizeObserver.run after stopped) =
    ResizeObserver.elements (ResizeObserver.run after (ResizeObserver.run before o)).
Proof.
  intros stopped. split; [reflexivity|]. split.
  - unfold ResizeObserver.windowResize. rewrite polyfill_run_attached. reflexivity.
  - unfold stopped. generalize (ResizeObserver.run before o). intros o'.
    revert o'. induction after as [|op ops IH]; intros o'; [reflexivity|].
    unfold ResizeObserver.run. cbn [fold_left].
    fold (ResizeObserver.run ops (ResizeObserver.step (ResizeObserver.disconnect o') op)).
    fold (ResizeObserver.run ops (ResizeObserver.step o' op)).
    destruct op as [x|x|]; cbn [ResizeObserver.step].
    + apply (IH (ResizeObserver.observe x o')).
    + apply (IH (ResizeObserver.unobserve x o')).
    + apply (IH (ResizeObserver.disconnect o')).
Qed.

(** ** The options of the editor *)

(** X23: in the options handed to [monaco.editor.create],
    [scrollBeyondLastLine] is false whatever the host passes in
    [options]; every other key the host passes wins over the setting of the
    component, the model, the language and the value among them; a key the
    host does not pass keeps the component's setting, so that line numbers
    are on exactly when the [lineNumbers] prop is set. *)
Theorem editor_options_precedence
  (p : Props) (options : gmap string OptionValue) (model : Uri) :
  let o := editorOptions p options model in
  o !! "scrollBeyondLastLine" = Some (OBool false) /\
  (forall k v, k <> "scrollBeyondLastLine" -> options !! k = Some v -> o !! k = Some v) /\
  (forall k, k <> "scrollBeyondLastLine" -> options !! k = None ->
     o !! k = builtinOptions p model !! k) /\
  (options !! "lineNumbers" = None ->
   o !! "lineNumbers" =
     Some (OString (if truthy (lineNumbers p) then "on" else "off"))) /\
  (options !! "model" = None -> o !! "model" = Some (OModel model)).
Proof.
  intros o. subst o. unfold editorOptions.
  assert (Hk : forall k, k <> "scrollBeyondLastLine" -> options !! k = None ->
                 (<["scrollBeyondLastLine" := OBool false]>
                    (options ∪ builtinOptions p model)) !! k =
                 builtinOptions p model !! k).
  { intros k Hne Ho. rewrite lookup_insert_ne by congruence.
    apply lookup_union_r. exact Ho. }
  split; [apply lookup_insert_eq|].
  split.
  { intros k v Hne Ho. rewrite lookup_insert_ne by congruence.
    apply lookup_union_Some_l. exact Ho. }
  split; [exact Hk|].
  split; intros Ho; (rewrite Hk; [|discriminate|exact Ho]); vm_compute; reflexivity.
Qed.

(** ** The further properties at sample configurations *)

Lemma mount_model_witness :
  editorContainerRef unmountedWorld = Some sampleContainer /\
  List.filter is_model_call
    (tr (componentDidMount sampleUriFile CRLF sampleCreate
           (with_value_language crlfText "python" sampleProps) unmountedWorld)) =
    [CreateModel crlfText "python" "file:///cell1"; SetEOL "file:///cell1" LF] /\
  models (st (componentDidMount sampleUriFile CRLF sampleCreate
                (with_value_language crlfText "python" sampleProps)
                unmountedWorld)) !! "file:///cell1" =
    Some (mkModel lfText "python" LF).
Proof.
  assert (Hc : editorContainerRef unmountedWorld = Some sampleContainer)
    by reflexivity.
  split; [exact Hc|].
  destruct (mount_reuses_or_creates_the_model sampleUriFile CRLF sampleCreate
              (with_value_language crlfText "python" sampleProps)
              unmountedWorld sampleContainer Hc) as (_ & H & _).
  apply H. reflexivity.
Defined.

Lemma mount_unmount_witness :
  (forall op, nothingThrows op = false) /\
  (ed_model <$>
     editor (st (componentDidMount sampleUriFile LF sampleCreate sampleProps
                   (constructed (Some sampleContainer) ∅ [])))) =
    Some (Some "file:///cell1") /\
  tr (componentWillUnmount nothingThrows
        (st (componentDidMount sampleUriFile LF sampleCreate sampleProps
               (constructed (Some sampleContainer) ∅ [])))) =
    [ResizeUnobserve; ModelDispose "file:///cell1"; EditorDispose; MouseMoveDispose].
Proof.
  assert (H1 : forall op, nothingThrows op = false) by reflexivity.
  assert (H2 : (ed_model <$>
                  editor (st (componentDidMount sampleUriFile LF sampleCreate
                                sampleProps
                                (constructed (Some sampleContainer) ∅ [])))) =
               Some (Some "file:///cell1")) by (vm_compute; reflexivity).
  split; [exact H1|]. split; [exact H2|].
  destruct (mount_then_unmount_releases_what_mount_acquired sampleUriFile LF
              sampleCreate nothingThrows sampleProps sampleContainer ∅ [] H1 H2)
    as (H & _).
  exact H.
Defined.

Lemma pending_disposals_witness :
  Forall quietEvent
    [DidUpdate sampleProps markdownProps; Resized markdownProps;
     DidUpdate markdownProps markdownProps] /\
  timers
    (st (handleEvents sampleCellUri LF
           [DidUpdate sampleProps markdownProps; Resized markdownProps;
            DidUpdate markdownProps markdownProps]
           (st (componentDidMount sampleUriFile LF sampleCreate sampleProps
                  (constructed (Some sampleContainer) ∅ []))))) =
    [DisposeModelTask "file:///cell1"] /\
  editorModel
    (st (runTimers
      (st (handleEvents sampleCellUri LF
             [DidUpdate sampleProps markdownProps; Resized markdownProps;
              DidUpdate markdownProps markdownProps]
             (st (componentDidMount sampleUriFile LF sampleCreate sampleProps
                    (constructed (Some sampleContainer) ∅ []))))))) =
    Some (sampleCellUri "ref1" "cell1" "markdown", mkModel "print(1)" "markdown" LF).
Proof.
  assert (Hq : Forall quietEvent
                 [DidUpdate sampleProps markdownProps; Resized markdownProps;
                  DidUpdate markdownProps markdownProps]).
  { repeat constructor; intros f e H; discriminate. }
  split; [exact Hq|]. split; [vm_compute; reflexivity|].
  destruct (pending_disposals_spare_the_model_of_the_editor sampleCellUri
              sampleUriFile LF sampleCreate sampleProps sampleContainer ∅ _ Hq)
    as (_ & H & _).
  rewrite H. vm_compute. reflexivity.
Defined.

Lemma no_editor_witness :
  editor (constructed (Some sampleContainer) sampleModels
            [DisposeModelTask "file:///cell1"]) = None /\
  tr (handleEvents sampleCellUri LF
        [DidUpdate sampleProps markdownProps; Resized sampleProps;
         LayoutRequested sampleProps None; TimersFired]
        (constructed (Some sampleContainer) sampleModels
           [DisposeModelTask "file:///cell1"])) =
    [ModelDispose "file:///cell1"] /\
  editor
    (st (handleEvents sampleCellUri LF
           [DidUpdate sampleProps markdownProps; Resized sampleProps;
            LayoutRequested sampleProps None; TimersFired]
           (constructed (Some sampleContainer) sampleModels
              [DisposeModelTask "file:///cell1"]))) = None.
Proof.
  assert (He : editor (constructed (Some sampleContainer) sampleModels
                         [DisposeModelTask "file:///cell1"]) = None)
    by reflexivity.
  split; [exact He|]. split; [vm_compute; reflexivity|].
  apply (instance_without_editor_calls_nothing sampleCellUri LF _ _ He).
Defined.

(** ** Layout changes handed to the scheduler *)

Section Batched.

Variable createCellUri : string -> string -> string -> Uri.
Variable uriFile : string -> Uri.
Variable platformEOL : EndOfLineSequence.
Variable monacoCreate : Container -> Uri -> Editor.

Lemma requestLayout_batched (p : Props) (d : option Dimension) :
  is_true_strict (batchLayoutChanges p) = true ->
  produces (Forall notLayout) (requestLayout p d).
Proof.
  intros Hb. unfold requestLayout, scheduleEditorForLayout. rewrite Hb.
  produces_auto.
Qed.

Lemma runTasks_no_layout (ts : list Task) :
  produces (Forall notLayout) (runTasks ts).
Proof.
  induction ts as [|[u] ts IH]; cbn [runTasks].
  - produces_auto.
  - unfold runTask, modelDispose. produces_auto. exact IH.
Qed.

Lemma handleEvent_batched (e : Event) :
  batchedEvent e ->
  produces (Forall notLayout) (handleEvent createCellUri platformEOL e).
Proof.
  destruct e as [prev p|p|p b|p lw info|p d|]; unfold batchedEvent; cbn [eventProps];
    intros Hb; cbn [handleEvent].
  - unfold componentDidUpdate. unfold_ops. rewrite Hb. produces_auto.
  - unfold onResize. unfold_ops. rewrite Hb. produces_auto.
  - unfold onIntersecting. unfold_ops. rewrite Hb. produces_auto.
  - unfold contentSizeChanged. unfold_ops. rewrite Hb. produces_auto.
  - apply requestLayout_batched; exact Hb.
  - unfold runTimers. produces_auto. apply runTasks_no_layout.
Qed.

Lemma handleEvents_batched (es : list Event) :
  Forall batchedEvent es ->
  produces (Forall notLayout) (handleEvents createCellUri platformEOL es).
Proof.
  induction 1 as [|e es He Hes IH]; cbn [handleEvents].
  - produces_auto.
  - apply produces_bind; [typeclasses eauto|apply handleEvent_batched; exact He|].
    intros _. exact IH.
Qed.

Lemma componentDidMount_batched (p : Props) :
  is_true_strict (batchLayoutChanges p) = true ->
  produces (Forall notLayout) (componentDidMount uriFile platformEOL monacoCreate p).
Proof.
  intros Hb. unfold componentDidMount. unfold_ops. rewrite Hb. produces_auto.
Qed.

(** X24: with [batchLayoutChanges] set, the component never calls
    [editor.layout] itself: neither at mount nor for any later update,
    resize, intersection report, content-size change or layout request.
    Every layout call it makes is a hand-over to the scheduler. *)
Theorem batched_instance_never_lays_out_itself
        (p : Props) (es : list Event) (w : World) :
  is_true_strict (batchLayoutChanges p) = true ->
  Forall batchedEvent es ->
  let mounted := componentDidMount uriFile platformEOL monacoCreate p w in
  let r := handleEvents createCellUri platformEOL es (st mounted) in
  forall d, Layout d ∉ tr mounted ++ tr r.
Proof.
  intros Hb Hes mounted r d Hin.
  assert (H : Forall notLayout (tr mounted ++ tr r)).
  { apply Forall_app. split.
    - apply componentDidMount_batched; exact Hb.
    - apply handleEvents_batched; exact Hes. }
  rewrite Forall_forall in H. apply H in Hin. discriminate.
Qed.

End Batched.

(** ** What unmount leaves in the registry *)

Ltac throws_branch throws :=
  match goal with
  | |- context [bind (if throws ?op then _ else _) _ _] =>
      let E := fresh "E" in destruct (throws op) eqn:E
  | |- context [(if throws ?op then _ else _) ?w] =>
      let E := fresh "E" in destruct (throws op) eqn:E
  end.

(** Unmount removes at most the model of the editor from the registry,
    whatever throws, and leaves the timers alone. *)
Lemma componentWillUnmount_registry (throws : TeardownOp -> bool) (w : World) :
  let r := componentWillUnmount throws w in
  timers (st r) = timers w /\
  ((models (st r) = models w /\ List.filter is_modelDispose (tr r) = []) \/
   (exists u m, editorModel w = Some (u, m) /\
      models (st r) = delete u (models w) /\
      List.filter is_modelDispose (tr r) = [ModelDispose u])).
Proof.
  intros r. subst r.
  destruct w as [ed ref cl ml io iv dr dd ms ts].
  unfold componentWillUnmount, tryCatch, teardownBody, ethen, native, pure, skip,
    modelDispose, modifyEditor.
  destruct ed as [e|].
  2:{ destruct ml; repeat (exec; try throws_branch throws);
        unfold prepend, ret; world_cbn; (split; [reflexivity|left; split; reflexivity]). }
  match goal with
  | |- context [mkWorld ?a ?b ?c ?d ?e ?f ?g ?h ?i ?j] =>
      remember (editorModel (mkWorld a b c d e f g h i j)) as em eqn:Hem
  end.
  destruct em as [[u m]|]; destruct ref as [c|]; destruct io; destruct ml.
  all: repeat (exec; try rewrite <- Hem; cbn [fst]; try throws_branch throws).
  all: unfold prepend, ret; world_cbn; try rewrite <- Hem;
    cbn [app List.filter is_modelDispose];
    (split; [reflexivity|]);
    first [left; split; reflexivity
          |right; eexists _, _; split; [reflexivity|split; reflexivity]].
Qed.

(** X25: whatever is thrown during unmount, the only model unmount can
    dispose of is the one the editor shows, and it does so at most once;
    every other model stays in the registry as it was, and the disposals
    still waiting on a timer stay scheduled. *)
Theorem unmount_spares_every_other_model (throws : TeardownOp -> bool) (w : World) :
  let r := componentWillUnmount throws w in
  (forall u, ModelDispose u ∈ tr r -> exists m, editorModel w = Some (u, m)) /\
  (forall u, (fst <$> editorModel w) <> Some u ->
     models (st r) !! u = models w !! u) /\
  (count is_modelDispose (tr r) <= 1)%nat /\
  timers (st r) = timers w.
Proof.
  intros r.
  destruct (componentWillUnmount_registry throws w)
    as [Ht [[Hm Hf]|(u0 & m0 & Hem & Hm & Hf)]]; fold r in Ht, Hm, Hf.
  - split; [|split; [|split]].
    + intros u Hu.
      assert (Hin : In (ModelDispose u) (List.filter is_modelDispose (tr r)))
        by (apply filter_In; split; [apply list_elem_of_In; exact Hu|reflexivity]).
      rewrite Hf in Hin. destruct Hin.
    + intros u _. rewrite Hm. reflexivity.
    + unfold count. rewrite Hf. cbn. lia.
    + exact Ht.
  - split; [|split; [|split]].
    + intros u Hu.
      assert (Hin : In (ModelDispose u) (List.filter is_modelDispose (tr r)))
        by (apply filter_In; split; [apply list_elem_of_In; exact Hu|reflexivity]).
      rewrite Hf in Hin. destruct Hin as [E|[]]. inversion E; subst.
      exists m0. exact Hem.
    + intros u Hu. rewrite Hm. apply lookup_delete_ne.
      intros ->. apply Hu. rewrite Hem. reflexivity.
    + unfold count. rewrite Hf. cbn. lia.
    + exact Ht.
Qed.

(** ** How often focus is asked for *)

Lemma count_app (f : Call -> bool) (l1 l2 : list Call) :
  count f (l1 ++ l2) = (count f l1 + count f l2)%nat.
Proof. unfold count. rewrite List.filter_app, length_app. reflexivity. Qed.

Lemma count_none (f : Call -> bool) (l : list Call) :
  Forall (fun c => f c = false) l -> count f l = 0%nat.
Proof. intros H. unfold count. rewrite (filter_none _ _ H). reflexivity. Qed.

Lemma focusIfRequested_at_most_one (p : Props) (w : World) :
  (count is_focus (tr (focusIfRequested p w)) <= 1)%nat /\
  count is_createModel (tr (focusIfRequested p w)) = 0%nat.
Proof.
  unfold focusIfRequested, hasWidgetFocus, focus, modifyEditor.
  destruct (truthy (editorFocused p)); [|cbn; lia].
  exec.
  destruct (match editor w with Some e => ed_hasWidgetFocus e | None => false end);
    exec; unfold prepend, ret; cbn; lia.
Qed.

Section FocusCount.

Variable createCellUri : string -> string -> string -> Uri.
Variable uriFile : string -> Uri.
Variable platformEOL : EndOfLineSequence.
Variable monacoCreate : Container -> Uri -> Editor.

Local Abbreviation didMount := (componentDidMount uriFile platformEOL monacoCreate).
Local Abbreviation didUpdate := (componentDidUpdate createCellUri platformEOL).
Local Abbreviation languageChange := (applyLanguageChange createCellUri platformEOL).

Lemma updatePrologue_no_focus (p : Props) :
  produces (Forall notFocus) (updatePrologue p).
Proof. unfold_ops. produces_auto. Qed.

Lemma syncValue_no_focus (prevProps p : Props) :
  produces (Forall notFocus) (syncValue prevProps p).
Proof. unfold_ops. produces_auto. Qed.

Lemma registerCompletionProvider_no_focus (p : Props) :
  produces (Forall notFocus) (registerCompletionProvider p).
Proof. unfold_ops. produces_auto. Qed.

(** The language block asks for focus only when it creates a model. *)
Lemma applyLanguageChange_focus (p : Props) (w : World) :
  (count is_focus (tr (languageChange p w)) <=
   count is_createModel (tr (languageChange p w)))%nat.
Proof.
  destruct (editorModel w) as [[u m]|] eqn:Hm.
  2:{ rewrite applyLanguageChange_idle by auto. cbn. lia. }
  destruct (decide (language p = "")) as [Hl|Hl].
  { rewrite applyLanguageChange_idle by auto. cbn. lia. }
  destruct (decide (model_language m = language p)) as [Hd|Hd].
  { rewrite applyLanguageChange_idle by eauto 6. cbn. lia. }
  destruct (models w !! createCellUri (contentRef p) (id p) (language p)) eqn:Hx.
  - rewrite (applyLanguageChange_reuse createCellUri platformEOL p w u m Hm Hl Hd) by (rewrite Hx; discriminate).
    cbn. lia.
  - destruct (applyLanguageChange_create createCellUri platformEOL p w u m Hm Hl Hd Hx) as (w' & Ht & _).
    rewrite Ht. rewrite !count_app.
    destruct (focusIfRequested_at_most_one p w') as [H1 H2].
    rewrite H2.
    destruct (match editor w with Some e => ed_position e | None => None end);
      cbn; lia.
Qed.

Lemma updateEpilogue_focus (p : Props) (w : World) :
  (count is_focus (tr (updateEpilogue p w)) <= 1)%nat.
Proof.
  unfold updateEpilogue. rewrite bind_emit, tr_prepend, bind_gets.
  destruct (match editorContainerRef w with Some c => offsetParent c | None => false end);
    [|cbn; lia].
  rewrite tr_bind. change (?a :: ?l) with ([a] ++ l). rewrite !count_app.
  destruct (focusIfRequested_at_most_one p w) as [H1 _].
  assert (H2 : count is_focus (tr (requestLayout p None (st (focusIfRequested p w)))) = 0%nat).
  { apply count_none.
    assert (H : produces (Forall notFocus) (requestLayout p None))
      by (unfold_ops; produces_auto).
    apply H. }
  rewrite H2. cbn. lia.
Qed.

Lemma mountFocus_focus (p : Props) (w : World) :
  (count is_focus (tr (mountFocus p w)) <= 1)%nat.
Proof.
  unfold mountFocus. rewrite tr_bind, count_app.
  assert (H1 : produces (Forall notFocus) (toggleEditorOptions (truthy (editorFocused p))))
    by (unfold_ops; produces_auto).
  rewrite (count_none _ _ (H1 w)).
  destruct (truthy (editorFocused p)) eqn:Hf; [|cbn; lia].
  rewrite tr_bind, count_app.
  assert (H2 : produces (Forall notFocus) (registerCursorListener p))
    by (unfold_ops; produces_auto).
  rewrite (count_none _ _ (H2 _)).
  pose proof (focusIfRequested_at_most_one p (st (toggleEditorOptions true w))) as [H3 _].
  unfold focusIfRequested in H3. rewrite Hf in H3. lia.
Qed.

(** X26: mount asks the editor for focus at most once.  An update pass asks
    at most once as well, except in a pass that creates a model for a new
    language, where the language block and the end of the pass may each
    ask once. *)
Theorem focus_is_asked_for_once_or_once_more_after_a_swap
        (prevProps p : Props) (w : World) :
  (count is_focus (tr (didMount p w)) <= 1)%nat /\
  (count is_focus (tr (didUpdate prevProps p w)) <=
   1 + count is_createModel (tr (didUpdate prevProps p w)))%nat.
Proof.
  split.
  - destruct (editorContainerRef w) as [c|] eqn:Hc.
    2:{ unfold componentDidMount. rewrite bind_gets, Hc. cbn. lia. }
    destruct (componentDidMount_blocks uriFile platformEOL monacoCreate p w c Hc)
      as [Ht _].
    rewrite Ht. rewrite !count_app.
    assert (H1 : produces (Forall notFocus) (updateIntersectRegistration p))
      by (unfold_ops; produces_auto).
    assert (H2 : produces (Forall notFocus) (registerDocumentFormatter p))
      by (unfold_ops; produces_auto).
    assert (H3 : produces (Forall notFocus)
                   (mountModel uriFile platformEOL monacoCreate p c))
      by (unfold mountModel; unfold_ops; produces_auto).
    assert (H4 : produces (Forall notFocus) (mountHandlers p))
      by (unfold mountHandlers; unfold_ops; produces_auto).
    assert (H5 : produces (Forall notFocus) mountListeners)
      by (unfold mountListeners; produces_auto).
    assert (H6 : produces (Forall notFocus) (requestLayout p (initialDimension p)))
      by (unfold_ops; produces_auto).
    assert (H7 : produces (Forall notFocus) (mountTail p))
      by (unfold mountTail; unfold_ops; produces_auto).
    rewrite (count_none _ _ (H1 _)).
    rewrite (count_none _ _ (H2 _)).
    rewrite (count_none _ _ (H3 _)).
    rewrite (count_none _ _ (H4 _)).
    match goal with
    | |- context [count is_focus (tr (mountListeners ?x))] =>
        rewrite (count_none _ _ (H5 x))
    end.
    rewrite (count_none _ _ (H6 _)).
    rewrite (count_none _ _ (H7 _)).
    rewrite (count_none _ _ (registerCompletionProvider_no_focus p _)).
    pose proof (mountFocus_focus p
      (st (mountHandlers p
         (st (mountModel uriFile platformEOL monacoCreate p c
                (st (updateIntersectRegistration p w))))))).
    lia.
  - destruct (editor w) eqn:He.
    2:{ unfold componentDidUpdate. rewrite bind_gets, He. cbn. lia. }
    assert (Hl : editor w <> None) by congruence.
    destruct (componentDidUpdate_blocks createCellUri platformEOL prevProps p w Hl)
      as [Ht _].
    rewrite Ht. rewrite !count_app.
    rewrite (count_none _ _ (updatePrologue_no_focus p w)).
    rewrite (count_none _ _ (syncValue_no_focus prevProps p _)).
    rewrite (count_none _ _ (registerCompletionProvider_no_focus p _)).
    pose proof (applyLanguageChange_focus p
                  (st (registerCompletionProvider p
                         (st (syncValue prevProps p (st (updatePrologue p w))))))).
    pose proof (updateEpilogue_focus p
                  (st (languageChange p
                     (st (registerCompletionProvider p
                         (st (syncValue prevProps p (st (updatePrologue p w))))))))).
    unfold count in *. cbn [List.filter is_focus is_createModel length]. lia.
Qed.

End FocusCount.

Lemma batched_instance_witness :
  is_true_strict (batchLayoutChanges batchedProps) = true /\
  Forall batchedEvent
    [Resized batchedProps; DidUpdate sampleProps batchedProps;
     LayoutRequested batchedProps (Some (mkDimension 300 120))] /\
  List.filter is_layout_or_schedule
    (tr (componentDidMount sampleUriFile LF sampleCreate batchedProps
           (constructed (Some sampleContainer) ∅ [])) ++
     tr (handleEvents sampleCellUri LF
           [Resized batchedProps; DidUpdate sampleProps batchedProps;
            LayoutRequested batchedProps (Some (mkDimension 300 120))]
           (st (componentDidMount sampleUriFile LF sampleCreate batchedProps
                  (constructed (Some sampleContainer) ∅ []))))) =
    [ScheduleEditorForLayout None; ScheduleEditorForLayout None;
     ScheduleEditorForLayout None;
     ScheduleEditorForLayout (Some (mkDimension 300 120))] /\
  (forall d,
     Layout d ∉
       tr (componentDidMount sampleUriFile LF sampleCreate batchedProps
             (constructed (Some sampleContainer) ∅ [])) ++
       tr (handleEvents sampleCellUri LF
             [Resized batchedProps; DidUpdate sampleProps batchedProps;
              LayoutRequested batchedProps (Some (mkDimension 300 120))]
             (st (componentDidMount sampleUriFile LF sampleCreate batchedProps
                    (constructed (Some sampleContainer) ∅ []))))).
Proof.
  assert (Hb : is_true_strict (batchLayoutChanges batchedProps) = true)
    by reflexivity.
  assert (Hes : Forall batchedEvent
                  [Resized batchedProps; DidUpdate sampleProps batchedProps;
                   LayoutRequested batchedProps (Some (mkDimension 300 120))])
    by (repeat constructor).
  split; [exact Hb|]. split; [exact Hes|]. split; [vm_compute; reflexivity|].
  apply (batched_instance_never_lays_out_itself sampleCellUri sampleUriFile LF
           sampleCreate batchedProps _ _ Hb Hes).
Defined.
